(** * boltradar: the repository analysis edge function

    A shallow embedding of the `analyze-repository` edge function: the
    request handler with its validation of the repository URL, the fetching
    of the repository data, the badge check, the commit pattern analysis,
    the hackathon eligibility check, the normalisation of the Gemini reply
    with its fallback, and the assembly of the result object.  The
    repository carries two versions of the function; they are embedded side
    by side as [Part000] (the version with the bolt.new badge check) and
    [Part001].  The decisions of the page that shows the result are embedded
    as [App].

    The remote services and the environment are a record [World] of their
    answers; an exception is the [None] or the left summand of a result.

    JavaScript values are modelled as follows.
    - A string is the list of its UTF-16 code units.
    - A finite Number is the rational it denotes; arithmetic rounds to
      binary64 (53 bits, nearest, ties to even).  The exponent range is not
      bounded, so overflow to Infinity and subnormal numbers are outside the
      model.  NaN is [None] where it can arise.
    - A Date is its time value in milliseconds, [None] for Invalid Date.
    - The local time zone is a constant offset [tz] in milliseconds. *)

From Stdlib Require Import ZArith NArith QArith Qround Qpower Qabs.
From Stdlib Require Import Lia Lqa List Bool String Ascii.
From Stdlib Require Import Permutation Sorted.
Import ListNotations.

Set Implicit Arguments.
Local Open Scope Z_scope.

(** ** Strings *)

Module JSString.

Definition jsstring := list N.

Definition lit (s : string) : jsstring :=
  List.map N_of_ascii (list_ascii_of_string s).

Definition unit_eqb (a b : N) : bool := N.eqb a b.

Fixpoint eqb (s t : jsstring) : bool :=
  match s, t with
  | [], [] => true
  | a :: s', b :: t' => unit_eqb a b && eqb s' t'
  | _, _ => false
  end.

(** WhiteSpace and LineTerminator code points: the set used by
    [String.prototype.trim], by [\s] in a regular expression and by
    [parseInt]. *)
Definition isWhiteSpace (c : N) : bool :=
  ((9 <=? c) && (c <=? 13) || (c =? 32) || (c =? 160) || (c =? 5760)
   || (8192 <=? c) && (c <=? 8202) || (c =? 8232) || (c =? 8233)
   || (c =? 8239) || (c =? 8287) || (c =? 12288) || (c =? 65279))%N.

Fixpoint dropWhile (p : N -> bool) (s : jsstring) : jsstring :=
  match s with
  | [] => []
  | c :: s' => if p c then dropWhile p s' else s
  end.

Definition trimStart (s : jsstring) : jsstring := dropWhile isWhiteSpace s.

Definition trimEnd (s : jsstring) : jsstring :=
  rev (dropWhile isWhiteSpace (rev s)).

(** [s.trim()] *)
Definition trim (s : jsstring) : jsstring := trimEnd (trimStart s).

Fixpoint startsWith (p s : jsstring) : bool :=
  match p, s with
  | [], _ => true
  | a :: p', b :: s' => unit_eqb a b && startsWith p' s'
  | _ :: _, [] => false
  end.

(** [s.includes(p)] *)
Fixpoint includes (p s : jsstring) : bool :=
  startsWith p s ||
  match s with
  | [] => false
  | _ :: s' => includes p s'
  end.

(** [s.indexOf(c)] for a one-unit pattern; [None] stands for -1. *)
Fixpoint indexOf (c : N) (s : jsstring) : option nat :=
  match s with
  | [] => None
  | a :: s' =>
      if unit_eqb a c then Some O
      else match indexOf c s' with
           | Some i => Some (S i)
           | None => None
           end
  end.

(** [s.lastIndexOf(c)] for a one-unit pattern. *)
Fixpoint lastIndexOf (c : N) (s : jsstring) : option nat :=
  match s with
  | [] => None
  | a :: s' =>
      match lastIndexOf c s' with
      | Some i => Some (S i)
      | None => if unit_eqb a c then Some O else None
      end
  end.

(** [s.substring(a, b)] for [a <= b]. *)
Definition substring (a b : nat) (s : jsstring) : jsstring :=
  firstn (b - a) (skipn a s).

(** [s.toLowerCase()], as far as a later search for an ASCII pattern can
    tell: the Latin capitals, and the two other code points whose lower case
    contains an ASCII letter (KELVIN SIGN, and LATIN CAPITAL LETTER I WITH
    DOT ABOVE, which becomes [i] followed by U+0307).  Other code units are
    left as they are. *)
Definition lowerUnit (c : N) : jsstring :=
  if ((65 <=? c) && (c <=? 90))%N then [(c + 32)%N]
  else if (c =? 8490)%N then [107%N]
  else if (c =? 304)%N then [105%N; 775%N]
  else [c].

Definition toLowerCase (s : jsstring) : jsstring := flat_map lowerUnit s.

(** Decimal digits of a natural number, most significant first. *)
Fixpoint digitsFuel (fuel : nat) (n : Z) (acc : jsstring) : jsstring :=
  match fuel with
  | O => acc
  | S fuel' =>
      let acc' := Z.to_N (48 + n mod 10) :: acc in
      if n / 10 =? 0 then acc' else digitsFuel fuel' (n / 10) acc'
  end.

Definition digits (n : Z) : jsstring :=
  digitsFuel (S (Z.to_nat (Z.log2 n))) n [].

(** [String(n)] for an integer [n] below 10^21. *)
Definition ofInt (n : Z) : jsstring :=
  if n <? 0 then 45%N :: digits (- n) else digits n.

(** Zero padding on the left to a width. *)
Definition padStart (w : nat) (s : jsstring) : jsstring :=
  repeat 48%N (w - List.length s) ++ s.

(** The global replacement [s.replace(/```json\s*|\s*```/g, '')].  At each
    position the first alternative is tried before the second; a match is
    removed and the scan resumes after it. *)
Definition fence : jsstring := [96; 96; 96]%N.
Definition fenceJson : jsstring := [96; 96; 96; 106; 115; 111; 110]%N.

Fixpoint spanLength (p : N -> bool) (s : jsstring) : nat :=
  match s with
  | [] => O
  | c :: s' => if p c then S (spanLength p s') else O
  end.

Definition fenceMatch (s : jsstring) : nat :=
  if startsWith fenceJson s then
    (7 + spanLength isWhiteSpace (skipn 7 s))%nat
  else
    let w := spanLength isWhiteSpace s in
    if startsWith fence (skipn w s) then (w + 3)%nat else O.

Fixpoint stripFencesFrom (skip : nat) (s : jsstring) : jsstring :=
  match s with
  | [] => []
  | c :: s' =>
      match skip with
      | S k => stripFencesFrom k s'
      | O =>
          match fenceMatch s with
          | O => c :: stripFencesFrom O s'
          | S k => stripFencesFrom k s'
          end
      end
  end.

Definition stripFences (s : jsstring) : jsstring := stripFencesFrom O s.

End JSString.

Import JSString.

(** ** Numbers *)

Module Number.

Local Open Scope Q_scope.

(** Floor of the binary logarithm of a positive rational. *)
Definition ilog2 (q : Q) : Z :=
  let e := (Z.log2 (Qnum q) - Z.log2 (Zpos (Qden q)))%Z in
  if Qle_bool (2 ^ e) q then e else (e - 1)%Z.

(** Rounding to the nearest integer, ties to even. *)
Definition roundEven (x : Q) : Z :=
  let f := Qfloor x in
  match Qcompare (x - inject_Z f) (1 # 2) with
  | Lt => f
  | Gt => (f + 1)%Z
  | Eq => if Z.even f then f else (f + 1)%Z
  end.

(** The binary64 value nearest to a positive rational: the significand is
    rounded at 53 bits, in units of [2 ^ (ilog2 q - 52)]. *)
Definition round64pos (q : Q) : Q :=
  let u := 2 ^ (ilog2 q - 52) in
  inject_Z (roundEven (q / u)) * u.

Definition round64 (q : Q) : Q :=
  Qred match Qnum q with
       | Z0 => 0
       | Zpos _ => round64pos q
       | Zneg _ => - round64pos (- q)
       end.

(** The arithmetic operators on Numbers. *)
Definition add (a b : Q) : Q := round64 (a + b).
Definition mul (a b : Q) : Q := round64 (a * b).
Definition div (a b : Q) : Q := round64 (a / b).

(** [Math.round]: the nearest integer, ties towards positive infinity. *)
Definition Math_round (x : Q) : Z := Qfloor (x + (1 # 2)).

(** [Math.min] on two finite Numbers. *)
Definition Math_min (a b : Q) : Q := if Qle_bool a b then a else b.

(** [a > b] on finite Numbers. *)
Definition gtb (a b : Q) : bool := negb (Qle_bool a b).

(** The Number is an integer. *)
Definition isInteger (q : Q) : bool := Qeq_bool (inject_Z (Qfloor q)) q.

(** The value of a decimal literal [m * 10^e]. *)
Definition ofDecimal (m e : Z) : Q := round64 (inject_Z m * 10 ^ e).

(** Floor of the decimal logarithm of a positive rational: an estimate
    from the binary logarithm, corrected by comparison. *)
Fixpoint adjustLog10 (fuel : nat) (q : Q) (e : Z) : Z :=
  match fuel with
  | O => e
  | S fuel' =>
      if negb (Qle_bool (10 ^ e) q) then adjustLog10 fuel' q (e - 1)%Z
      else if Qle_bool (10 ^ (e + 1)) q then adjustLog10 fuel' q (e + 1)%Z
      else e
  end.

Definition ilog10 (q : Q) : Z :=
  adjustLog10 4 q ((ilog2 q * 30103) / 100000)%Z.

(** [Number::toString]: the shortest decimal [s * 10^(n-k)], with [k]
    digits, that reads back as the same binary64 value. *)
Definition candidate (q : Q) (n : Z) (k : Z) (s : Z) : option (Z * Z * Z) :=
  if Qeq_bool (round64 (inject_Z s * 10 ^ (n - k))) q then
    if (s =? 10 ^ k)%Z then Some ((n + 1)%Z, k, (10 ^ (k - 1))%Z)
    else Some (n, k, s)
  else None.

Definition closer (q : Q) (a b : Z * Z * Z) : Z * Z * Z :=
  let val := fun t : Z * Z * Z =>
    let '(n, k, s) := t in inject_Z s * 10 ^ (n - k) in
  if Qle_bool (Qabs (val a - q)) (Qabs (val b - q)) then a else b.

Fixpoint shortest (fuel : nat) (q : Q) (n : Z) (k : Z) : Z * Z * Z :=
  let lo := Qfloor (q / 10 ^ (n - k)) in
  match fuel with
  | O => (n, k, lo)
  | S fuel' =>
      match candidate q n k lo, candidate q n k (lo + 1)%Z with
      | Some a, Some b => closer q a b
      | Some a, None => a
      | None, Some b => b
      | None, None => shortest fuel' q n (k + 1)%Z
      end
  end.

Definition formatDigits (n k s : Z) : jsstring :=
  let ds := padStart (Z.to_nat k) (digits s) in
  let expo := fun e : Z =>
    101%N :: (if (e <? 0)%Z then 45%N else 43%N) :: digits (Z.abs e) in
  if ((k <=? n) && (n <=? 21))%Z then
    ds ++ repeat 48%N (Z.to_nat (n - k))
  else if ((0 <? n) && (n <=? 21))%Z then
    firstn (Z.to_nat n) ds ++ 46%N :: skipn (Z.to_nat n) ds
  else if ((-6 <? n) && (n <=? 0))%Z then
    48%N :: 46%N :: repeat 48%N (Z.to_nat (- n)) ++ ds
  else if (k =? 1)%Z then
    ds ++ expo (n - 1)%Z
  else
    firstn 1 ds ++ 46%N :: skipn 1 ds ++ expo (n - 1)%Z.

Definition toStringPos (q : Q) : jsstring :=
  let '(n, k, s) := shortest 17 q (ilog10 q + 1)%Z 1%Z in
  formatDigits n k s.

(** [String(x)] for a finite Number [x]. *)
Definition toString (q : Q) : jsstring :=
  match Qnum q with
  | Z0 => [48%N]
  | Zpos _ => toStringPos q
  | Zneg _ => 45%N :: toStringPos (- q)
  end.

(** [parseInt(s)] without a radix; [None] stands for NaN. *)
Definition digitValue (radix : Z) (c : N) : option Z :=
  let v :=
    if ((48 <=? c) && (c <=? 57))%N then (Z.of_N c - 48)%Z
    else if ((97 <=? c) && (c <=? 122))%N then (Z.of_N c - 87)%Z
    else if ((65 <=? c) && (c <=? 90))%N then (Z.of_N c - 55)%Z
    else 36%Z in
  if (v <? radix)%Z then Some v else None.

Fixpoint readDigits (radix : Z) (s : jsstring) (acc : option Z) : option Z :=
  match s with
  | [] => acc
  | c :: s' =>
      match digitValue radix c with
      | Some v =>
          readDigits radix s'
            (Some (match acc with Some a => a * radix + v | None => v end)%Z)
      | None => acc
      end
  end.

Definition parseInt (s : jsstring) : option Q :=
  let s1 := trimStart s in
  let '(sign, s2) :=
    match s1 with
    | 45%N :: r => ((-1)%Z, r)
    | 43%N :: r => (1%Z, r)
    | _ => (1%Z, s1)
    end in
  let '(radix, s3) :=
    match s2 with
    | 48%N :: 120%N :: r => (16%Z, r)
    | 48%N :: 88%N :: r => (16%Z, r)
    | _ => (10%Z, s2)
    end in
  match readDigits radix s3 None with
  | Some v => Some (round64 (inject_Z (sign * v)))
  | None => None
  end.

End Number.

(** ** Dates *)

Module JSDate.

(** A Date object: its time value, or [None] for Invalid Date. *)
Definition Date := option Z.

Definition msPerDay : Z := 86400000.

Definition isLeap (y : Z) : bool :=
  ((y mod 4 =? 0) && negb (y mod 100 =? 0)) || (y mod 400 =? 0).

(** Day number of the first day of year [y]. *)
Definition DayFromYear (y : Z) : Z :=
  365 * (y - 1970) + (y - 1969) / 4 - (y - 1901) / 100 + (y - 1601) / 400.

Fixpoint adjustYear (fuel : nat) (day y : Z) : Z :=
  match fuel with
  | O => y
  | S fuel' =>
      if day <? DayFromYear y then adjustYear fuel' day (y - 1)
      else if DayFromYear (y + 1) <=? day then adjustYear fuel' day (y + 1)
      else y
  end.

(** The year that contains day number [day]. *)
Definition YearFromDay (day : Z) : Z :=
  adjustYear 4 day (1970 + (day * 400) / 146097).

(** Days before month [m] (0 = January) in a year. *)
Definition monthStart (leap : bool) (m : Z) : Z :=
  let l := if leap then 1 else 0 in
  match m with
  | 0 => 0 | 1 => 31 | 2 => 59 + l | 3 => 90 + l | 4 => 120 + l
  | 5 => 151 + l | 6 => 181 + l | 7 => 212 + l | 8 => 243 + l
  | 9 => 273 + l | 10 => 304 + l | 11 => 334 + l | _ => 365 + l
  end.

Fixpoint findMonth (fuel : nat) (leap : bool) (dayInYear m : Z) : Z :=
  match fuel with
  | O => m
  | S fuel' =>
      if dayInYear <? monthStart leap (m + 1) then m
      else findMonth fuel' leap dayInYear (m + 1)
  end.

(** Year, month (0 = January) and day of the month of a day number. *)
Definition civil (day : Z) : Z * Z * Z :=
  let y := YearFromDay day in
  let diy := day - DayFromYear y in
  let m := findMonth 11 (isLeap y) diy 0 in
  (y, m, diy - monthStart (isLeap y) m + 1).

Definition MakeDay (y m d : Z) : Z :=
  DayFromYear y + monthStart (isLeap y) m + d - 1.

Definition daysInMonth (y m : Z) : Z :=
  monthStart (isLeap y) (m + 1) - monthStart (isLeap y) m.

Definition TimeClip (t : Z) : Date :=
  if Z.abs t <=? 8640000000000000 then Some t else None.

(** Reading of fixed-width decimal fields. *)
Fixpoint readField (n : nat) (s : jsstring) (acc : Z) : option (Z * jsstring) :=
  match n with
  | O => Some (acc, s)
  | S n' =>
      match s with
      | c :: s' =>
          if ((48 <=? c) && (c <=? 57))%N
          then readField n' s' (acc * 10 + (Z.of_N c - 48))
          else None
      | [] => None
      end
  end.

Definition expect (c : N) (s : jsstring) : option jsstring :=
  match s with
  | a :: s' => if (a =? c)%N then Some s' else None
  | [] => None
  end.

(** The offset part: [Z], [+HH:mm] or [-HH:mm], or nothing for local
    time.  The result is the offset from UTC in milliseconds. *)
Definition readOffset (tz : Z) (s : jsstring) : option Z :=
  match s with
  | [] => Some tz
  | [90%N] => Some 0
  | sg :: r =>
      if ((sg =? 43) || (sg =? 45))%N then
        match readField 2 r 0 with
        | Some (h, r1) =>
            match expect 58 r1 with
            | Some r2 =>
                match readField 2 r2 0 with
                | Some (m, []) =>
                    if (h <=? 23) && (m <=? 59) then
                      let off := (h * 60 + m) * 60000 in
                      Some (if (sg =? 45)%N then - off else off)
                    else None
                | _ => None
                end
            | None => None
            end
        | None => None
        end
      else None
  end.

(** The time part after [T]: [HH:mm], [HH:mm:ss] or [HH:mm:ss.sss],
    then the offset.  The result is the time within the day and the
    offset. *)
Definition readTime (tz : Z) (s : jsstring) : option (Z * Z) :=
  match readField 2 s 0 with
  | Some (h, r1) =>
      match expect 58 r1 with
      | Some r2 =>
          match readField 2 r2 0 with
          | Some (mi, r3) =>
              let '(sec, r5) :=
                match expect 58 r3 with
                | Some r4 =>
                    match readField 2 r4 0 with
                    | Some (x, r) => (Some x, r)
                    | None => (None, r3)
                    end
                | None => (Some 0, r3)
                end in
              let '(ms, r7) :=
                match expect 46 r5 with
                | Some r6 =>
                    match readField 3 r6 0 with
                    | Some (x, r) => (Some x, r)
                    | None => (None, r5)
                    end
                | None => (Some 0, r5)
                end in
              match sec, ms, readOffset tz r7 with
              | Some se, Some ml, Some off =>
                  let t := ((h * 60 + mi) * 60 + se) * 1000 + ml in
                  if (mi <=? 59) && (se <=? 59)
                     && ((h <=? 23) || ((h =? 24) && (t =? msPerDay)))
                  then Some (t, off) else None
              | _, _, _ => None
              end
          | None => None
          end
      | None => None
      end
  | None => None
  end.

(** [Date.parse] on the ECMAScript date-time string format
    [YYYY-MM-DDTHH:mm:ss.sssZ] and its shorter forms.  A form without a
    time is UTC; a time without an offset is local time.  Any other string
    is Invalid Date here (an engine may accept further, engine-specific
    formats). *)
Definition Date_parse (tz : Z) (s : jsstring) : Date :=
  match readField 4 s 0 with
  | Some (y, r1) =>
      let '(mo, r3) :=
        match expect 45 r1 with
        | Some r2 =>
            match readField 2 r2 0 with
            | Some (x, r) => (Some x, r)
            | None => (None, r1)
            end
        | None => (Some 1, r1)
        end in
      let '(dd, r5) :=
        match expect 45 r3 with
        | Some r4 =>
            match readField 2 r4 0 with
            | Some (x, r) => (Some x, r)
            | None => (None, r3)
            end
        | None => (Some 1, r3)
        end in
      match mo, dd with
      | Some m, Some d =>
          if (1 <=? m) && (m <=? 12) && (1 <=? d) && (d <=? daysInMonth y (m - 1))
          then
            let day := MakeDay y (m - 1) d in
            match r5 with
            | [] => TimeClip (day * msPerDay)
            | c :: r6 =>
                if (c =? 84)%N then
                  match readTime tz r6 with
                  | Some (t, off) => TimeClip (day * msPerDay + t - off)
                  | None => None
                  end
                else None
            end
          else None
      | _, _ => None
      end
  | None => None
  end.

Definition dayName (i : Z) : jsstring :=
  match i with
  | 0 => lit "Sun" | 1 => lit "Mon" | 2 => lit "Tue" | 3 => lit "Wed"
  | 4 => lit "Thu" | 5 => lit "Fri" | _ => lit "Sat"
  end.

Definition monthName (i : Z) : jsstring :=
  match i with
  | 0 => lit "Jan" | 1 => lit "Feb" | 2 => lit "Mar" | 3 => lit "Apr"
  | 4 => lit "May" | 5 => lit "Jun" | 6 => lit "Jul" | 7 => lit "Aug"
  | 8 => lit "Sep" | 9 => lit "Oct" | 10 => lit "Nov" | _ => lit "Dec"
  end.

(** [d.toDateString()], in local time. *)
Definition toDateString (tz : Z) (d : Date) : jsstring :=
  match d with
  | None => lit "Invalid Date"
  | Some t =>
      let day := (t + tz) / msPerDay in
      let '(y, m, dd) := civil day in
      dayName ((day + 4) mod 7) ++ 32%N :: monthName m ++ 32%N ::
      padStart 2 (digits dd) ++ 32%N ::
      (if y <? 0 then [45%N] else []) ++ padStart 4 (digits (Z.abs y))
  end.

(** [d.getHours()], in local time; [None] stands for NaN. *)
Definition getHours (tz : Z) (d : Date) : option Z :=
  match d with
  | None => None
  | Some t => Some (((t + tz) / 3600000) mod 24)
  end.

End JSDate.

Import JSDate.

(** ** JSON values and [JSON.parse] *)

Module JSON.

Set Warnings "-register-all".

Inductive json : Type :=
| JNull
| JBool (b : bool)
| JNum (q : Q)
| JStr (s : jsstring)
| JArr (l : list json)
| JObj (m : list (jsstring * json)).

(** Own property lookup.  [JSON.parse] keeps the last of several members
    with the same key. *)
Fixpoint get (k : jsstring) (m : list (jsstring * json)) : option json :=
  match m with
  | [] => None
  | (k', v) :: m' =>
      match get k m' with
      | Some w => Some w
      | None => if JSString.eqb k' k then Some v else None
      end
  end.

Definition hasKey (k : jsstring) (m : list (jsstring * json)) : bool :=
  match get k m with Some _ => true | None => false end.

Definition isJsonSpace (c : N) : bool :=
  ((c =? 32) || (c =? 9) || (c =? 10) || (c =? 13))%N.

Definition skipSpace (s : jsstring) : jsstring := dropWhile isJsonSpace s.

Definition isDigit (c : N) : bool := ((48 <=? c) && (c <=? 57))%N.

Definition hexValue (c : N) : option N :=
  if ((48 <=? c) && (c <=? 57))%N then Some (c - 48)%N
  else if ((97 <=? c) && (c <=? 102))%N then Some (c - 87)%N
  else if ((65 <=? c) && (c <=? 70))%N then Some (c - 55)%N
  else None.

(** The characters of a string literal after the opening quote. *)
Fixpoint parseChars (fuel : nat) (s acc : jsstring) : option (jsstring * jsstring) :=
  match fuel with
  | O => None
  | S fuel' =>
      match s with
      | [] => None
      | 34%N :: r => Some (rev acc, r)
      | 92%N :: e :: r =>
          let simple := fun c : N => parseChars fuel' r (c :: acc) in
          if (e =? 34)%N then simple 34%N
          else if (e =? 92)%N then simple 92%N
          else if (e =? 47)%N then simple 47%N
          else if (e =? 98)%N then simple 8%N
          else if (e =? 102)%N then simple 12%N
          else if (e =? 110)%N then simple 10%N
          else if (e =? 114)%N then simple 13%N
          else if (e =? 116)%N then simple 9%N
          else if (e =? 117)%N then
            match r with
            | a :: b :: c :: d :: r' =>
                match hexValue a, hexValue b, hexValue c, hexValue d with
                | Some x3, Some x2, Some x1, Some x0 =>
                    parseChars fuel' r'
                      (((x3 * 16 + x2) * 16 + x1) * 16 + x0 :: acc)%N
                | _, _, _, _ => None
                end
            | _ => None
            end
          else None
      | c :: r => if (c <? 32)%N then None else parseChars fuel' r (c :: acc)
      end
  end.

(** A run of decimal digits: its value, its length and the rest. *)
Fixpoint parseDigits (s : jsstring) (acc : Z) (n : Z) : Z * Z * jsstring :=
  match s with
  | c :: r =>
      if isDigit c then parseDigits r (acc * 10 + (Z.of_N c - 48)) (n + 1)
      else (acc, n, s)
  | [] => (acc, n, s)
  end.

(** A number literal: an optional minus sign, an integer part without a
    superfluous leading zero, an optional fraction of at least one digit,
    and an optional exponent of at least one digit. *)
Definition parseNumber (s : jsstring) : option (Q * jsstring) :=
  let '(neg, s1) :=
    match s with
    | 45%N :: r => (true, r)
    | _ => (false, s)
    end in
  let '(ip, ni, s2) := parseDigits s1 0 0 in
  if (ni =? 0) || ((1 <? ni) && startsWith [48%N] s1) then None
  else
    let frac :=
      match s2 with
      | 46%N :: r =>
          let '(fp, nf, r') := parseDigits r 0 0 in
          if nf =? 0 then None else Some (fp, nf, r')
      | _ => Some (0, 0, s2)
      end in
    match frac with
    | None => None
    | Some (fp, nf, s3) =>
        let expo :=
          match s3 with
          | e :: r =>
              if ((e =? 101) || (e =? 69))%N then
                let '(eneg, r1) :=
                  match r with
                  | 45%N :: r' => (true, r')
                  | 43%N :: r' => (false, r')
                  | _ => (false, r)
                  end in
                let '(ev, ne, r2) := parseDigits r1 0 0 in
                if ne =? 0 then None
                else Some (if eneg then - ev else ev, r2)
              else Some (0, s3)
          | [] => Some (0, s3)
          end in
        match expo with
        | None => None
        | Some (ev, s4) =>
            let m := ip * 10 ^ nf + fp in
            Some (Number.ofDecimal (if neg then - m else m) (ev - nf), s4)
        end
    end.

(** Recursive descent over values, array elements and object members. *)
Fixpoint parseValue (fuel : nat) (s : jsstring) : option (json * jsstring) :=
  match fuel with
  | O => None
  | S fuel' =>
      match skipSpace s with
      | [] => None
      | c :: r =>
          if (c =? 123)%N then
            match skipSpace r with
            | 125%N :: r' => Some (JObj [], r')
            | _ => parseMembers fuel' r []
            end
          else if (c =? 91)%N then
            match skipSpace r with
            | 93%N :: r' => Some (JArr [], r')
            | _ => parseElements fuel' r []
            end
          else if (c =? 34)%N then
            match parseChars (S (List.length r)) r [] with
            | Some (str, r') => Some (JStr str, r')
            | None => None
            end
          else if startsWith (lit "true") (c :: r) then Some (JBool true, skipn 3 r)
          else if startsWith (lit "false") (c :: r) then Some (JBool false, skipn 4 r)
          else if startsWith (lit "null") (c :: r) then Some (JNull, skipn 3 r)
          else
            match parseNumber (c :: r) with
            | Some (q, r') => Some (JNum q, r')
            | None => None
            end
      end
  end

with parseElements (fuel : nat) (s : jsstring) (acc : list json)
  : option (json * jsstring) :=
  match fuel with
  | O => None
  | S fuel' =>
      match parseValue fuel' s with
      | Some (v, r) =>
          match skipSpace r with
          | 44%N :: r' => parseElements fuel' r' (v :: acc)
          | 93%N :: r' => Some (JArr (rev (v :: acc)), r')
          | _ => None
          end
      | None => None
      end
  end

with parseMembers (fuel : nat) (s : jsstring) (acc : list (jsstring * json))
  : option (json * jsstring) :=
  match fuel with
  | O => None
  | S fuel' =>
      match skipSpace s with
      | 34%N :: r =>
          match parseChars (S (List.length r)) r [] with
          | Some (k, r1) =>
              match skipSpace r1 with
              | 58%N :: r2 =>
                  match parseValue fuel' r2 with
                  | Some (v, r3) =>
                      match skipSpace r3 with
                      | 44%N :: r4 => parseMembers fuel' r4 ((k, v) :: acc)
                      | 125%N :: r4 => Some (JObj (rev ((k, v) :: acc)), r4)
                      | _ => None
                      end
                  | None => None
                  end
              | _ => None
              end
          | None => None
          end
      | _ => None
      end
  end.

(** [JSON.parse(text)]; [None] stands for the SyntaxError. *)
Definition parse (text : jsstring) : option json :=
  match parseValue (S (List.length text)) text with
  | Some (v, r) =>
      match skipSpace r with
      | [] => Some v
      | _ => None
      end
  | None => None
  end.

(** [String(v)] on a parsed value; [None] stands for the TypeError raised
    when an object shadows [toString] with a value that is not a function. *)
Fixpoint toString (v : json) : option jsstring :=
  match v with
  | JNull => Some (lit "null")
  | JBool true => Some (lit "true")
  | JBool false => Some (lit "false")
  | JNum q => Some (Number.toString q)
  | JStr s => Some s
  | JArr l =>
      (fix join (l : list json) (first : bool) : option jsstring :=
         match l with
         | [] => Some []
         | x :: l' =>
             let sx := match x with JNull => Some [] | _ => toString x end in
             match sx, join l' false with
             | Some a, Some b => Some ((if first then [] else [44%N]) ++ a ++ b)
             | _, _ => None
             end
         end) l true
  | JObj m =>
      if hasKey (lit "toString") m then None else Some (lit "[object Object]")
  end.

End JSON.

Import JSON.

(** A string literal in which every apostrophe stands for a double quote. *)
Definition dq (s : string) : jsstring :=
  List.map (fun c => if (c =? 39)%N then 34%N else c) (lit s).

(** ** Interfaces of the edge function *)

Record GitHubCommit : Type := {
  sha : jsstring;
  commit_author_date : jsstring;
  commit_message : jsstring;
  commit_verification_verified : bool;
  commit_verification_reason : jsstring;
  author_login : option jsstring
}.

Record GitHubRepo : Type := {
  created_at : jsstring;
  updated_at : jsstring;
  language : jsstring;
  size : Z;
  default_branch : jsstring;
  full_name : jsstring
}.

(** The object returned by [analyzeWithGemini].  On the parsed path
    [summary] and the elements of the two lists are whatever JSON values the
    reply carried; further members of the reply are not kept here. *)
Record AIOpinion : Type := {
  summary : json;
  likelihood : Q;
  keyFindings : list json;
  recommendations : list json;
  confidence : jsstring
}.

Record Eligibility : Type := {
  isEligible : bool;
  reason : jsstring
}.

(** ** Code shared by the two versions *)

(** [new Date(commit.commit.author.date).getTime()] for every commit. *)
Definition commitTimes (tz : Z) (commits : list GitHubCommit) : list (option Z) :=
  map (fun commit => Date_parse tz (commit_author_date commit)) commits.

(** The comparator [(a, b) => a - b]; a NaN result counts as zero. *)
Definition compareTimes (a b : option Z) : Z :=
  match a, b with
  | Some x, Some y => x - y
  | _, _ => 0
  end.

(** [commitTimes.sort((a, b) => a - b)], as a stable insertion sort that
    takes the elements from left to right.  On numbers every sort gives
    this result.  When some time is NaN the comparator is not consistent
    and the language leaves the resulting order to the engine. *)
Fixpoint insertTime (x : option Z) (l : list (option Z)) : list (option Z) :=
  match l with
  | [] => [x]
  | y :: l' => if compareTimes x y <? 0 then x :: l else y :: insertTime x l'
  end.

Definition sortTimes (l : list (option Z)) : list (option Z) :=
  fold_left (fun sorted x => insertTime x sorted) l [].

Definition rapidThreshold : Z := 5 * 60 * 1000.

(** [commitTimes[i] - commitTimes[i - 1] < rapidThreshold]; false on NaN. *)
Definition isRapid (prev cur : option Z) : bool :=
  match prev, cur with
  | Some a, Some b => b - a <? rapidThreshold
  | _, _ => false
  end.

(** The loop over [i = 1 .. length - 1] that counts the rapid pairs. *)
Fixpoint countRapid (times : list (option Z)) : Z :=
  match times with
  | prev :: (cur :: _) as rest =>
      (if isRapid prev cur then 1 else 0) + countRapid rest
  | _ => 0
  end.

Definition countWhere {A : Type} (p : A -> bool) (l : list A) : Z :=
  Z.of_nat (List.length (filter p l)).

(** [Math.round((verifiedCommits / totalCommits) * 100)], or 0 without
    commits. *)
Definition percentage (verifiedCommits totalCommits : Z) : Z :=
  if totalCommits >? 0 then
    Number.Math_round
      (Number.mul (Number.div (inject_Z verifiedCommits) (inject_Z totalCommits))
                  (inject_Z 100))
  else 0.

Definition mentionsPackages (commit : GitHubCommit) : bool :=
  includes (lit "package.json") (toLowerCase (commit_message commit)) ||
  includes (lit "dependencies") (toLowerCase (commit_message commit)).

(** [hour >= 22 || hour <= 6] on [getHours()] of the commit date. *)
Definition isNight (tz : Z) (commit : GitHubCommit) : bool :=
  match getHours tz (Date_parse tz (commit_author_date commit)) with
  | Some hour => (hour >=? 22) || (hour <=? 6)
  | None => false
  end.

(** The literal [0.3]. *)
Definition c0_3 : Q := Number.ofDecimal 3 (-1).

(** The text handed to [JSON.parse]: trimmed, code fences removed, and cut
    to the span from the first opening to the last closing brace when there
    is one. *)
Definition cleanedText (aiText : jsstring) : jsstring :=
  let cleaned := stripFences (trim aiText) in
  match indexOf 123%N cleaned, lastIndexOf 125%N cleaned with
  | Some jsonStart, Some jsonEnd =>
      if (jsonStart <? jsonEnd)%nat
      then substring jsonStart (jsonEnd + 1) cleaned
      else cleaned
  | _, _ => cleaned
  end.

Definition requiredFields : list jsstring :=
  [lit "summary"; lit "likelihood"; lit "keyFindings";
   lit "recommendations"; lit "confidence"].

(** [Array.isArray(x) ? x : [String(x)]]; [None] when [String] throws. *)
Definition asArray (v : json) : option (list json) :=
  match v with
  | JArr l => Some l
  | _ => option_map (fun s => [JStr s]) (JSON.toString v)
  end.

(** [typeof x !== 'number' ? parseInt(String(x)) || heuristic : x];
    [None] when [String] throws. *)
Definition asNumber (heuristic : Q) (v : json) : option Q :=
  match v with
  | JNum q => Some q
  | _ =>
      match JSON.toString v with
      | Some s =>
          match Number.parseInt s with
          | Some n => Some (if Qeq_bool n 0 then heuristic else n)
          | None => Some heuristic
          end
      | None => None
      end
  end.

Definition levels : list jsstring := [lit "high"; lit "medium"; lit "low"].

(** [['high', 'medium', 'low'].includes(x)] *)
Definition isLevel (v : json) : option jsstring :=
  match v with
  | JStr s => if existsb (JSString.eqb s) levels then Some s else None
  | _ => None
  end.

Definition tier (high medium : bool) : jsstring :=
  if high then lit "high" else if medium then lit "medium" else lit "low".

(** [createdDate < hackathonStartDate]; false when either is NaN. *)
Definition before (a b : Date) : bool :=
  match a, b with
  | Some x, Some y => x <? y
  | _, _ => false
  end.

Definition notEligibleMark : jsstring :=
  [9888%N; 65039%N] ++ lit " Repository not eligible for hackathon".

(** ** The platform of the edge function *)

(** The outcome of a [fetch]: it rejects with the message of an error, or
    it gives a response with its status, the text of its body, and what
    [json()] makes of the body: the value, or the message of the
    SyntaxError. *)
Inductive Fetched (A : Type) : Type :=
| Rejected (message : jsstring)
| Responded (status : Z) (text : jsstring) (parsed : jsstring + A).

Arguments Rejected {A} message.
Arguments Responded {A} status text parsed.

(** [response.ok] *)
Definition ok (status : Z) : bool := (200 <=? status) && (status <=? 299).

(** What the handler reads from its surroundings: the local time zone,
    the two environment variables, the texts of the errors that the
    platform raises, and the answers of the remote services to the requests
    for a repository, for its commits, for a file of it, and to the request
    to the model with a key and a prompt. *)
Record World : Type := {
  timeZone : Z;
  GITHUB_TOKEN : option jsstring;
  GEMINI_API_KEY : option jsstring;
  messageOfSyntaxError : jsstring;
  messageOfTypeError : jsstring;
  repository : jsstring -> jsstring -> Fetched GitHubRepo;
  commitList : jsstring -> jsstring -> Fetched (list GitHubCommit);
  contents : jsstring -> jsstring -> jsstring -> Fetched json;
  generateContent : jsstring -> jsstring -> Fetched json
}.

Record Request : Type := {
  method : jsstring;
  body : jsstring
}.

(** A response: the answer to a preflight request, an error object with
    its status, or the analysis result with status 200. *)
Inductive Response (R : Type) : Type :=
| Preflight
| Failure (status : Z) (error : jsstring) (details : option jsstring)
| Success (result : R).

Arguments Preflight {R}.
Arguments Failure {R} status error details.
Arguments Success {R} result.


(** Whether a value, or [undefined], counts as true in a condition. *)
Definition truthy (v : option json) : bool :=
  match v with
  | None => false
  | Some JNull => false
  | Some (JBool b) => b
  | Some (JNum q) => negb (Qeq_bool q 0)
  | Some (JStr s) => match s with [] => false | _ => true end
  | Some (JArr _) => true
  | Some (JObj _) => true
  end.

(** [v.key] on a parsed value, for a key that no prototype defines: [None]
    stands for the TypeError on [null], [Some None] for [undefined]. *)
Definition member (key : jsstring) (v : json) : option (option json) :=
  match v with
  | JNull => None
  | JObj m => Some (get key m)
  | _ => Some None
  end.

(** *** The repository URL *)

Definition notSlash (c : N) : bool := negb (unit_eqb c 47%N).

(** A match of [/github\.com\/([^\/]+)\/([^\/]+)/] that starts at the
    beginning of [s], with its two groups.  Each group takes the longest
    run without a slash; giving back part of the first run cannot help,
    because the unit after a shorter run is not a slash. *)
Definition matchHere (s : jsstring) : option (jsstring * jsstring) :=
  if startsWith (lit "github.com/") s then
    let rest := skipn 11 s in
    let n := spanLength notSlash rest in
    match n, skipn n rest with
    | S _, _ :: rest' =>
        let m := spanLength notSlash rest' in
        match m with
        | S _ => Some (firstn n rest, firstn m rest')
        | O => None
        end
    | _, _ => None
    end
  else None.

(** [repoUrl.match(...)]: the leftmost match; [None] stands for [null]. *)
Fixpoint matchGitHubUrl (s : jsstring) : option (jsstring * jsstring) :=
  match matchHere s with
  | Some groups => Some groups
  | None =>
      match s with
      | [] => None
      | _ :: s' => matchGitHubUrl s'
      end
  end.

(** [repo.replace(/\.git$/, '')] *)
Definition cleanRepo (repo : jsstring) : jsstring :=
  let n := (List.length repo - 4)%nat in
  if (4 <=? List.length repo)%nat && JSString.eqb (skipn n repo) (lit ".git")
  then firstn n repo else repo.

(** *** Fetching the repository and its commits *)

Definition fetchGitHubData (w : World) (owner repo : jsstring)
  : jsstring + GitHubRepo * list GitHubCommit :=
  let failed (message : jsstring) : jsstring + GitHubRepo * list GitHubCommit :=
    inl (lit "Failed to fetch GitHub data: " ++ message) in
  match repository w owner repo with
  | Rejected message => failed message
  | Responded status errorText parsed =>
      if negb (ok status) then
        failed (lit "GitHub API error (" ++ ofInt status ++ lit "): " ++ errorText)
      else
        match parsed with
        | inl message => failed message
        | inr repoData =>
            match commitList w owner repo with
            | Rejected message => failed message
            | Responded status' errorText' parsed' =>
                if negb (ok status') then
                  failed (lit "GitHub commits API error (" ++ ofInt status' ++
                          lit "): " ++ errorText')
                else
                  match parsed' with
                  | inl message => failed message
                  | inr commits => inr (repoData, commits)
                  end
            end
        end
  end.

(** *** [atob] *)

Definition isAsciiWhitespace (c : N) : bool :=
  ((c =? 9) || (c =? 10) || (c =? 12) || (c =? 13) || (c =? 32))%N.

(** The value of a unit of the base64 alphabet. *)
Definition sextet (c : N) : option N :=
  if ((65 <=? c) && (c <=? 90))%N then Some (c - 65)%N
  else if ((97 <=? c) && (c <=? 122))%N then Some (c - 71)%N
  else if ((48 <=? c) && (c <=? 57))%N then Some (c + 4)%N
  else if (c =? 43)%N then Some 62%N
  else if (c =? 47)%N then Some 63%N
  else None.

Fixpoint sextets (data : jsstring) : option (list N) :=
  match data with
  | [] => Some []
  | c :: data' =>
      match sextet c, sextets data' with
      | Some v, Some vs => Some (v :: vs)
      | _, _ => None
      end
  end.

(** Four values give three bytes; of three values at the end the last two
    bits are dropped, of two values the last four. *)
Fixpoint bytesOf (values : list N) : jsstring :=
  match values with
  | a :: b :: c :: d :: rest =>
      let n := (((a * 64 + b) * 64 + c) * 64 + d)%N in
      (n / 65536)%N :: ((n / 256) mod 256)%N :: (n mod 256)%N :: bytesOf rest
  | [a; b; c] =>
      let n := (((a * 64 + b) * 64 + c) / 4)%N in
      [(n / 256)%N; (n mod 256)%N]
  | [a; b] => [((a * 64 + b) / 16)%N]
  | _ => []
  end.

(** Removal of one or two equals signs at the end. *)
Definition withoutPadding (data : jsstring) : jsstring :=
  match rev data with
  | 61%N :: 61%N :: r => rev r
  | 61%N :: r => rev r
  | _ => data
  end.

(** [atob(data)], the forgiving base64 decoding; [None] stands for the
    InvalidCharacterError. *)
Definition atob (data : jsstring) : option jsstring :=
  let data := filter (fun c => negb (isAsciiWhitespace c)) data in
  let data :=
    if (List.length data mod 4 =? 0)%nat then withoutPadding data else data in
  if (List.length data mod 4 =? 1)%nat then None
  else option_map bytesOf (sextets data).

(** *** The reply of the model *)

(** A step [?.] of an optional chain. *)
Definition optional (f : json -> option json) (v : option json) : option json :=
  match v with
  | None => None
  | Some JNull => None
  | Some x => f x
  end.

(** [x\[0\]] and [x.key] on a value that is neither [null] nor
    [undefined]. *)
Definition first (x : json) : option json :=
  match x with
  | JArr l => hd_error l
  | JObj m => get (lit "0") m
  | JStr (c :: _) => Some (JStr [c])
  | _ => None
  end.

Definition field (key : jsstring) (x : json) : option json :=
  match x with
  | JObj m => get key m
  | _ => None
  end.

(** [data.candidates?.\[0\]?.content?.parts?.\[0\]?.text]; the outer
    [None] stands for the TypeError on [null]. *)
Definition aiTextOf (data : json) : option (option json) :=
  match member (lit "candidates") data with
  | None => None
  | Some candidates =>
      Some (optional (field (lit "text"))
             (optional first
               (optional (field (lit "parts"))
                 (optional (field (lit "content"))
                   (optional first candidates)))))
  end.

(** The text of the reply that reaches the cleaning; [None] when the call
    is abandoned before: a rejected request, a status that is not ok, a body
    that does not parse, no text, or a text that is not a string, on which
    [trim] cannot be called. *)
Definition geminiText (response : Fetched json) : option jsstring :=
  match response with
  | Rejected _ => None
  | Responded status _ parsed =>
      if ok status then
        match parsed with
        | inl _ => None
        | inr data =>
            match aiTextOf data with
            | Some (Some (JStr aiText)) => Some aiText
            | _ => None
            end
        end
      else None
  end.

Definition nl : jsstring := [10%N].

(** [l.join(sep)] *)
Fixpoint join (sep : jsstring) (l : list jsstring) : jsstring :=
  match l with
  | [] => []
  | [x] => x
  | x :: l' => x ++ sep ++ join sep l'
  end.

(** [commits.slice(0, 15).map(c => c.commit.message).join('\n- ')] *)
Definition commitMessages (commits : list GitHubCommit) : jsstring :=
  join (nl ++ lit "- ") (map commit_message (firstn 15 commits)).

(** ** The version with the bolt.new badge check *)

Module Part000.

Record CommitPatterns : Type := {
  rapidCommits : Z;
  filePatterns : list jsstring;
  timePatterns : list jsstring;
  verifiedCommits : Z;
  totalCommits : Z;
  githubVerifiedPercentage : Z
}.

Record AnalysisResult : Type := {
  repoUrl : jsstring;
  verificationPercentage : Q;
  isLikelyAIGenerated : bool;
  result_isEligible : bool;
  hasBoltNewBadge : bool;
  commitPatterns : CommitPatterns;
  result_confidence : jsstring;
  details : list jsstring;
  aiAnalysis : AIOpinion;
  eligibilityReason : jsstring
}.

Definition analyzeCommitPatterns (tz : Z) (commits : list GitHubCommit)
  : CommitPatterns :=
  let verifiedCommits := countWhere commit_verification_verified commits in
  let totalCommits := Z.of_nat (List.length commits) in
  let githubVerifiedPercentage := percentage verifiedCommits totalCommits in
  let rapidCommits := countRapid (sortTimes (commitTimes tz commits)) in
  let packageJsonCommits := countWhere mentionsPackages commits in
  let filePatterns :=
    (if packageJsonCommits >? 0
     then [lit "Package.json modifications detected"] else []) ++
    (if rapidCommits >? 5 then [lit "Multiple rapid file changes"] else []) ++
    (if githubVerifiedPercentage >? 70
     then [lit "High GitHub verification rate pattern"] else []) in
  let nightCommits := countWhere (isNight tz) commits in
  let timePatterns :=
    (if rapidCommits >? 10
     then [lit "Frequent rapid commits detected"] else []) ++
    (if Number.gtb (inject_Z nightCommits)
          (Number.mul (inject_Z totalCommits) c0_3)
     then [lit "Unusual late-night development patterns"] else []) in
  {| rapidCommits := rapidCommits;
     filePatterns := filePatterns;
     timePatterns := timePatterns;
     verifiedCommits := verifiedCommits;
     totalCommits := totalCommits;
     githubVerifiedPercentage := githubVerifiedPercentage |}.

(** [Math.min(patterns.githubVerifiedPercentage + patterns.rapidCommits, 100)] *)
Definition heuristic (patterns : CommitPatterns) : Q :=
  Number.Math_min
    (Number.add (inject_Z (githubVerifiedPercentage patterns))
                (inject_Z (rapidCommits patterns)))
    (inject_Z 100).

(** The inner [try] block after the text has been cleaned: parse, check
    the required fields, coerce.  [None] stands for an exception, which
    the two [catch] clauses turn into the fallback: the SyntaxError of
    [JSON.parse], the TypeError of calling [hasOwnProperty] on [null] or on
    an object that shadows it, the missing-field Error (also raised for
    a parsed value that is not an object), and the TypeError of [String]. *)
Definition parsedAnalysis (patterns : CommitPatterns) (text : jsstring)
  : option AIOpinion :=
  match JSON.parse text with
  | Some (JObj m) =>
      if hasKey (lit "hasOwnProperty") m then None
      else if negb (forallb (fun field => hasKey field m) requiredFields)
      then None
      else
        match get (lit "summary") m, get (lit "likelihood") m,
              get (lit "keyFindings") m, get (lit "recommendations") m,
              get (lit "confidence") m with
        | Some s, Some l, Some k, Some r, Some c =>
            match asArray k, asArray r, asNumber (heuristic patterns) l with
            | Some k', Some r', Some l' =>
                Some {| summary := s;
                        likelihood := l';
                        keyFindings := k';
                        recommendations := r';
                        confidence :=
                          match isLevel c with
                          | Some lv => lv
                          | None =>
                              tier (Number.gtb l' (inject_Z 80))
                                   (Number.gtb l' (inject_Z 60))
                          end |}
            | _, _, _ => None
            end
        | _, _, _, _, _ => None
        end
  | _ => None
  end.

(** The object of the outer [catch] clause. *)
Definition fallback (tz : Z) (repoData : GitHubRepo) (patterns : CommitPatterns)
  : AIOpinion :=
  let total := ofInt (totalCommits patterns) in
  let pct := ofInt (githubVerifiedPercentage patterns) in
  let rapid := ofInt (rapidCommits patterns) in
  let automated := rapidCommits patterns >? 10 in
  {| summary :=
       JStr (lit "Analysis based on " ++ total ++ lit " commits with " ++ pct ++
             lit "% GitHub verification rate. Rapid commits: " ++ rapid ++
             lit ". Development patterns suggest " ++
             (if automated then lit "automated" else lit "manual") ++
             lit " code generation.");
     likelihood :=
       Number.Math_min
         (Number.add
            (Number.add
               (Number.mul (inject_Z (githubVerifiedPercentage patterns)) c0_3)
               (Number.mul (inject_Z (rapidCommits patterns)) (inject_Z 2)))
            (inject_Z (if totalCommits patterns >? 50 then 10 else 0)))
         (inject_Z 100);
     keyFindings :=
       [JStr (lit "GitHub verification rate: " ++ pct ++ lit "% (" ++
              ofInt (verifiedCommits patterns) ++ lit "/" ++ total ++
              lit " commits)");
        JStr (lit "Rapid commit sequences: " ++ rapid ++ lit " detected");
        JStr (if automated
              then lit "High automation suggests AI-assisted development"
              else lit "Development patterns suggest human involvement");
        JStr (lit "Repository created: " ++
              toDateString tz (Date_parse tz (created_at repoData)))];
     recommendations :=
       [JStr (if automated
              then lit "Manual code review recommended for hackathon compliance"
              else lit "Development patterns appear normal");
        JStr (lit "Consider reviewing commit history for development timeline");
        JStr (lit "Validate that primary development occurred within hackathon timeframe")];
     confidence :=
       tier (rapidCommits patterns >? 15) (rapidCommits patterns >? 7) |}.

(** [analyzeWithGemini], as a function of the outcome of the call to the
    model: [None] for a failed call (transport error, error status, no text
    in the reply), [Some aiText] for the text of the first candidate.  The
    prompt and the call itself follow below as [analyzeWithModel]. *)
Definition attempt (patterns : CommitPatterns) (reply : option jsstring)
  : option AIOpinion :=
  match reply with
  | None => None
  | Some [] => None
  | Some aiText => parsedAnalysis patterns (cleanedText aiText)
  end.

Definition analyzeWithGemini (tz : Z) (repoData : GitHubRepo)
  (patterns : CommitPatterns) (reply : option jsstring) : AIOpinion :=
  match attempt patterns reply with
  | Some parsed => parsed
  | None => fallback tz repoData patterns
  end.

(** The literal ['2025-05-31T00:00:00.000Z'] and its time value. *)
Definition hackathonStart : jsstring := lit "2025-05-31T00:00:00.000Z".
Definition cutoff : Z := 1748649600000.

Definition checkHackathonEligibility (tz : Z) (repoData : GitHubRepo)
  : Eligibility :=
  let createdDate := Date_parse tz (created_at repoData) in
  let hackathonStartDate := Date_parse tz hackathonStart in
  if before createdDate hackathonStartDate then
    {| isEligible := false;
       reason := lit "Repository created on " ++ toDateString tz createdDate ++
                 lit ", before hackathon start date (May 31, 2025)" |}
  else
    {| isEligible := true;
       reason := lit "Repository created on " ++ toDateString tz createdDate ++
                 lit ", from/after hackathon start date (May 31, 2025)" |}.

(** The request handler from the point where the GitHub data has been
    fetched: [repoData] and [commits] are the fetched data,
    [hasBoltNewBadge] the outcome of the badge check and [reply] the
    outcome of the call to the model. *)
Definition result (tz : Z) (repoUrl : jsstring) (repoData : GitHubRepo)
  (commits : list GitHubCommit) (hasBoltNewBadge : bool)
  (reply : option jsstring) : AnalysisResult :=
  let eligibility := checkHackathonEligibility tz repoData in
  let patterns := analyzeCommitPatterns tz commits in
  let aiAnalysis := analyzeWithGemini tz repoData patterns reply in
  let isLikelyAIGenerated := Number.gtb (likelihood aiAnalysis) (inject_Z 70) in
  (* the local [confidence] is computed but the result does not use it *)
  let confidence_local :=
    tier (Number.gtb (likelihood aiAnalysis) (inject_Z 80))
         (Number.gtb (likelihood aiAnalysis) (inject_Z 60)) in
  let details :=
    [lit "Repository analyzed: " ++ ofInt (totalCommits patterns) ++
       lit " total commits";
     lit "GitHub verified commits: " ++ ofInt (verifiedCommits patterns) ++
       lit " (" ++ ofInt (githubVerifiedPercentage patterns) ++ lit "%)";
     lit "Rapid commit sequences: " ++ ofInt (rapidCommits patterns);
     lit "AI likelihood assessment: " ++
       Number.toString (likelihood aiAnalysis) ++ lit "%";
     lit "Bolt.new badge " ++
       (if hasBoltNewBadge then lit "detected" else lit "not found") ++
       lit " in source code";
     lit "Repository created: " ++
       toDateString tz (Date_parse tz (created_at repoData));
     reason eligibility] in
  let details :=
    if negb (isEligible eligibility) then notEligibleMark :: details
    else details in
  {| repoUrl := repoUrl;
     verificationPercentage := likelihood aiAnalysis;
     isLikelyAIGenerated := isLikelyAIGenerated;
     result_isEligible := isEligible eligibility;
     hasBoltNewBadge := hasBoltNewBadge;
     commitPatterns := patterns;
     result_confidence := confidence aiAnalysis;
     details := details;
     aiAnalysis := aiAnalysis;
     eligibilityReason := reason eligibility |}.


(** *** The badge check *)

Definition alternativeFiles : list jsstring :=
  [lit "src/App.js"; lit "src/app.tsx"; lit "src/app.js"; lit "App.tsx";
   lit "App.js"].

(** What the data of a file says about the badge: [None] when reading it
    throws, [Some None] when it has no content, and the outcome of the
    search otherwise. *)
Definition badgeIn (parsed : jsstring + json) : option (option bool) :=
  match parsed with
  | inl _ => None
  | inr fileData =>
      match member (lit "content") fileData with
      | None => None
      | Some content =>
          if truthy content then
            match content with
            | Some c =>
                match JSON.toString c with
                | Some text =>
                    match atob text with
                    | Some decodedContent =>
                        Some (Some (includes (lit "bolt.new")
                                      (toLowerCase decodedContent)))
                    | None => None
                    end
                | None => None
                end
            | None => None
            end
          else Some None
      end
  end.

(** The loop over the alternative files. *)
Fixpoint tryAlternatives (file : jsstring -> Fetched json)
  (files : list jsstring) : bool :=
  match files with
  | [] => false
  | altFile :: files' =>
      match file altFile with
      | Rejected _ => false
      | Responded status _ parsed =>
          if ok status then
            match badgeIn parsed with
            | None => false
            | Some (Some found) => found
            | Some None => tryAlternatives file files'
            end
          else tryAlternatives file files'
      end
  end.

Definition checkBoltNewBadge (w : World) (owner repo : jsstring) : bool :=
  match contents w owner repo (lit "src/App.tsx") with
  | Rejected _ => false
  | Responded status _ parsed =>
      if ok status then
        match badgeIn parsed with
        | Some (Some found) => found
        | _ => false
        end
      else tryAlternatives (contents w owner repo) alternativeFiles
  end.

(** The prompt sent to the model. *)
Definition prompt (repoData : GitHubRepo) (commits : list GitHubCommit)
  (patterns : CommitPatterns) : jsstring :=
  List.concat
    [lit "You are an expert code analyst. Analyze this GitHub repository for AI-generated patterns and return ONLY a valid JSON object with this exact structure:";
     nl;
     nl;
     lit "{";
     nl;
     dq "  'summary': 'A clear 2-3 sentence summary of your analysis',";
     nl;
     dq "  'likelihood': 65,";
     nl;
     dq "  'keyFindings': [";
     nl;
     dq "    'Finding 1 about verification patterns',";
     nl;
     dq "    'Finding 2 about commit behavior', ";
     nl;
     dq "    'Finding 3 about development patterns'";
     nl;
     lit "  ],";
     nl;
     dq "  'recommendations': [";
     nl;
     dq "    'Recommendation 1 for verification',";
     nl;
     dq "    'Recommendation 2 for compliance'";
     nl;
     lit "  ],";
     nl;
     dq "  'confidence': 'high'";
     nl;
     lit "}";
     nl;
     nl;
     lit "Repository Data:";
     nl;
     lit "- Created: ";
     created_at repoData;
     nl;
     lit "- Language: ";
     (match language repoData with [] => lit "Unknown" | l => l end);
     nl;
     lit "- Size: ";
     ofInt (size repoData);
     lit " KB";
     nl;
     lit "- Total commits: ";
     ofInt (totalCommits patterns);
     nl;
     lit "- GitHub verified commits: ";
     ofInt (verifiedCommits patterns);
     lit " (";
     ofInt (githubVerifiedPercentage patterns);
     lit "%)";
     nl;
     lit "- Rapid commits: ";
     ofInt (rapidCommits patterns);
     nl;
     nl;
     lit "Recent commit messages:";
     nl;
     lit "- ";
     commitMessages commits;
     nl;
     nl;
     lit "Analysis Guidelines:";
     nl;
     lit "- Consider GitHub verification as ONE factor among many (cryptographic signing, not AI indicator)";
     nl;
     lit "- Rapid commits (";
     ofInt (rapidCommits patterns);
     lit ") indicate automated development";
     nl;
     lit "- Look for patterns in commit messages and timing";
     nl;
     lit "- Consider repository age and development velocity";
     nl;
     lit "- Look for generic commit messages, file creation patterns, and development velocity";
     nl;
     lit "- Base likelihood on OVERALL analysis, not just GitHub verification";
     nl;
     lit "- Confidence should reflect certainty of your analysis based on ALL factors";
     nl;
     nl;
     lit "Return ONLY the JSON object, no markdown formatting or additional text."].

(** [analyzeWithGemini] with the call to the model. *)
Definition analyzeWithModel (w : World) (repoData : GitHubRepo)
  (commits : list GitHubCommit) (patterns : CommitPatterns)
  (geminiApiKey : jsstring) : AIOpinion :=
  analyzeWithGemini (timeZone w) repoData patterns
    (geminiText (generateContent w geminiApiKey (prompt repoData commits patterns))).

(** The request handler. *)
Definition serve (w : World) (req : Request) : Response AnalysisResult :=
  if JSString.eqb (method req) (lit "OPTIONS") then Preflight
  else
    match JSON.parse (body req) with
    | None => Failure 500 (lit "Analysis failed") (Some (messageOfSyntaxError w))
    | Some parsed =>
        match member (lit "repoUrl") parsed with
        | None => Failure 500 (lit "Analysis failed") (Some (messageOfTypeError w))
        | Some repoUrl =>
            if negb (truthy repoUrl) then
              Failure 400 (lit "Repository URL is required") None
            else
              match repoUrl with
              | Some (JStr url) =>
                  match matchGitHubUrl url with
                  | None => Failure 400 (lit "Invalid GitHub URL format") None
                  | Some (owner, repo) =>
                      let cleanRepo := cleanRepo repo in
                      match GITHUB_TOKEN w, GEMINI_API_KEY w with
                      | Some (t :: oken), Some (k :: ey) =>
                          let githubToken := t :: oken in
                          let geminiApiKey := k :: ey in
                          match fetchGitHubData w owner cleanRepo with
                          | inl message =>
                              Failure 500 (lit "Analysis failed") (Some message)
                          | inr (repoData, commits) =>
                              Success (result (timeZone w) url repoData commits
                                   (checkBoltNewBadge w owner cleanRepo)
                                   (geminiText
                                      (generateContent w geminiApiKey
                                         (prompt repoData commits
                                            (analyzeCommitPatterns (timeZone w) commits)))))
                          end
                      | _, _ =>
                          Failure 500 (lit "API keys not configured")
                            (Some (lit "GITHUB_TOKEN and GEMINI_API_KEY environment variables are required"))
                      end
                  end
              | _ => Failure 500 (lit "Analysis failed") (Some (messageOfTypeError w))
              end
        end
    end.

End Part000.

(** ** The version without the badge check *)

Module Part001.

Record CommitPatterns : Type := {
  rapidCommits : Z;
  filePatterns : list jsstring;
  timePatterns : list jsstring;
  verifiedCommits : Z;
  totalCommits : Z;
  verificationPercentage : Z
}.

Record AnalysisResult : Type := {
  repoUrl : jsstring;
  result_verificationPercentage : Q;
  isLikelyAIGenerated : bool;
  result_isEligible : bool;
  commitPatterns : CommitPatterns;
  result_confidence : jsstring;
  details : list jsstring;
  aiAnalysis : AIOpinion;
  eligibilityReason : jsstring
}.

Definition analyzeCommitPatterns (tz : Z) (commits : list GitHubCommit)
  : CommitPatterns :=
  let verifiedCommits := countWhere commit_verification_verified commits in
  let totalCommits := Z.of_nat (List.length commits) in
  let verificationPercentage := percentage verifiedCommits totalCommits in
  let rapidCommits := countRapid (sortTimes (commitTimes tz commits)) in
  let packageJsonCommits := countWhere mentionsPackages commits in
  let filePatterns :=
    (if packageJsonCommits >? 0
     then [lit "Package.json modifications detected"] else []) ++
    (if rapidCommits >? 5 then [lit "Multiple rapid file changes"] else []) ++
    (if verificationPercentage >? 70
     then [lit "High verification rate pattern"] else []) in
  let nightCommits := countWhere (isNight tz) commits in
  let timePatterns :=
    (if rapidCommits >? 10
     then [lit "Frequent rapid commits detected"] else []) ++
    (if Number.gtb (inject_Z nightCommits)
          (Number.mul (inject_Z totalCommits) c0_3)
     then [lit "Unusual late-night development patterns"] else []) in
  {| rapidCommits := rapidCommits;
     filePatterns := filePatterns;
     timePatterns := timePatterns;
     verifiedCommits := verifiedCommits;
     totalCommits := totalCommits;
     verificationPercentage := verificationPercentage |}.

(** [patterns.verificationPercentage], the substitute for a likelihood
    that does not read as a number. *)
Definition heuristic (patterns : CommitPatterns) : Q :=
  inject_Z (verificationPercentage patterns).

(** The inner [try] block after the text has been cleaned. *)
Definition parsedAnalysis (patterns : CommitPatterns) (text : jsstring)
  : option AIOpinion :=
  match JSON.parse text with
  | Some (JObj m) =>
      if hasKey (lit "hasOwnProperty") m then None
      else if negb (forallb (fun field => hasKey field m) requiredFields)
      then None
      else
        match get (lit "summary") m, get (lit "likelihood") m,
              get (lit "keyFindings") m, get (lit "recommendations") m,
              get (lit "confidence") m with
        | Some s, Some l, Some k, Some r, Some c =>
            match asArray k, asArray r, asNumber (heuristic patterns) l with
            | Some k', Some r', Some l' =>
                Some {| summary := s;
                        likelihood := l';
                        keyFindings := k';
                        recommendations := r';
                        confidence :=
                          match isLevel c with
                          | Some lv => lv
                          | None =>
                              tier (verificationPercentage patterns >? 80)
                                   (verificationPercentage patterns >? 60)
                          end |}
            | _, _, _ => None
            end
        | _, _, _, _, _ => None
        end
  | _ => None
  end.

(** The object of the outer [catch] clause. *)
Definition fallback (tz : Z) (repoData : GitHubRepo) (patterns : CommitPatterns)
  : AIOpinion :=
  let total := ofInt (totalCommits patterns) in
  let pct := ofInt (verificationPercentage patterns) in
  let rapid := ofInt (rapidCommits patterns) in
  let high := verificationPercentage patterns >? 80 in
  {| summary :=
       JStr (lit "Analysis based on " ++ total ++ lit " commits with " ++ pct ++
             lit "% verification rate. " ++
             (if high then lit "High verification suggests AI generation."
              else lit "Verification patterns indicate mixed development approach."));
     likelihood :=
       Number.Math_min
         (Number.add (inject_Z (verificationPercentage patterns))
                     (inject_Z (if rapidCommits patterns >? 10 then 15 else 0)))
         (inject_Z 100);
     keyFindings :=
       [JStr (lit "Verification rate: " ++ pct ++ lit "% (" ++
              ofInt (verifiedCommits patterns) ++ lit "/" ++ total ++
              lit " commits)");
        JStr (lit "Rapid commit sequences: " ++ rapid ++ lit " detected");
        JStr (if high
              then lit "High verification rate indicates AI-assisted development"
              else lit "Verification patterns suggest human development");
        JStr (lit "Repository created: " ++
              toDateString tz (Date_parse tz (created_at repoData)))];
     recommendations :=
       [JStr (if high
              then lit "Manual code review recommended for hackathon compliance"
              else lit "Verification patterns appear normal");
        JStr (lit "Consider reviewing commit history for development timeline");
        JStr (lit "Validate that primary development occurred within hackathon timeframe")];
     confidence :=
       tier (verificationPercentage patterns >? 80)
            (verificationPercentage patterns >? 60) |}.

Definition attempt (patterns : CommitPatterns) (reply : option jsstring)
  : option AIOpinion :=
  match reply with
  | None => None
  | Some [] => None
  | Some aiText => parsedAnalysis patterns (cleanedText aiText)
  end.

Definition analyzeWithGemini (tz : Z) (repoData : GitHubRepo)
  (patterns : CommitPatterns) (reply : option jsstring) : AIOpinion :=
  match attempt patterns reply with
  | Some parsed => parsed
  | None => fallback tz repoData patterns
  end.

(** The literal ['2024-12-01T00:00:00.000Z'] and its time value. *)
Definition hackathonStart : jsstring := lit "2024-12-01T00:00:00.000Z".
Definition cutoff : Z := 1733011200000.

Definition checkHackathonEligibility (tz : Z) (repoData : GitHubRepo)
  : Eligibility :=
  let createdDate := Date_parse tz (created_at repoData) in
  let hackathonStartDate := Date_parse tz hackathonStart in
  if before createdDate hackathonStartDate then
    {| isEligible := false;
       reason := lit "Repository created on " ++ toDateString tz createdDate ++
                 lit ", before hackathon submission period (December 1, 2024)" |}
  else
    {| isEligible := true;
       reason := lit "Repository meets hackathon timeline requirements" |}.

(** The request handler from the point where the GitHub data has been
    fetched. *)
Definition result (tz : Z) (repoUrl : jsstring) (repoData : GitHubRepo)
  (commits : list GitHubCommit) (reply : option jsstring) : AnalysisResult :=
  let eligibility := checkHackathonEligibility tz repoData in
  let patterns := analyzeCommitPatterns tz commits in
  let aiAnalysis := analyzeWithGemini tz repoData patterns reply in
  let isLikelyAIGenerated :=
    (verificationPercentage patterns >? 80) || (rapidCommits patterns >? 15) in
  let confidence :=
    tier ((verificationPercentage patterns >? 80) || (rapidCommits patterns >? 20))
         ((verificationPercentage patterns >? 60) || (rapidCommits patterns >? 10)) in
  let details :=
    [lit "Repository analyzed: " ++ ofInt (totalCommits patterns) ++
       lit " total commits";
     lit "Verified commits: " ++ ofInt (verifiedCommits patterns) ++
       lit " (" ++ ofInt (verificationPercentage patterns) ++ lit "%)";
     lit "Rapid commit sequences: " ++ ofInt (rapidCommits patterns);
     lit "Repository created: " ++
       toDateString tz (Date_parse tz (created_at repoData));
     reason eligibility] in
  let details :=
    if negb (isEligible eligibility) then notEligibleMark :: details
    else details in
  {| repoUrl := repoUrl;
     result_verificationPercentage := inject_Z (verificationPercentage patterns);
     isLikelyAIGenerated := isLikelyAIGenerated;
     result_isEligible := isEligible eligibility;
     commitPatterns := patterns;
     result_confidence := confidence;
     details := details;
     aiAnalysis := aiAnalysis;
     eligibilityReason := reason eligibility |}.


(** The prompt sent to the model. *)
Definition prompt (repoData : GitHubRepo) (commits : list GitHubCommit)
  (patterns : CommitPatterns) : jsstring :=
  List.concat
    [lit "You are an expert code analyst. Analyze this GitHub repository for AI-generated patterns and return ONLY a valid JSON object with this exact structure:";
     nl;
     nl;
     lit "{";
     nl;
     dq "  'summary': 'A clear 2-3 sentence summary of your analysis',";
     nl;
     dq "  'likelihood': 85,";
     nl;
     dq "  'keyFindings': [";
     nl;
     dq "    'Finding 1 about verification patterns',";
     nl;
     dq "    'Finding 2 about commit behavior', ";
     nl;
     dq "    'Finding 3 about development patterns'";
     nl;
     lit "  ],";
     nl;
     dq "  'recommendations': [";
     nl;
     dq "    'Recommendation 1 for verification',";
     nl;
     dq "    'Recommendation 2 for compliance'";
     nl;
     lit "  ],";
     nl;
     dq "  'confidence': 'high'";
     nl;
     lit "}";
     nl;
     nl;
     lit "Repository Data:";
     nl;
     lit "- Created: ";
     created_at repoData;
     nl;
     lit "- Language: ";
     (match language repoData with [] => lit "Unknown" | l => l end);
     nl;
     lit "- Size: ";
     ofInt (size repoData);
     lit " KB";
     nl;
     lit "- Total commits: ";
     ofInt (totalCommits patterns);
     nl;
     lit "- Verified commits: ";
     ofInt (verifiedCommits patterns);
     lit " (";
     ofInt (verificationPercentage patterns);
     lit "%)";
     nl;
     lit "- Rapid commits: ";
     ofInt (rapidCommits patterns);
     nl;
     nl;
     lit "Recent commit messages:";
     nl;
     lit "- ";
     commitMessages commits;
     nl;
     nl;
     lit "Analysis Guidelines:";
     nl;
     lit "- Verification rates >80% strongly suggest AI generation";
     nl;
     lit "- Rapid commits (";
     ofInt (rapidCommits patterns);
     lit ") indicate automated development";
     nl;
     lit "- Look for patterns in commit messages and timing";
     nl;
     lit "- Consider repository age and development velocity";
     nl;
     dq "- Confidence should be 'high' if verification >80%, 'medium' if 60-80%, 'low' if <60%";
     nl;
     nl;
     lit "Return ONLY the JSON object, no markdown formatting or additional text."].

(** [analyzeWithGemini] with the call to the model. *)
Definition analyzeWithModel (w : World) (repoData : GitHubRepo)
  (commits : list GitHubCommit) (patterns : CommitPatterns)
  (geminiApiKey : jsstring) : AIOpinion :=
  analyzeWithGemini (timeZone w) repoData patterns
    (geminiText (generateContent w geminiApiKey (prompt repoData commits patterns))).

(** The request handler. *)
Definition serve (w : World) (req : Request) : Response AnalysisResult :=
  if JSString.eqb (method req) (lit "OPTIONS") then Preflight
  else
    match JSON.parse (body req) with
    | None => Failure 500 (lit "Analysis failed") (Some (messageOfSyntaxError w))
    | Some parsed =>
        match member (lit "repoUrl") parsed with
        | None => Failure 500 (lit "Analysis failed") (Some (messageOfTypeError w))
        | Some repoUrl =>
            if negb (truthy repoUrl) then
              Failure 400 (lit "Repository URL is required") None
            else
              match repoUrl with
              | Some (JStr url) =>
                  match matchGitHubUrl url with
                  | None => Failure 400 (lit "Invalid GitHub URL format") None
                  | Some (owner, repo) =>
                      let cleanRepo := cleanRepo repo in
                      match GITHUB_TOKEN w, GEMINI_API_KEY w with
                      | Some (t :: oken), Some (k :: ey) =>
                          let githubToken := t :: oken in
                          let geminiApiKey := k :: ey in
                          match fetchGitHubData w owner cleanRepo with
                          | inl message =>
                              Failure 500 (lit "Analysis failed") (Some message)
                          | inr (repoData, commits) =>
                              Success (result (timeZone w) url repoData commits
                                   (geminiText
                                      (generateContent w geminiApiKey
                                         (prompt repoData commits
                                            (analyzeCommitPatterns (timeZone w) commits)))))
                          end
                      | _, _ =>
                          Failure 500 (lit "API keys not configured")
                            (Some (lit "GITHUB_TOKEN and GEMINI_API_KEY environment variables are required"))
                      end
                  end
              | _ => Failure 500 (lit "Analysis failed") (Some (messageOfTypeError w))
              end
        end
    end.

End Part001.

(** ** The page *)

Module App.

Import Part000.



(** The conditions under which parts of the result card are rendered. *)
Definition showsIneligible (result : AnalysisResult) : bool :=
  negb (result_isEligible result).





Definition badgeTick (result : AnalysisResult) : bool :=
  hasBoltNewBadge result.


(** The state of the component. *)
Record State : Type := {
  repoUrl : jsstring;
  isAnalyzing : bool;
  result : option json;
  error : option jsstring
}.

(** What [supabase.functions.invoke] resolves to. *)
Record Invoked : Type := {
  data : json;
  functionError : option jsstring
}.

(** [analyzeRepository], from the state before the click to the state
    after the last update; [typeError] is the message of the TypeError of
    the platform. *)
Definition analyzeRepository (invoke : jsstring -> Invoked)
  (typeError : jsstring) (st : State) : State :=
  match trim (repoUrl st) with
  | [] => st
  | _ =>
      let finish (result : option json) (error : option jsstring) :=
        {| repoUrl := repoUrl st; isAnalyzing := false;
           result := result; error := error |} in
      let invoked := invoke (repoUrl st) in
      match functionError invoked with
      | Some [] => finish None (Some (lit "Analysis failed"))
      | Some message => finish None (Some message)
      | None =>
          match member (lit "error") (data invoked) with
          | None => finish None (Some typeError)
          | Some err =>
              if truthy err then
                let cause :=
                  match member (lit "details") (data invoked) with
                  | Some details => if truthy details then details else err
                  | None => err
                  end in
                match cause with
                | Some c =>
                    match JSON.toString c with
                    | Some message => finish None (Some message)
                    | None => finish None (Some typeError)
                    end
                | None => finish None (Some typeError)
                end
              else finish (Some (data invoked)) None
          end
      end
  end.

(** The error box and the result card are rendered for a value that
    counts as true. *)
Definition showsError (st : State) : bool :=
  match error st with
  | Some (_ :: _) => true
  | _ => false
  end.

Definition showsResult (st : State) : bool := truthy (result st).

End App.


(** The relative error bound of binary64 rounding, [2 ^ -53]. *)
Definition eps : Q := 1 # 9007199254740992.

(** ** Notions used in the statements *)

(** The base64 text of a byte string, as a service encodes the content of
    a file (RFC 4648): three bytes give four values below 64, two bytes at
    the end give three values and one equals sign, one byte gives two values
    and two equals signs. *)
Definition base64Unit (v : N) : N :=
  (if v <? 26 then v + 65
   else if v <? 52 then v + 71
   else if v <? 62 then v - 4
   else if v =? 62 then 43
   else 47)%N.

Fixpoint base64Values (bytes : list N) : list N :=
  match bytes with
  | a :: b :: c :: rest =>
      let n := ((a * 256 + b) * 256 + c)%N in
      (n / 262144)%N :: ((n / 4096) mod 64)%N :: ((n / 64) mod 64)%N ::
      (n mod 64)%N :: base64Values rest
  | [a; b] =>
      let n := ((a * 256 + b) * 4)%N in
      [(n / 4096)%N; ((n / 64) mod 64)%N; (n mod 64)%N]
  | [a] =>
      let n := (a * 16)%N in
      [(n / 64)%N; (n mod 64)%N]
  | [] => []
  end.

Definition base64Padding (bytes : list N) : jsstring :=
  match (List.length bytes mod 3)%nat with
  | 1%nat => [61%N; 61%N]
  | 2%nat => [61%N]
  | _ => []
  end.

Definition base64 (bytes : list N) : jsstring :=
  map base64Unit (base64Values bytes) ++ base64Padding bytes.

(** A string without its ASCII whitespace: the line breaks of an encoded
    file do not count. *)
Definition withoutWhitespace (text : jsstring) : jsstring :=
  filter (fun c => negb (isAsciiWhitespace c)) text.

(** Two worlds that differ at most in the answers for the files of a
    repository and in the answers of the model. *)
Definition sameRepositoryData (w w' : World) : Prop :=
  timeZone w = timeZone w' /\
  GITHUB_TOKEN w = GITHUB_TOKEN w' /\
  GEMINI_API_KEY w = GEMINI_API_KEY w' /\
  messageOfSyntaxError w = messageOfSyntaxError w' /\
  messageOfTypeError w = messageOfTypeError w' /\
  (forall owner repo, repository w owner repo = repository w' owner repo) /\
  (forall owner repo, commitList w owner repo = commitList w' owner repo).

(** ** Sample data *)

Definition sampleCommit (date : string) (verified : bool) : GitHubCommit :=
  {| sha := lit "c0ffee";
     commit_author_date := lit date;
     commit_message := lit "update";
     commit_verification_verified := verified;
     commit_verification_reason := lit "valid";
     author_login := None |}.

Definition sampleRepo (created : string) : GitHubRepo :=
  {| created_at := lit created;
     updated_at := lit created;
     language := lit "TypeScript";
     size := 120;
     default_branch := lit "main";
     full_name := lit "octo/demo" |}.

(** Four commits on four days, [k] of them verified. *)
Definition fourCommits (k : nat) : list GitHubCommit :=
  [sampleCommit "2025-06-01T10:00:00Z" (0 <? k)%nat;
   sampleCommit "2025-06-02T10:00:00Z" (1 <? k)%nat;
   sampleCommit "2025-06-03T10:00:00Z" (2 <? k)%nat;
   sampleCommit "2025-06-04T10:00:00Z" (3 <? k)%nat].

(** Twenty commits, seventeen of them verified: thirteen within one minute
    and seven on later days. *)
Definition twentyCommits : list GitHubCommit :=
  map (fun _ => sampleCommit "2025-06-01T10:00:30Z" true) (seq 0 13) ++
  [sampleCommit "2025-06-02T10:00:00Z" true;
   sampleCommit "2025-06-03T10:00:00Z" true;
   sampleCommit "2025-06-04T10:00:00Z" true;
   sampleCommit "2025-06-05T10:00:00Z" true;
   sampleCommit "2025-06-06T10:00:00Z" false;
   sampleCommit "2025-06-07T10:00:00Z" false;
   sampleCommit "2025-06-08T10:00:00Z" false].

(** A well-formed reply with a given likelihood and confidence. *)
Definition sampleReply (likelihood confidence : string) : jsstring :=
  dq "{'summary':'Looks scripted.','likelihood':" ++ dq likelihood ++
  dq ",'keyFindings':['bursts'],'recommendations':['review'],'confidence':'" ++
  dq confidence ++ dq "'}".

(** Three commits, the first and the last of them one minute apart. *)
Definition threeCommits : list GitHubCommit :=
  [sampleCommit "2025-06-01T10:00:00Z" true;
   sampleCommit "2025-06-02T10:00:00Z" false;
   sampleCommit "2025-06-01T10:01:00Z" true].

(** Twenty verified commits within one minute. *)
Definition burstCommits : list GitHubCommit :=
  map (fun i =>
         sampleCommit "2025-05-01T10:00:00Z" true) (seq 0 10) ++
  map (fun i =>
         sampleCommit "2025-05-01T10:00:45Z" true) (seq 0 10).

(** A world in which the repository has no [src/App.tsx] but a
    [src/App.js] with the text "Made with Bolt.New", and in which the model
    cannot be reached. *)
Definition sampleWorld : World :=
  {| timeZone := 0;
     GITHUB_TOKEN := Some (lit "github-token");
     GEMINI_API_KEY := Some (lit "gemini-key");
     messageOfSyntaxError := lit "Unexpected end of JSON input";
     messageOfTypeError := lit "repoUrl.match is not a function";
     repository := fun _ _ =>
       Responded 200 [] (inr (sampleRepo "2025-06-01T09:30:00Z"));
     commitList := fun _ _ => Responded 200 [] (inr threeCommits);
     contents := fun _ _ path =>
       if JSString.eqb path (lit "src/App.js") then
         Responded 200 []
           (inr (JObj [(lit "content",
                        JStr (lit "TWFkZSB3aXRo" ++ nl ++ lit "IEJvbHQuTmV3" ++ nl))]))
       else Responded 404 (lit "Not Found") (inr (JObj []));
     generateContent := fun _ _ => Rejected (lit "network error") |}.

(** The same world, except that no file can be read and that the model
    answers with a well-formed opinion. *)
Definition answeringWorld : World :=
  {| timeZone := timeZone sampleWorld;
     GITHUB_TOKEN := GITHUB_TOKEN sampleWorld;
     GEMINI_API_KEY := GEMINI_API_KEY sampleWorld;
     messageOfSyntaxError := messageOfSyntaxError sampleWorld;
     messageOfTypeError := messageOfTypeError sampleWorld;
     repository := repository sampleWorld;
     commitList := commitList sampleWorld;
     contents := fun _ _ _ => Rejected (lit "network error");
     generateContent := fun _ _ =>
       Responded 200 []
         (inr (JObj [(lit "candidates",
                      JArr [JObj [(lit "content",
                        JObj [(lit "parts",
                          JArr [JObj [(lit "text",
                            JStr (sampleReply "90" "high"))]])])]])])) |}.

Definition sampleRequest (url : string) : Request :=
  {| method := lit "POST";
     body := dq "{'repoUrl':'" ++ lit url ++ dq "'}" |}.

(** A time value that is not NaN. *)
Definition validTime (t : option Z) : Prop := t <> None.

(** Adjacent times are in ascending order. *)
Fixpoint ascending (times : list (option Z)) : Prop :=
  match times with
  | a :: (b :: _) as rest => compareTimes a b <= 0 /\ ascending rest
  | _ => True
  end.

(** The reason names the cutoff date and the creation date. *)
Definition namesDates (cutoffText createdText reason : jsstring) : bool :=
  includes cutoffText reason && includes createdText reason.

(** A structurally valid opinion: an integer likelihood in [0, 100] and a
    confidence that is one of the three levels. *)
Definition validOpinion (o : AIOpinion) : bool :=
  Number.isInteger (likelihood o) &&
  Qle_bool 0 (likelihood o) && Qle_bool (likelihood o) 100 &&
  existsb (JSString.eqb (confidence o)) levels.

(** * Properties *)

(** ** The built-in operations on sample inputs *)

Example trim_ex : trim (lit "  {a}  ") = lit "{a}".
Proof. reflexivity. Qed.

Example digits_ex : ofInt 1748649600000 = lit "1748649600000" /\ ofInt 0 = lit "0".
Proof. split; reflexivity. Qed.

Example stripFences_ex :
  stripFences (lit "```json
{}
```") = lit "{}".
Proof. reflexivity. Qed.


Example round_tie_ex :
  percentage 23 40 = 57 /\ percentage 1 8 = 13 /\ percentage 17 20 = 85.
Proof. vm_compute. auto. Qed.

Example number_toString_ex :
  Number.toString (Number.mul 33 c0_3) = lit "9.9" /\
  Number.toString (15 # 2) = lit "7.5" /\
  Number.toString (Number.ofDecimal 1 21) = lit "1e+21".
Proof. vm_compute. auto. Qed.

Example parseInt_ex :
  Number.parseInt (lit " 42abc") = Some (42 # 1) /\
  Number.parseInt (lit "0") = Some (0 # 1) /\
  Number.parseInt (lit "-0x1F") = Some (-31 # 1) /\
  Number.parseInt (lit "abc") = None.
Proof. vm_compute. auto. Qed.

Example date_ex :
  Date_parse 0 (lit "2024-02-29T12:34:56Z") = Some 1709210096000 /\
  toDateString 0 (Some 1709210096000) = lit "Thu Feb 29 2024" /\
  Date_parse 0 (lit "2023-02-29T12:34:56Z") = None /\
  toDateString 0 None = lit "Invalid Date".
Proof. vm_compute. auto. Qed.

Example json_ex :
  JSON.parse (dq " {'a': [1, 2.5e1, null], 'a': 'x\n'} ") =
    Some (JObj [(lit "a", JArr [JNum 1; JNum 25; JNull]);
                (lit "a", JStr [120%N; 10%N])]) /\
  JSON.parse (lit "not json at all") = None /\
  JSON.parse (dq "{'a':1,}") = None.
Proof. vm_compute. auto. Qed.

Example cleanedText_ex :
  cleanedText (dq "Sure! ```json
{'a': 1}
``` Hope it helps.") = dq "{'a': 1}".
Proof. reflexivity. Qed.

(** ** Rounding *)

Module NumberFacts.

Import Number.
Local Open Scope Q_scope.

Lemma two_neq_0 : ~ 2 == 0.
Proof. intro H; discriminate H. Qed.

Lemma pow2_pos (e : Z) : 0 < 2 ^ e.
Proof. apply Qpower_0_lt; reflexivity. Qed.

Lemma pow2_succ (e : Z) : 2 ^ (e + 1) == 2 * 2 ^ e.
Proof.
  rewrite Qpower_plus by apply two_neq_0.
  change (2 ^ 1) with 2. ring.
Qed.

Lemma pow2_split (e k : Z) : 2 ^ e == 2 ^ k * 2 ^ (e - k).
Proof.
  rewrite <- Qpower_plus by apply two_neq_0.
  replace (k + (e - k))%Z with e by lia. reflexivity.
Qed.

Lemma pow2_le (a b : Z) : (a <= b)%Z -> 2 ^ a <= 2 ^ b.
Proof. intro H. apply Qpower_le_compat_l; [exact H | discriminate]. Qed.

Lemma Qpos_num (q : Q) : 0 < q <-> (0 < Qnum q)%Z.
Proof. unfold Qlt; simpl. rewrite Z.mul_1_r. reflexivity. Qed.

Lemma Zlog2_bounds (n : Z) :
  (0 < n)%Z ->
  2 ^ Z.log2 n <= inject_Z n /\ inject_Z n < 2 ^ (Z.log2 n + 1).
Proof.
  intro Hn. destruct (Z.log2_spec n Hn) as [Hl Hu].
  pose proof (Z.log2_nonneg n) as Hnn.
  change 2 with (inject_Z 2).
  rewrite <- !Zpower_Qpower by lia.
  rewrite <- Zle_Qle, <- Zlt_Qlt.
  replace (Z.log2 n + 1)%Z with (Z.succ (Z.log2 n)) by lia.
  split; assumption.
Qed.

Lemma ilog2_spec (q : Q) :
  0 < q -> 2 ^ ilog2 q <= q /\ q < 2 ^ (ilog2 q + 1).
Proof.
  intro Hq.
  assert (Hp : (0 < Qnum q)%Z) by (apply Qpos_num; exact Hq).
  destruct (Zlog2_bounds Hp) as [Hpl Hpu].
  destruct (Zlog2_bounds (n := Zpos (Qden q)) eq_refl) as [Hdl Hdu].
  set (a := Z.log2 (Qnum q)) in *.
  set (b := Z.log2 (Zpos (Qden q))) in *.
  assert (Hd : 0 < inject_Z (Zpos (Qden q))) by reflexivity.
  assert (Hqd : q == inject_Z (Qnum q) / inject_Z (Zpos (Qden q))).
  { destruct q as [n d]. simpl. apply Qmake_Qdiv. }
  assert (Hlow : 2 ^ (a - b - 1) <= q).
  { rewrite Hqd. apply Qle_shift_div_l; [exact Hd|].
    apply Qle_trans with (2 ^ (a - b - 1) * 2 ^ (b + 1)).
    - apply Qmult_le_l; [apply pow2_pos|]. apply Qlt_le_weak; exact Hdu.
    - rewrite <- Qpower_plus by apply two_neq_0.
      replace (a - b - 1 + (b + 1))%Z with a by lia. exact Hpl. }
  assert (Hup : q < 2 ^ (a - b + 1)).
  { rewrite Hqd. apply Qlt_shift_div_r; [exact Hd|].
    apply Qlt_le_trans with (2 ^ (a - b + 1) * 2 ^ b).
    - rewrite <- Qpower_plus by apply two_neq_0.
      replace (a - b + 1 + b)%Z with (a + 1)%Z by lia. exact Hpu.
    - apply Qmult_le_l; [apply pow2_pos|]. exact Hdl. }
  unfold ilog2. fold a b.
  destruct (Qle_bool (2 ^ (a - b)) q) eqn:E.
  - apply Qle_bool_iff in E. split; assumption.
  - assert (Hlt : q < 2 ^ (a - b)).
    { apply Qnot_le_lt. intro H. apply Qle_bool_iff in H. congruence. }
    replace (a - b - 1 + 1)%Z with (a - b)%Z by lia.
    split; assumption.
Qed.

Lemma roundEven_cases (x : Q) :
  roundEven x = Qfloor x \/ roundEven x = (Qfloor x + 1)%Z.
Proof.
  unfold roundEven.
  destruct (Qcompare _ _); [destruct (Z.even _)|..]; auto.
Qed.

Lemma roundEven_ge_int (x : Q) (n : Z) : inject_Z n <= x -> (n <= roundEven x)%Z.
Proof.
  intro H. apply Qfloor_resp_le in H. rewrite Qfloor_Z in H.
  destruct (roundEven_cases x) as [-> | ->]; lia.
Qed.

Lemma roundEven_le_int (x : Q) (n : Z) : x <= inject_Z n -> (roundEven x <= n)%Z.
Proof.
  intro H.
  pose proof (Qfloor_resp_le _ _ H) as Hf. rewrite Qfloor_Z in Hf.
  destruct (Z.eq_dec (Qfloor x) n) as [E | NE].
  - unfold roundEven. rewrite E.
    destruct (Qcompare_spec (x - inject_Z n) (1 # 2)); [lra | lia | lra].
  - destruct (roundEven_cases x) as [-> | ->]; lia.
Qed.

Lemma roundEven_mono (x y : Q) : x <= y -> (roundEven x <= roundEven y)%Z.
Proof.
  intro H.
  pose proof (Qfloor_resp_le _ _ H) as Hf.
  destruct (Z.eq_dec (Qfloor x) (Qfloor y)) as [E | NE].
  - unfold roundEven. rewrite E.
    destruct (Qcompare_spec (x - inject_Z (Qfloor y)) (1 # 2));
      destruct (Qcompare_spec (y - inject_Z (Qfloor y)) (1 # 2));
      try destruct (Z.even (Qfloor y)); try lia; lra.
  - destruct (roundEven_cases x) as [-> | ->];
      destruct (roundEven_cases y) as [-> | ->]; lia.
Qed.

Lemma scaled_bounds (q : Q) :
  0 < q ->
  inject_Z (2 ^ 52) <= q / 2 ^ (ilog2 q - 52) /\
  q / 2 ^ (ilog2 q - 52) <= inject_Z (2 ^ 53).
Proof.
  intro Hq. destruct (ilog2_spec Hq) as [Hl Hu].
  pose proof (pow2_pos (ilog2 q - 52)) as Hu0.
  split.
  - apply Qle_shift_div_l; [exact Hu0|].
    change (inject_Z (2 ^ 52)) with (2 ^ 52).
    rewrite <- pow2_split. exact Hl.
  - apply Qle_shift_div_r; [exact Hu0|].
    change (inject_Z (2 ^ 53)) with (2 ^ 53).
    apply Qlt_le_weak.
    assert (E : 2 ^ 53 * 2 ^ (ilog2 q - 52) == 2 ^ (ilog2 q + 1)).
    { rewrite <- Qpower_plus by apply two_neq_0.
      replace (53 + (ilog2 q - 52))%Z with (ilog2 q + 1)%Z by lia. reflexivity. }
    rewrite E. exact Hu.
Qed.

Lemma round64pos_bounds (q : Q) :
  0 < q -> 2 ^ ilog2 q <= round64pos q /\ round64pos q <= 2 ^ (ilog2 q + 1).
Proof.
  intro Hq. destruct (scaled_bounds Hq) as [Hl Hu].
  pose proof (pow2_pos (ilog2 q - 52)) as Hu0.
  apply roundEven_ge_int in Hl. apply roundEven_le_int in Hu.
  unfold round64pos. cbv zeta.
  set (m := roundEven (q / 2 ^ (ilog2 q - 52))) in *.
  split.
  - rewrite (pow2_split (ilog2 q) 52).
    apply Qmult_le_compat_r; [|apply Qlt_le_weak; exact Hu0].
    change (2 ^ 52) with (inject_Z (2 ^ 52)). rewrite <- Zle_Qle. exact Hl.
  - rewrite (pow2_split (ilog2 q + 1) 53).
    replace (ilog2 q + 1 - 53)%Z with (ilog2 q - 52)%Z by lia.
    apply Qmult_le_compat_r; [|apply Qlt_le_weak; exact Hu0].
    change (2 ^ 53) with (inject_Z (2 ^ 53)). rewrite <- Zle_Qle. exact Hu.
Qed.

Lemma round64pos_mono (a b : Q) :
  0 < a -> a <= b -> round64pos a <= round64pos b.
Proof.
  intros Ha Hab.
  assert (Hb : 0 < b) by lra.
  destruct (ilog2_spec Ha) as [Hal Hau].
  destruct (ilog2_spec Hb) as [Hbl Hbu].
  destruct (Z.lt_trichotomy (ilog2 a) (ilog2 b)) as [L | [E | G]].
  - destruct (round64pos_bounds Ha) as [_ Hra].
    destruct (round64pos_bounds Hb) as [Hrb _].
    apply Qle_trans with (2 ^ (ilog2 a + 1)); [exact Hra|].
    apply Qle_trans with (2 ^ ilog2 b); [|exact Hrb].
    apply pow2_le; lia.
  - unfold round64pos. cbv zeta. rewrite E.
    pose proof (pow2_pos (ilog2 b - 52)) as Hu0.
    apply Qmult_le_compat_r; [|apply Qlt_le_weak; exact Hu0].
    rewrite <- Zle_Qle. apply roundEven_mono.
    apply Qmult_le_compat_r; [exact Hab|].
    apply Qlt_le_weak, Qinv_lt_0_compat; exact Hu0.
  - exfalso.
    assert (H : 2 ^ (ilog2 b + 1) <= 2 ^ ilog2 a) by (apply pow2_le; lia).
    lra.
Qed.

Lemma round64_nonneg (q : Q) : 0 <= q -> 0 <= round64 q.
Proof.
  intro Hq. unfold round64. rewrite Qred_correct.
  destruct (Qnum q) eqn:E.
  - apply Qle_refl.
  - assert (Hpos : 0 < q) by (apply Qpos_num; rewrite E; reflexivity).
    destruct (round64pos_bounds Hpos) as [H _].
    pose proof (pow2_pos (ilog2 q)). lra.
  - exfalso. unfold Qle in Hq; simpl in Hq. rewrite E in Hq. lia.
Qed.

Lemma round64_mono (a b : Q) : 0 <= a -> a <= b -> round64 a <= round64 b.
Proof.
  intros Ha Hab.
  destruct (Qnum a) eqn:E.
  - unfold round64 at 1. rewrite E, Qred_correct.
    apply round64_nonneg; lra.
  - assert (Hpa : 0 < a) by (apply Qpos_num; rewrite E; reflexivity).
    assert (Hpb : 0 < b) by lra.
    pose proof (proj1 (Qpos_num b) Hpb) as Hnb.
    unfold round64. rewrite E, !Qred_correct.
    destruct (Qnum b); try lia.
    apply round64pos_mono; assumption.
  - exfalso. unfold Qle in Ha; simpl in Ha. rewrite E in Ha. lia.
Qed.

(** A rounded value does not cross a representable bound. *)
Lemma round64_le (q c : Q) :
  0 <= q -> q <= c -> round64 c == c -> round64 q <= c.
Proof.
  intros Hq Hc Hr. rewrite <- Hr. apply round64_mono; assumption.
Qed.

Lemma Math_min_le_r (a b : Q) : Math_min a b <= b.
Proof.
  unfold Math_min. destruct (Qle_bool a b) eqn:E.
  - apply Qle_bool_iff; exact E.
  - apply Qle_refl.
Qed.

Lemma Math_min_nonneg (a b : Q) : 0 <= a -> 0 <= b -> 0 <= Math_min a b.
Proof. unfold Math_min. destruct (Qle_bool a b); auto. Qed.

Lemma gtb_spec (a b : Q) : gtb a b = true <-> b < a.
Proof.
  unfold gtb. rewrite negb_true_iff.
  split.
  - intro H. apply Qnot_le_lt. intro L. apply Qle_bool_iff in L. congruence.
  - intro H. destruct (Qle_bool a b) eqn:E; [|reflexivity].
    apply Qle_bool_iff in E. lra.
Qed.


Lemma roundEven_int (x : Q) (k : Z) : x == inject_Z k -> roundEven x = k.
Proof.
  intro H.
  assert (H1 : (roundEven x <= k)%Z) by (apply roundEven_le_int; lra).
  assert (H2 : (k <= roundEven x)%Z) by (apply roundEven_ge_int; lra).
  lia.
Qed.

(** Integers below 2^53 are exact. *)
Lemma round64_int (n : Z) :
  (0 <= n < 2 ^ 53)%Z -> round64 (inject_Z n) == inject_Z n.
Proof.
  intros [H0 H1]. unfold round64. rewrite Qred_correct. simpl Qnum.
  destruct n as [| p | p]; [reflexivity | | lia].
  assert (Hq : 0 < inject_Z (Z.pos p)) by reflexivity.
  destruct (ilog2_spec Hq) as [Hl Hu].
  set (e := ilog2 (inject_Z (Z.pos p))) in *.
  assert (He : (e <= 52)%Z).
  { destruct (Z_le_gt_dec e 52) as [L | G]; [exact L | exfalso].
    assert (H : 2 ^ 53 <= 2 ^ e) by (apply pow2_le; lia).
    assert (H' : inject_Z (Z.pos p) < 2 ^ 53).
    { change (2 ^ 53) with (inject_Z (2 ^ 53)). rewrite <- Zlt_Qlt. exact H1. }
    lra. }
  unfold round64pos. cbv zeta. fold e.
  assert (Hinv : 2 ^ (52 - e) * 2 ^ (e - 52) == 1).
  { rewrite <- Qpower_plus by apply two_neq_0.
    replace (52 - e + (e - 52))%Z with 0%Z by lia. reflexivity. }
  pose proof (pow2_pos (e - 52)) as Hu0.
  assert (Hz : inject_Z (2 ^ (52 - e)) == 2 ^ (52 - e)).
  { rewrite Zpower_Qpower by lia. reflexivity. }
  assert (Hk : inject_Z (Z.pos p) / 2 ^ (e - 52)
               == inject_Z (Z.pos p * 2 ^ (52 - e))).
  { rewrite inject_Z_mult, Hz.
    apply Qmult_inj_r with (2 ^ (e - 52)); [lra|].
    rewrite <- Qmult_assoc, Hinv. field. lra. }
  rewrite (roundEven_int Hk).
  rewrite inject_Z_mult, Hz.
  rewrite <- Qmult_assoc, Hinv. ring.
Qed.

Lemma round64_proper (a b : Q) : 0 <= a -> a == b -> round64 a == round64 b.
Proof.
  intros Ha E. apply Qle_antisym; apply round64_mono; lra.
Qed.

Lemma isInteger_inject (q : Q) (n : Z) : q == inject_Z n -> isInteger q = true.
Proof.
  intro H. unfold isInteger. apply Qeq_bool_iff.
  rewrite H at 1. rewrite Qfloor_Z. symmetry. exact H.
Qed.

End NumberFacts.

(** ** The commit pattern analysis *)

Section Counting.

Variable A : Type.
Variable p : A -> bool.

Lemma countWhere_bounds (l : list A) :
  0 <= countWhere p l <= Z.of_nat (List.length l).
Proof.
  unfold countWhere. split; [lia|].
  apply Nat2Z.inj_le.
  induction l as [| a l IH]; simpl; [lia|].
  destruct (p a); simpl; lia.
Qed.

End Counting.

Lemma insertTime_length (x : option Z) (l : list (option Z)) :
  List.length (insertTime x l) = S (List.length l).
Proof.
  induction l as [| y l IH]; simpl; [reflexivity|].
  destruct (compareTimes x y <? 0); simpl; [reflexivity | now rewrite IH].
Qed.

Lemma sortInto_length (l sorted : list (option Z)) :
  List.length (fold_left (fun sorted x => insertTime x sorted) l sorted) =
  (List.length l + List.length sorted)%nat.
Proof.
  revert sorted. induction l as [| x l IH]; intro sorted; simpl;
    [reflexivity|].
  rewrite IH, insertTime_length. lia.
Qed.

Lemma sortTimes_length (l : list (option Z)) :
  List.length (sortTimes l) = List.length l.
Proof. unfold sortTimes. rewrite sortInto_length. simpl. lia. Qed.

Lemma commitTimes_length (tz : Z) (commits : list GitHubCommit) :
  List.length (commitTimes tz commits) = List.length commits.
Proof. unfold commitTimes. apply length_map. Qed.

(** A list of [n] times has at most [n - 1] rapid pairs, whatever its
    order. *)
Lemma countRapid_bounds (times : list (option Z)) :
  0 <= countRapid times <= Z.max (Z.of_nat (List.length times) - 1) 0.
Proof.
  induction times as [| prev rest IH]; [simpl; lia|].
  destruct rest as [| cur rest']; [simpl; lia|].
  change (countRapid (prev :: cur :: rest'))
    with ((if isRapid prev cur then 1 else 0) + countRapid (cur :: rest')).
  change (List.length (prev :: cur :: rest'))
    with (S (List.length (cur :: rest'))).
  simpl List.length in *.
  destruct (isRapid prev cur); lia.
Qed.

Lemma percentage_bounds (v t : Z) :
  0 <= v <= t -> 0 <= percentage v t <= 100.
Proof.
  intros [Hv Ht]. unfold percentage.
  destruct (t >? 0) eqn:E; [|lia].
  apply Z.gtb_lt in E.
  assert (Ht0 : (0 < inject_Z t)%Q) by (unfold Qlt; simpl; lia).
  assert (Hq : (0 <= inject_Z v / inject_Z t /\ inject_Z v / inject_Z t <= 1)%Q).
  { split.
    - apply Qle_shift_div_l; [exact Ht0|].
      rewrite Qmult_0_l. unfold Qle; simpl; lia.
    - apply Qle_shift_div_r; [exact Ht0|].
      rewrite Qmult_1_l. rewrite <- Zle_Qle. exact Ht. }
  destruct Hq as [Hq0 Hq1].
  unfold Number.div, Number.mul.
  set (x := Number.round64 (inject_Z v / inject_Z t)).
  assert (Hx0 : (0 <= x)%Q) by (apply NumberFacts.round64_nonneg; exact Hq0).
  assert (Hx1 : (x <= 1)%Q).
  { apply NumberFacts.round64_le; [exact Hq0 | exact Hq1 | reflexivity]. }
  change (inject_Z 100) with 100%Q.
  set (y := Number.round64 (x * 100)).
  assert (Hy0 : (0 <= y)%Q) by (apply NumberFacts.round64_nonneg; lra).
  assert (Hy1 : (y <= 100)%Q).
  { apply NumberFacts.round64_le; [lra | lra | reflexivity]. }
  unfold Number.Math_round.
  split.
  - change 0 with (Qfloor 0). apply Qfloor_resp_le. lra.
  - change 100 with (Qfloor (100 + (1 # 2))). apply Qfloor_resp_le. lra.
Qed.

(** C7. For every commit list the signal bundle satisfies
    [0 <= verifiedCommits <= totalCommits], the verification percentage
    lies in [0, 100], and [rapidCommits <= max (totalCommits - 1) 0]; in
    both versions of the analyzer. *)
Theorem analyzeCommitPatterns_bounds (tz : Z) (commits : list GitHubCommit) :
  let p := Part000.analyzeCommitPatterns tz commits in
  let q := Part001.analyzeCommitPatterns tz commits in
  (0 <= Part000.verifiedCommits p <= Part000.totalCommits p /\
   0 <= Part000.githubVerifiedPercentage p <= 100 /\
   Part000.rapidCommits p <= Z.max (Part000.totalCommits p - 1) 0) /\
  (0 <= Part001.verifiedCommits q <= Part001.totalCommits q /\
   0 <= Part001.verificationPercentage q <= 100 /\
   Part001.rapidCommits q <= Z.max (Part001.totalCommits q - 1) 0).
Proof.
  cbv zeta.
  pose proof (countWhere_bounds commit_verification_verified commits) as Hv.
  pose proof (percentage_bounds Hv) as Hp.
  pose proof (countRapid_bounds (sortTimes (commitTimes tz commits))) as Hr.
  rewrite sortTimes_length, commitTimes_length in Hr.
  unfold Part000.analyzeCommitPatterns, Part001.analyzeCommitPatterns.
  cbn [Part000.verifiedCommits Part000.totalCommits
       Part000.githubVerifiedPercentage Part000.rapidCommits
       Part001.verifiedCommits Part001.totalCommits
       Part001.verificationPercentage Part001.rapidCommits].
  repeat split; lia.
Qed.

Lemma rapidCommits_nonneg (tz : Z) (commits : list GitHubCommit) :
  0 <= Part000.rapidCommits (Part000.analyzeCommitPatterns tz commits) /\
  0 <= Part001.rapidCommits (Part001.analyzeCommitPatterns tz commits).
Proof.
  pose proof (countRapid_bounds (sortTimes (commitTimes tz commits))) as Hr.
  split; apply Hr.
Qed.

(** *** The count does not depend on the order of the commits *)

Lemma insertTime_valid (x : option Z) (l : list (option Z)) :
  validTime x -> Forall validTime l -> Forall validTime (insertTime x l).
Proof.
  intros Hx Hl. induction Hl as [| y l Hy Hl IH]; simpl.
  - constructor; [exact Hx | constructor].
  - destruct (compareTimes x y <? 0); repeat constructor; assumption.
Qed.

(** Insertions of valid times commute. *)
Lemma insertTime_comm (x y : option Z) (l : list (option Z)) :
  validTime x -> validTime y -> Forall validTime l ->
  insertTime x (insertTime y l) = insertTime y (insertTime x l).
Proof.
  intros Hx Hy Hl.
  destruct x as [a |]; [| now elim Hx].
  destruct y as [b |]; [| now elim Hy].
  destruct (Z.eq_dec a b) as [-> | Hne]; [reflexivity|].
  induction Hl as [| z l Hz Hl IH].
  - simpl. destruct (Z.ltb_spec (a - b) 0), (Z.ltb_spec (b - a) 0);
      try reflexivity; lia.
  - destruct z as [c |]; [| now elim Hz].
    simpl.
    destruct (Z.ltb_spec (b - c) 0), (Z.ltb_spec (a - c) 0); simpl;
      repeat match goal with
             | |- context [?u - ?v <? 0] => destruct (Z.ltb_spec (u - v) 0)
             end;
      try reflexivity; try lia.
    rewrite IH. reflexivity.
Qed.

Lemma sortInto_Permutation (l l' : list (option Z)) :
  Permutation l l' -> Forall validTime l ->
  forall sorted, Forall validTime sorted ->
  fold_left (fun sorted x => insertTime x sorted) l sorted =
  fold_left (fun sorted x => insertTime x sorted) l' sorted.
Proof.
  induction 1 as [| x l l' Hp IH | x y l | l l' l'' H1 IH1 H2 IH2];
    intros Hv sorted Hs.
  - reflexivity.
  - simpl. inversion Hv; subst.
    apply IH; [assumption|]. apply insertTime_valid; assumption.
  - simpl. inversion Hv as [| ? ? Hy Hv']; subst.
    inversion Hv' as [| ? ? Hx Hl]; subst.
    rewrite (insertTime_comm Hx Hy Hs). reflexivity.
  - rewrite IH1 by assumption. apply IH2; [|assumption].
    eapply Permutation_Forall; eassumption.
Qed.

Lemma sortTimes_Permutation (l l' : list (option Z)) :
  Permutation l l' -> Forall validTime l -> sortTimes l = sortTimes l'.
Proof.
  intros Hp Hv. unfold sortTimes.
  apply sortInto_Permutation; [assumption | assumption | constructor].
Qed.

(** The model of [sort] returns a permutation of its argument, and for
    valid times it is in ascending order. *)
Lemma insertTime_Permutation (x : option Z) (l : list (option Z)) :
  Permutation (x :: l) (insertTime x l).
Proof.
  induction l as [| y l IH]; simpl; [reflexivity|].
  destruct (compareTimes x y <? 0); [reflexivity|].
  rewrite perm_swap. apply perm_skip. exact IH.
Qed.

Lemma sortInto_Permutation_app (l sorted : list (option Z)) :
  Permutation (l ++ sorted)
    (fold_left (fun sorted x => insertTime x sorted) l sorted).
Proof.
  revert sorted. induction l as [| x l IH]; intro sorted; simpl;
    [reflexivity|].
  rewrite <- IH. rewrite <- insertTime_Permutation.
  apply Permutation_middle.
Qed.

Lemma sortTimes_is_Permutation (l : list (option Z)) :
  Permutation l (sortTimes l).
Proof.
  unfold sortTimes. rewrite <- sortInto_Permutation_app.
  now rewrite app_nil_r.
Qed.

Lemma insertTime_ascending (x : option Z) (l : list (option Z)) :
  validTime x -> Forall validTime l -> ascending l ->
  ascending (insertTime x l).
Proof.
  intros Hx Hl. destruct x as [a |]; [| now elim Hx].
  induction Hl as [| y l Hy Hl IH]; intro Ha; [exact I|].
  destruct y as [b |]; [| now elim Hy].
  cbn [insertTime compareTimes].
  destruct (Z.ltb_spec (a - b) 0).
  - cbn [ascending compareTimes]. split; [lia | exact Ha].
  - destruct l as [| z l'].
    + cbn [insertTime ascending compareTimes]. split; [lia | exact I].
    + destruct Ha as [Hbz Ha]. specialize (IH Ha).
      inversion Hl as [| ? ? Hz _]; subst.
      destruct z as [c |]; [| now elim Hz].
      cbn [insertTime compareTimes] in *.
      destruct (Z.ltb_spec (a - c) 0).
      * cbn [ascending compareTimes] in *. split; [lia | exact IH].
      * cbn [ascending compareTimes] in *. split; [lia | exact IH].
Qed.

Lemma sortInto_ascending (l sorted : list (option Z)) :
  Forall validTime l -> Forall validTime sorted -> ascending sorted ->
  ascending (fold_left (fun sorted x => insertTime x sorted) l sorted).
Proof.
  intro Hl. revert sorted.
  induction Hl as [| x l Hx Hl IH]; intros sorted Hs Ha; [exact Ha|].
  simpl. apply IH.
  - apply insertTime_valid; assumption.
  - apply insertTime_ascending; assumption.
Qed.

Lemma sortTimes_ascending (l : list (option Z)) :
  Forall validTime l -> ascending (sortTimes l).
Proof.
  intro Hl. apply sortInto_ascending; [exact Hl | constructor | exact I].
Qed.

(** C8. For every commit list whose author dates are valid instants, and
    every permutation of it, the analyzer computes the same [rapidCommits]
    for the permuted list as for the original one: the times are sorted
    before they are scanned. *)
Theorem rapidCommits_Permutation (tz : Z) (commits commits' : list GitHubCommit) :
  Forall (fun c => Date_parse tz (commit_author_date c) <> None) commits ->
  Permutation commits commits' ->
  Part000.rapidCommits (Part000.analyzeCommitPatterns tz commits) =
  Part000.rapidCommits (Part000.analyzeCommitPatterns tz commits') /\
  Part001.rapidCommits (Part001.analyzeCommitPatterns tz commits) =
  Part001.rapidCommits (Part001.analyzeCommitPatterns tz commits').
Proof.
  intros Hv Hp.
  assert (E : sortTimes (commitTimes tz commits) =
              sortTimes (commitTimes tz commits')).
  { apply sortTimes_Permutation.
    - unfold commitTimes. apply Permutation_map. exact Hp.
    - unfold commitTimes. apply Forall_map. exact Hv. }
  unfold Part000.analyzeCommitPatterns, Part001.analyzeCommitPatterns.
  cbn [Part000.rapidCommits Part001.rapidCommits].
  rewrite E. split; reflexivity.
Qed.

Lemma rapidCommits_Permutation_witness :
  Part000.rapidCommits (Part000.analyzeCommitPatterns 0 threeCommits) =
  Part000.rapidCommits (Part000.analyzeCommitPatterns 0 (rev threeCommits)).
Proof.
  apply (@rapidCommits_Permutation 0 threeCommits (rev threeCommits)).
  - repeat constructor; vm_compute; discriminate.
  - apply Permutation_rev.
Defined.

Example rapidCommits_three :
  Part000.rapidCommits (Part000.analyzeCommitPatterns 0 threeCommits) = 1.
Proof. vm_compute. reflexivity. Qed.

(** ** The eligibility check *)

Lemma hackathonStart_value (tz : Z) :
  Date_parse tz Part000.hackathonStart = Some Part000.cutoff /\
  Date_parse tz Part001.hackathonStart = Some Part001.cutoff.
Proof. split; reflexivity. Qed.

(** The dates written in the reasons are the cutoff dates. *)
Example cutoff_dates :
  toDateString 0 (Some Part000.cutoff) = lit "Sat May 31 2025" /\
  toDateString 0 (Some Part001.cutoff) = lit "Sun Dec 01 2024".
Proof. split; reflexivity. Qed.

Lemma isEligible_000 (tz : Z) (repoData : GitHubRepo) (t : Z) :
  Date_parse tz (created_at repoData) = Some t ->
  isEligible (Part000.checkHackathonEligibility tz repoData) =
  negb (t <? Part000.cutoff).
Proof.
  intro H. unfold Part000.checkHackathonEligibility.
  rewrite H, (proj1 (hackathonStart_value tz)).
  unfold before. destruct (t <? Part000.cutoff); reflexivity.
Qed.

Lemma isEligible_001 (tz : Z) (repoData : GitHubRepo) (t : Z) :
  Date_parse tz (created_at repoData) = Some t ->
  isEligible (Part001.checkHackathonEligibility tz repoData) =
  negb (t <? Part001.cutoff).
Proof.
  intro H. unfold Part001.checkHackathonEligibility.
  rewrite H, (proj2 (hackathonStart_value tz)).
  unfold before. destruct (t <? Part001.cutoff); reflexivity.
Qed.

(** C5. For every creation timestamp that parses as a valid instant [t],
    the repository is eligible if and only if [t] is at or after the cutoff
    instant; a timestamp equal to the cutoff is eligible and one millisecond
    before it is not.  Each version has its own cutoff. *)
Theorem checkHackathonEligibility_cutoff
  (tz : Z) (repoData : GitHubRepo) (t : Z) :
  Date_parse tz (created_at repoData) = Some t ->
  let e0 := Part000.checkHackathonEligibility tz repoData in
  let e1 := Part001.checkHackathonEligibility tz repoData in
  (isEligible e0 = true <-> Part000.cutoff <= t) /\
  (t = Part000.cutoff -> isEligible e0 = true) /\
  (t = Part000.cutoff - 1 -> isEligible e0 = false) /\
  (isEligible e1 = true <-> Part001.cutoff <= t) /\
  (t = Part001.cutoff -> isEligible e1 = true) /\
  (t = Part001.cutoff - 1 -> isEligible e1 = false).
Proof.
  intro H. cbv zeta.
  rewrite (isEligible_000 _ _ H), (isEligible_001 _ _ H).
  rewrite !negb_true_iff, !negb_false_iff, !Z.ltb_ge, !Z.ltb_lt.
  repeat split; lia.
Qed.

Lemma checkHackathonEligibility_cutoff_witness :
  isEligible
    (Part000.checkHackathonEligibility 0 (sampleRepo "2025-05-31T00:00:00.000Z"))
  = true <-> Part000.cutoff <= Part000.cutoff.
Proof.
  exact (proj1 (@checkHackathonEligibility_cutoff 0
                  (sampleRepo "2025-05-31T00:00:00.000Z") Part000.cutoff
                  eq_refl)).
Defined.

Example eligibility_boundary :
  isEligible (Part000.checkHackathonEligibility 0
                (sampleRepo "2025-05-31T00:00:00.000Z")) = true /\
  isEligible (Part000.checkHackathonEligibility 0
                (sampleRepo "2025-05-30T23:59:59.999Z")) = false /\
  isEligible (Part001.checkHackathonEligibility 0
                (sampleRepo "2024-12-01T00:00:00.000Z")) = true /\
  isEligible (Part001.checkHackathonEligibility 0
                (sampleRepo "2024-11-30T23:59:59.999Z")) = false.
Proof. vm_compute. auto. Qed.

(** *** The reason string *)

Lemma startsWith_app (p s : jsstring) : startsWith p (p ++ s) = true.
Proof.
  induction p as [| a p IH]; simpl; [reflexivity|].
  unfold unit_eqb. now rewrite N.eqb_refl.
Qed.

Lemma includes_here (p s : jsstring) :
  startsWith p s = true -> includes p s = true.
Proof. intro H. destruct s; simpl; rewrite H; reflexivity. Qed.

Lemma includes_skip (p a s : jsstring) :
  includes p s = true -> includes p (a ++ s) = true.
Proof.
  intro H. induction a as [| c a IH]; simpl; [exact H|].
  rewrite IH. apply orb_true_r.
Qed.

Lemma includes_app (p a b : jsstring) : includes p (a ++ p ++ b) = true.
Proof. apply includes_skip, includes_here, startsWith_app. Qed.

(** Two strings with different last units differ. *)
Lemma last_unit_neq (x y : jsstring) (a b : N) :
  a <> b -> x ++ [a] <> y ++ [b].
Proof. intros Hab E. apply app_inj_tail in E. tauto. Qed.

Lemma reason_000 (tz : Z) (repoData : GitHubRepo) :
  let e := Part000.checkHackathonEligibility tz repoData in
  let d := toDateString tz (Date_parse tz (created_at repoData)) in
  reason e =
    lit "Repository created on " ++ d ++
    (if isEligible e then lit ", from/after" else lit ", before") ++
    lit " hackathon start date (" ++ lit "May 31, 2025" ++ lit ")".
Proof.
  cbv zeta. unfold Part000.checkHackathonEligibility.
  destruct (before _ _); reflexivity.
Qed.

Lemma reason_001 (tz : Z) (repoData : GitHubRepo) :
  let e := Part001.checkHackathonEligibility tz repoData in
  let d := toDateString tz (Date_parse tz (created_at repoData)) in
  reason e =
    if isEligible e then lit "Repository meets hackathon timeline requirements"
    else lit "Repository created on " ++ d ++
         lit ", before hackathon submission period (" ++
         lit "December 1, 2024" ++ lit ")".
Proof.
  cbv zeta. unfold Part001.checkHackathonEligibility.
  destruct (before _ _); reflexivity.
Qed.

(** C6, as amended.  In the version with the badge check the reason names
    the cutoff date and the creation date on both branches.  In the other
    version only the reason of the ineligible branch does; the reason of
    the eligible branch is one fixed sentence.  In both versions the reason
    of an eligible repository differs from that of an ineligible one. *)
Theorem eligibility_reason (tz : Z) :
  (forall repoData t,
     Date_parse tz (created_at repoData) = Some t ->
     namesDates (lit "May 31, 2025") (toDateString tz (Some t))
       (reason (Part000.checkHackathonEligibility tz repoData)) = true) /\
  (forall repoData t,
     Date_parse tz (created_at repoData) = Some t ->
     let e := Part001.checkHackathonEligibility tz repoData in
     if isEligible e
     then reason e = lit "Repository meets hackathon timeline requirements"
     else namesDates (lit "December 1, 2024") (toDateString tz (Some t))
            (reason e) = true) /\
  (forall r1 r2,
     isEligible (Part000.checkHackathonEligibility tz r1) = true ->
     isEligible (Part000.checkHackathonEligibility tz r2) = false ->
     reason (Part000.checkHackathonEligibility tz r1) <>
     reason (Part000.checkHackathonEligibility tz r2)) /\
  (forall r1 r2,
     isEligible (Part001.checkHackathonEligibility tz r1) = true ->
     isEligible (Part001.checkHackathonEligibility tz r2) = false ->
     reason (Part001.checkHackathonEligibility tz r1) <>
     reason (Part001.checkHackathonEligibility tz r2)).
Proof.
  repeat split.
  - intros repoData t H. unfold namesDates.
    pose proof (reason_000 tz repoData) as R. cbv zeta in R.
    rewrite R, H. apply andb_true_intro. split.
    + rewrite !app_assoc. rewrite <- app_assoc. apply includes_app.
    + apply includes_app.
  - intros repoData t H. cbv zeta.
    pose proof (reason_001 tz repoData) as R. cbv zeta in R.
    rewrite R, H.
    destruct (isEligible (Part001.checkHackathonEligibility tz repoData));
      [reflexivity|].
    unfold namesDates. apply andb_true_intro. split.
    + rewrite !app_assoc. rewrite <- app_assoc. apply includes_app.
    + apply includes_app.
  - intros r1 r2 H1 H2.
    pose proof (reason_000 tz r1) as R1. pose proof (reason_000 tz r2) as R2.
    cbv zeta in R1, R2. rewrite R1, R2, H1, H2. clear.
    intro E. rewrite !app_assoc in E.
    do 3 apply app_inv_tail in E.
    change (lit ", from/after") with (lit ", from/afte" ++ [114%N]) in E.
    change (lit ", before") with (lit ", befor" ++ [101%N]) in E.
    rewrite !app_assoc in E.
    revert E. apply last_unit_neq. discriminate.
  - intros r1 r2 H1 H2.
    pose proof (reason_001 tz r1) as R1. pose proof (reason_001 tz r2) as R2.
    cbv zeta in R1, R2. rewrite R1, R2, H1, H2. clear.
    change (lit "Repository meets hackathon timeline requirements")
      with (lit "Repository meets hackathon timeline requirement" ++ [115%N]).
    change (lit ")") with [41%N].
    rewrite !app_assoc.
    apply last_unit_neq. discriminate.
Qed.

(** C6 as stated fails in the version without the badge check: the reason
    of an eligible repository names neither date. *)
Lemma eligibility_reason_counterexample :
  let repoData := sampleRepo "2025-01-15T08:00:00Z" in
  let e := Part001.checkHackathonEligibility 0 repoData in
  isEligible e = true /\
  namesDates (lit "December 1, 2024")
    (toDateString 0 (Date_parse 0 (created_at repoData))) (reason e) = false /\
  includes (lit "December 1, 2024") (reason e) = false /\
  includes (toDateString 0 (Date_parse 0 (created_at repoData))) (reason e) = false.
Proof. vm_compute. auto. Qed.

Lemma eligibility_reason_witness :
  namesDates (lit "May 31, 2025") (lit "Sun Jun 01 2025")
    (reason (Part000.checkHackathonEligibility 0
               (sampleRepo "2025-06-01T09:30:00Z"))) = true.
Proof.
  exact (proj1 (eligibility_reason 0)
               (sampleRepo "2025-06-01T09:30:00Z") 1748770200000 eq_refl).
Defined.

(** ** The normalisation of the reply *)

Lemma eqb_eq (s t : jsstring) : JSString.eqb s t = true -> s = t.
Proof.
  revert t. induction s as [| a s IH]; intros [| b t]; simpl;
    try discriminate; [reflexivity|].
  intro H. apply andb_prop in H. destruct H as [Hab Hst].
  apply N.eqb_eq in Hab. subst. f_equal. auto.
Qed.

Lemma tier_levels (high medium : bool) : In (tier high medium) levels.
Proof. unfold tier, levels. destruct high, medium; simpl; auto. Qed.

Lemma isLevel_levels (c : json) (lv : jsstring) :
  isLevel c = Some lv -> In lv levels.
Proof.
  destruct c; cbn [isLevel]; try discriminate.
  destruct (existsb (JSString.eqb s) levels) eqn:E; [|discriminate].
  intro H; injection H as <-.
  apply existsb_exists in E. destruct E as (x & Hx & Heq).
  apply eqb_eq in Heq. subst. exact Hx.
Qed.

Lemma confidence_levels (c : json) (high medium : bool) :
  In (match isLevel c with Some lv => lv | None => tier high medium end) levels.
Proof.
  destruct (isLevel c) eqn:E; [eapply isLevel_levels; eassumption|].
  apply tier_levels.
Qed.

Ltac parsed_cases H :=
  repeat match type of H with
         | match ?x with _ => _ end = Some _ =>
             let E := fresh "E" in destruct x eqn:E; try discriminate H
         | (if ?x then _ else _) = Some _ =>
             let E := fresh "E" in destruct x eqn:E; try discriminate H
         end.

Lemma parsedAnalysis_000_levels (p : Part000.CommitPatterns)
  (text : jsstring) (o : AIOpinion) :
  Part000.parsedAnalysis p text = Some o -> In (confidence o) levels.
Proof.
  unfold Part000.parsedAnalysis. intro H. parsed_cases H.
  injection H as <-. cbn [confidence]. apply confidence_levels.
Qed.

Lemma parsedAnalysis_001_levels (p : Part001.CommitPatterns)
  (text : jsstring) (o : AIOpinion) :
  Part001.parsedAnalysis p text = Some o -> In (confidence o) levels.
Proof.
  unfold Part001.parsedAnalysis. intro H. parsed_cases H.
  injection H as <-. cbn [confidence]. apply confidence_levels.
Qed.

Lemma attempt_000_levels (p : Part000.CommitPatterns)
  (reply : option jsstring) (o : AIOpinion) :
  Part000.attempt p reply = Some o -> In (confidence o) levels.
Proof.
  unfold Part000.attempt. destruct reply as [[| c t] |]; try discriminate.
  apply parsedAnalysis_000_levels.
Qed.

Lemma attempt_001_levels (p : Part001.CommitPatterns)
  (reply : option jsstring) (o : AIOpinion) :
  Part001.attempt p reply = Some o -> In (confidence o) levels.
Proof.
  unfold Part001.attempt. destruct reply as [[| c t] |]; try discriminate.
  apply parsedAnalysis_001_levels.
Qed.

(** A failed call, an empty text and a text that does not parse all take
    the fallback. *)
Lemma attempt_failure (p0 : Part000.CommitPatterns) (p1 : Part001.CommitPatterns)
  (reply : option jsstring) :
  reply = None \/ reply = Some [] \/
  (exists t, reply = Some t /\ JSON.parse (cleanedText t) = None) ->
  Part000.attempt p0 reply = None /\ Part001.attempt p1 reply = None.
Proof.
  intros [-> | [-> | (t & -> & H)]]; try (split; reflexivity).
  unfold Part000.attempt, Part001.attempt,
    Part000.parsedAnalysis, Part001.parsedAnalysis.
  rewrite H. destruct t; split; reflexivity.
Qed.

Lemma c0_3_pos : (0 < c0_3)%Q.
Proof. reflexivity. Qed.

Lemma inject_Z_nonneg (n : Z) : 0 <= n -> (0 <= inject_Z n)%Q.
Proof. intro H. unfold Qle; simpl; lia. Qed.

Lemma fallback_000_likelihood (tz : Z) (repoData : GitHubRepo)
  (p : Part000.CommitPatterns) :
  0 <= Part000.githubVerifiedPercentage p ->
  0 <= Part000.rapidCommits p ->
  (0 <= likelihood (Part000.fallback tz repoData p) <= 100)%Q.
Proof.
  intros Hp Hr. unfold Part000.fallback. cbn [likelihood].
  split; [|apply NumberFacts.Math_min_le_r].
  apply NumberFacts.Math_min_nonneg; [|discriminate].
  unfold Number.add, Number.mul.
  apply NumberFacts.round64_nonneg.
  pose proof (inject_Z_nonneg Hp) as Hp'.
  pose proof (inject_Z_nonneg Hr) as Hr'.
  assert (H1 : (0 <= Number.round64
                       (inject_Z (Part000.githubVerifiedPercentage p) * c0_3))%Q).
  { apply NumberFacts.round64_nonneg. apply Qmult_le_0_compat; [exact Hp'|].
    apply Qlt_le_weak, c0_3_pos. }
  assert (H2 : (0 <= Number.round64
                       (inject_Z (Part000.rapidCommits p) * inject_Z 2))%Q).
  { apply NumberFacts.round64_nonneg. apply Qmult_le_0_compat; [exact Hr'|].
    discriminate. }
  assert (H3 : (0 <= inject_Z (if Part000.totalCommits p >? 50 then 10 else 0))%Q).
  { destruct (Part000.totalCommits p >? 50); discriminate. }
  assert (H4 : (0 <= Number.round64
     (Number.round64 (inject_Z (Part000.githubVerifiedPercentage p) * c0_3) +
      Number.round64 (inject_Z (Part000.rapidCommits p) * inject_Z 2)))%Q).
  { apply NumberFacts.round64_nonneg. lra. }
  lra.
Qed.

Lemma fallback_001_likelihood (tz : Z) (repoData : GitHubRepo)
  (p : Part001.CommitPatterns) :
  0 <= Part001.verificationPercentage p <= 100 ->
  (0 <= likelihood (Part001.fallback tz repoData p) <= 100)%Q /\
  Number.isInteger (likelihood (Part001.fallback tz repoData p)) = true.
Proof.
  intros Hp. unfold Part001.fallback. cbn [likelihood].
  set (b := if Part001.rapidCommits p >? 10 then 15 else 0).
  assert (Hb : 0 <= b <= 15) by (subst b; destruct (_ >? 10); lia).
  set (v := Part001.verificationPercentage p) in *.
  assert (Hs : (Number.add (inject_Z v) (inject_Z b) == inject_Z (v + b))%Q).
  { unfold Number.add.
    rewrite (@NumberFacts.round64_proper _ (inject_Z (v + b))).
    - apply NumberFacts.round64_int. lia.
    - rewrite <- inject_Z_plus. apply inject_Z_nonneg. lia.
    - rewrite inject_Z_plus. reflexivity. }
  unfold Number.Math_min.
  destruct (Qle_bool (Number.add (inject_Z v) (inject_Z b)) (inject_Z 100)) eqn:E.
  - apply Qle_bool_iff in E. split; [split|].
    + rewrite Hs. apply inject_Z_nonneg. lia.
    + exact E.
    + apply (@NumberFacts.isInteger_inject _ (v + b)). exact Hs.
  - split; [split|]; [discriminate | apply Qle_refl | reflexivity].
Qed.

Lemma patterns_000_nonneg (tz : Z) (commits : list GitHubCommit) :
  let p := Part000.analyzeCommitPatterns tz commits in
  0 <= Part000.githubVerifiedPercentage p <= 100 /\ 0 <= Part000.rapidCommits p.
Proof.
  cbv zeta. split.
  - apply percentage_bounds, countWhere_bounds.
  - apply rapidCommits_nonneg.
Qed.

Lemma patterns_001_nonneg (tz : Z) (commits : list GitHubCommit) :
  let p := Part001.analyzeCommitPatterns tz commits in
  0 <= Part001.verificationPercentage p <= 100 /\ 0 <= Part001.rapidCommits p.
Proof.
  cbv zeta. split.
  - apply percentage_bounds, countWhere_bounds.
  - apply rapidCommits_nonneg.
Qed.

Lemma parsedAnalysis_000_likelihood (p : Part000.CommitPatterns)
  (text : jsstring) (m : list (jsstring * json)) (v : json) (o : AIOpinion) :
  JSON.parse text = Some (JObj m) ->
  get (lit "likelihood") m = Some v ->
  Part000.parsedAnalysis p text = Some o ->
  asNumber (Part000.heuristic p) v = Some (likelihood o).
Proof.
  intros Hm Hv H. unfold Part000.parsedAnalysis in H.
  rewrite Hm, Hv in H. parsed_cases H.
  injection H as <-. reflexivity.
Qed.

Lemma parsedAnalysis_001_likelihood (p : Part001.CommitPatterns)
  (text : jsstring) (m : list (jsstring * json)) (v : json) (o : AIOpinion) :
  JSON.parse text = Some (JObj m) ->
  get (lit "likelihood") m = Some v ->
  Part001.parsedAnalysis p text = Some o ->
  asNumber (Part001.heuristic p) v = Some (likelihood o).
Proof.
  intros Hm Hv H. unfold Part001.parsedAnalysis in H.
  rewrite Hm, Hv in H. parsed_cases H.
  injection H as <-. reflexivity.
Qed.

Lemma attempt_000_parsed (p : Part000.CommitPatterns) (text : jsstring)
  (o : AIOpinion) :
  Part000.attempt p (Some text) = Some o ->
  Part000.parsedAnalysis p (cleanedText text) = Some o.
Proof. unfold Part000.attempt. destruct text; [discriminate | auto]. Qed.

Lemma attempt_001_parsed (p : Part001.CommitPatterns) (text : jsstring)
  (o : AIOpinion) :
  Part001.attempt p (Some text) = Some o ->
  Part001.parsedAnalysis p (cleanedText text) = Some o.
Proof. unfold Part001.attempt. destruct text; [discriminate | auto]. Qed.

Lemma attempt_000_fields (p : Part000.CommitPatterns)
  (reply : option jsstring) (o : AIOpinion) :
  Part000.attempt p reply = Some o ->
  exists t m, reply = Some t /\ JSON.parse (cleanedText t) = Some (JObj m) /\
    forallb (fun field => hasKey field m) requiredFields = true.
Proof.
  unfold Part000.attempt. destruct reply as [[| c t] |]; try discriminate.
  intro H. exists (c :: t).
  unfold Part000.parsedAnalysis in H.
  destruct (JSON.parse (cleanedText (c :: t))) as [[| | | | | m] |];
    try discriminate H.
  exists m. repeat split.
  destruct (hasKey (lit "hasOwnProperty") m); [discriminate H|].
  destruct (forallb _ requiredFields); [reflexivity | discriminate H].
Qed.

Lemma attempt_001_fields (p : Part001.CommitPatterns)
  (reply : option jsstring) (o : AIOpinion) :
  Part001.attempt p reply = Some o ->
  exists t m, reply = Some t /\ JSON.parse (cleanedText t) = Some (JObj m) /\
    forallb (fun field => hasKey field m) requiredFields = true.
Proof.
  unfold Part001.attempt. destruct reply as [[| c t] |]; try discriminate.
  intro H. exists (c :: t).
  unfold Part001.parsedAnalysis in H.
  destruct (JSON.parse (cleanedText (c :: t))) as [[| | | | | m] |];
    try discriminate H.
  exists m. repeat split.
  destruct (hasKey (lit "hasOwnProperty") m); [discriminate H|].
  destruct (forallb _ requiredFields); [reflexivity | discriminate H].
Qed.

(** C1, as amended.  For every outcome of the call to the model
    [analyzeWithGemini] returns an opinion (it is a total function: every
    exception is caught) whose confidence is one of [high], [medium],
    [low].  When the fallback is taken - the call failed, or the text is
    empty or does not parse, or the parsed value is rejected - the
    likelihood lies in [0, 100], and in the version without the badge
    check it is an integer.  A reply is accepted only if it parses to an
    object with the five required fields, and a numeric likelihood it
    carries is returned as it is. *)
Theorem analyzeWithGemini_opinion (tz : Z) (repoData : GitHubRepo)
  (commits : list GitHubCommit) (reply : option jsstring) :
  let p0 := Part000.analyzeCommitPatterns tz commits in
  let o0 := Part000.analyzeWithGemini tz repoData p0 reply in
  let p1 := Part001.analyzeCommitPatterns tz commits in
  let o1 := Part001.analyzeWithGemini tz repoData p1 reply in
  (In (confidence o0) levels /\
   (Part000.attempt p0 reply = None -> (0 <= likelihood o0 <= 100)%Q)) /\
  (In (confidence o1) levels /\
   (Part001.attempt p1 reply = None ->
    (0 <= likelihood o1 <= 100)%Q /\ Number.isInteger (likelihood o1) = true)) /\
  (reply = None \/ reply = Some [] \/
   (exists t, reply = Some t /\ JSON.parse (cleanedText t) = None) ->
   Part000.attempt p0 reply = None /\ Part001.attempt p1 reply = None) /\
  (forall t m q,
     reply = Some t ->
     JSON.parse (cleanedText t) = Some (JObj m) ->
     get (lit "likelihood") m = Some (JNum q) ->
     (Part000.attempt p0 reply <> None -> likelihood o0 = q) /\
     (Part001.attempt p1 reply <> None -> likelihood o1 = q)) /\
  (Part000.attempt p0 reply <> None \/ Part001.attempt p1 reply <> None ->
   exists t m,
     reply = Some t /\ JSON.parse (cleanedText t) = Some (JObj m) /\
     forallb (fun field => hasKey field m) requiredFields = true).
Proof.
  cbv zeta.
  destruct (patterns_000_nonneg tz commits) as [Hp0 Hr0].
  destruct (patterns_001_nonneg tz commits) as [Hp1 Hr1].
  cbv zeta in Hp0, Hr0, Hp1, Hr1.
  split; [|split; [|split; [|split]]]; [split | split | | |].
  - unfold Part000.analyzeWithGemini.
    destruct (Part000.attempt _ reply) eqn:E.
    + eapply attempt_000_levels; eassumption.
    + apply tier_levels.
  - intro E. unfold Part000.analyzeWithGemini. rewrite E.
    apply fallback_000_likelihood; [lia | exact Hr0].
  - unfold Part001.analyzeWithGemini.
    destruct (Part001.attempt _ reply) eqn:E.
    + eapply attempt_001_levels; eassumption.
    + apply tier_levels.
  - intro E. unfold Part001.analyzeWithGemini. rewrite E.
    apply fallback_001_likelihood. exact Hp1.
  - apply attempt_failure.
  - intros t m q -> Hm Hq. split; intro Hne.
    + unfold Part000.analyzeWithGemini.
      destruct (Part000.attempt _ (Some t)) as [o |] eqn:E; [|now elim Hne].
      apply attempt_000_parsed in E.
      pose proof (@parsedAnalysis_000_likelihood _ _ _ _ _ Hm Hq E) as H.
      cbn [asNumber] in H. congruence.
    + unfold Part001.analyzeWithGemini.
      destruct (Part001.attempt _ (Some t)) as [o |] eqn:E; [|now elim Hne].
      apply attempt_001_parsed in E.
      pose proof (@parsedAnalysis_001_likelihood _ _ _ _ _ Hm Hq E) as H.
      cbn [asNumber] in H. congruence.
  - intros [Hne | Hne].
    + destruct (Part000.attempt _ reply) as [o |] eqn:E; [|now elim Hne].
      eapply attempt_000_fields; eassumption.
    + destruct (Part001.attempt _ reply) as [o |] eqn:E; [|now elim Hne].
      eapply attempt_001_fields; eassumption.
Qed.

Lemma analyzeWithGemini_opinion_witness :
  (0 <= likelihood
          (Part000.analyzeWithGemini 0 (sampleRepo "2025-06-01T09:30:00Z")
             (Part000.analyzeCommitPatterns 0 twentyCommits)
             (Some (lit "not json at all"))) <= 100)%Q.
Proof.
  apply (proj1 (analyzeWithGemini_opinion 0 (sampleRepo "2025-06-01T09:30:00Z")
                  twentyCommits (Some (lit "not json at all")))).
  reflexivity.
Defined.

(** C1 as stated fails.  After a failed call the version with the badge
    check returns the likelihood 7.5 for four commits of which one is
    verified; and either version returns the likelihood 150 of a reply
    that carries it. *)
Lemma analyzeWithGemini_opinion_counterexample :
  let repoData := sampleRepo "2025-06-01T09:30:00Z" in
  let p0 := Part000.analyzeCommitPatterns 0 (fourCommits 1) in
  let p1 := Part001.analyzeCommitPatterns 0 (fourCommits 1) in
  let reply := Some (sampleReply "150" "high") in
  validOpinion (Part000.analyzeWithGemini 0 repoData p0 None) = false /\
  (likelihood (Part000.analyzeWithGemini 0 repoData p0 None) == 15 # 2)%Q /\
  validOpinion (Part000.analyzeWithGemini 0 repoData p0 reply) = false /\
  (likelihood (Part000.analyzeWithGemini 0 repoData p0 reply) == 150)%Q /\
  validOpinion (Part001.analyzeWithGemini 0 repoData p1 reply) = false /\
  (likelihood (Part001.analyzeWithGemini 0 repoData p1 reply) == 150)%Q.
Proof. vm_compute. repeat split. Qed.

(** *** The confidence of the fallback *)

Example not_json_takes_fallback
  (p0 : Part000.CommitPatterns) (p1 : Part001.CommitPatterns) :
  Part000.attempt p0 (Some (lit "not json at all")) = None /\
  Part001.attempt p1 (Some (lit "not json at all")) = None.
Proof. split; reflexivity. Qed.

(** C9, as amended.  When the fallback is taken, the version with the
    badge check derives the confidence from [rapidCommits] alone: [high]
    above 15, [medium] above 7, [low] otherwise; so 12 rapid commits give
    [medium], whatever the verification percentage.  The other version
    derives it from the verification percentage alone: [high] above 80,
    [medium] above 60, [low] otherwise; so 85 percent give [high]. *)
Theorem fallback_confidence (tz : Z) (repoData : GitHubRepo)
  (reply : option jsstring) :
  (forall p, Part000.attempt p reply = None ->
     confidence (Part000.analyzeWithGemini tz repoData p reply) =
       tier (Part000.rapidCommits p >? 15) (Part000.rapidCommits p >? 7) /\
     (Part000.rapidCommits p = 12 ->
      confidence (Part000.analyzeWithGemini tz repoData p reply) = lit "medium")) /\
  (forall p, Part001.attempt p reply = None ->
     confidence (Part001.analyzeWithGemini tz repoData p reply) =
       tier (Part001.verificationPercentage p >? 80)
            (Part001.verificationPercentage p >? 60) /\
     (Part001.verificationPercentage p = 85 ->
      confidence (Part001.analyzeWithGemini tz repoData p reply) = lit "high")).
Proof.
  split; intros p E.
  - unfold Part000.analyzeWithGemini. rewrite E.
    unfold Part000.fallback. cbn [confidence].
    split; [reflexivity|]. intros ->. reflexivity.
  - unfold Part001.analyzeWithGemini. rewrite E.
    unfold Part001.fallback. cbn [confidence].
    split; [reflexivity|]. intros ->. reflexivity.
Qed.

Lemma fallback_confidence_witness :
  confidence
    (Part000.analyzeWithGemini 0 (sampleRepo "2025-06-01T09:30:00Z")
       (Part000.analyzeCommitPatterns 0 twentyCommits)
       (Some (lit "not json at all"))) = lit "medium".
Proof.
  apply (proj1 (fallback_confidence 0 (sampleRepo "2025-06-01T09:30:00Z")
                  (Some (lit "not json at all")))
               (Part000.analyzeCommitPatterns 0 twentyCommits) eq_refl).
  vm_compute. reflexivity.
Defined.

(** C9 as stated fails in the version with the badge check: with 12 rapid
    commits and 85 percent verified commits the fallback confidence is
    [medium], not [high]. *)
Lemma fallback_confidence_counterexample :
  let p := Part000.analyzeCommitPatterns 0 twentyCommits in
  let o := Part000.analyzeWithGemini 0 (sampleRepo "2025-06-01T09:30:00Z") p
             (Some (lit "not json at all")) in
  Part000.rapidCommits p = 12 /\
  Part000.githubVerifiedPercentage p = 85 /\
  Part000.attempt p (Some (lit "not json at all")) = None /\
  confidence o = lit "medium" /\
  confidence o <> lit "high".
Proof. vm_compute. repeat split. discriminate. Qed.

(** *** The coercion of the likelihood *)

Lemma asNumber_coerced (h : Q) (v : json) (r : Q) :
  (forall q, v <> JNum q) ->
  asNumber h v = Some r ->
  exists s, JSON.toString v = Some s /\
    match Number.parseInt s with
    | Some n => if Qeq_bool n 0 then r = h else r = n
    | None => r = h
    end.
Proof.
  intros Hv H. unfold asNumber in H.
  destruct v; try (now elim (Hv q));
    (destruct (JSON.toString _) as [s' |] eqn:E; [|discriminate H];
     exists s'; split; [reflexivity|];
     destruct (Number.parseInt s') as [n |];
     [destruct (Qeq_bool n 0)|]; congruence).
Qed.

(** C10. On the path where the reply is accepted, a likelihood [v] that is
    not a Number is read with [parseInt (String v)]; a result that is zero
    or NaN is discarded and the heuristic estimate takes its place.  In
    particular the likelihood string "0" yields the heuristic estimate.
    The estimate is [min (percentage + rapidCommits) 100] in the version
    with the badge check and the percentage in the other. *)
Theorem likelihood_coercion
  (p0 : Part000.CommitPatterns) (p1 : Part001.CommitPatterns)
  (text : jsstring) (m : list (jsstring * json)) (v : json) :
  JSON.parse (cleanedText text) = Some (JObj m) ->
  get (lit "likelihood") m = Some v ->
  (forall q, v <> JNum q) ->
  (forall o, Part000.attempt p0 (Some text) = Some o ->
     exists s, JSON.toString v = Some s /\
       match Number.parseInt s with
       | Some n =>
           if Qeq_bool n 0 then likelihood o = Part000.heuristic p0
           else likelihood o = n
       | None => likelihood o = Part000.heuristic p0
       end) /\
  (forall o, Part001.attempt p1 (Some text) = Some o ->
     exists s, JSON.toString v = Some s /\
       match Number.parseInt s with
       | Some n =>
           if Qeq_bool n 0 then likelihood o = Part001.heuristic p1
           else likelihood o = n
       | None => likelihood o = Part001.heuristic p1
       end) /\
  (v = JStr (lit "0") ->
   (forall o, Part000.attempt p0 (Some text) = Some o ->
      likelihood o = Part000.heuristic p0) /\
   (forall o, Part001.attempt p1 (Some text) = Some o ->
      likelihood o = Part001.heuristic p1)).
Proof.
  intros Hm Hv Hn.
  assert (H0 : forall o, Part000.attempt p0 (Some text) = Some o ->
                 asNumber (Part000.heuristic p0) v = Some (likelihood o)).
  { intros o H. apply attempt_000_parsed in H.
    eapply parsedAnalysis_000_likelihood; eassumption. }
  assert (H1 : forall o, Part001.attempt p1 (Some text) = Some o ->
                 asNumber (Part001.heuristic p1) v = Some (likelihood o)).
  { intros o H. apply attempt_001_parsed in H.
    eapply parsedAnalysis_001_likelihood; eassumption. }
  split; [|split].
  - intros o H. apply asNumber_coerced; auto.
  - intros o H. apply asNumber_coerced; auto.
  - intros ->. split; intros o H.
    + apply H0 in H. injection H as <-. reflexivity.
    + apply H1 in H. injection H as <-. reflexivity.
Qed.

Lemma likelihood_coercion_witness :
  let p0 := Part000.analyzeCommitPatterns 0 twentyCommits in
  likelihood
    (Part000.analyzeWithGemini 0 (sampleRepo "2025-06-01T09:30:00Z") p0
       (Some (sampleReply "'0'" "low"))) = Part000.heuristic p0.
Proof.
  cbv zeta. unfold Part000.analyzeWithGemini.
  destruct (Part000.attempt (Part000.analyzeCommitPatterns 0 twentyCommits)
              (Some (sampleReply "'0'" "low"))) as [o |] eqn:E.
  - refine (proj1 (proj2 (proj2
      (@likelihood_coercion
         (Part000.analyzeCommitPatterns 0 twentyCommits)
         (Part001.analyzeCommitPatterns 0 twentyCommits)
         (sampleReply "'0'" "low") _ (JStr (lit "0")) _ _ _)) eq_refl) o E).
    + vm_compute. reflexivity.
    + vm_compute. reflexivity.
    + discriminate.
  - vm_compute in E. discriminate E.
Defined.

(** With 85 percent verified and 12 rapid commits the likelihood string
    "0" becomes 97 in one version and 85 in the other. *)
Example likelihood_zero_string :
  let repoData := sampleRepo "2025-06-01T09:30:00Z" in
  let reply := Some (sampleReply "'0'" "low") in
  (likelihood
     (Part000.analyzeWithGemini 0 repoData
        (Part000.analyzeCommitPatterns 0 twentyCommits) reply) == 97)%Q /\
  (likelihood
     (Part001.analyzeWithGemini 0 repoData
        (Part001.analyzeCommitPatterns 0 twentyCommits) reply) == 85)%Q.
Proof. vm_compute. split; reflexivity. Qed.

(** ** The result object *)

(** C2, as amended.  In the version with the badge check
    [isLikelyAIGenerated] is true exactly when the likelihood of the
    opinion (parsed or fallback) is greater than 70: false at 70, true at
    71.  In the other version it is true exactly when the verification
    percentage is greater than 80 or [rapidCommits] is greater than 15. *)
Theorem isLikelyAIGenerated_rule (tz : Z) (repoUrl : jsstring)
  (repoData : GitHubRepo) (commits : list GitHubCommit) (badge : bool)
  (reply : option jsstring) :
  let r0 := Part000.result tz repoUrl repoData commits badge reply in
  let r1 := Part001.result tz repoUrl repoData commits reply in
  (Part000.isLikelyAIGenerated r0 = true <->
   (70 < likelihood (Part000.aiAnalysis r0))%Q) /\
  ((likelihood (Part000.aiAnalysis r0) == 70)%Q ->
   Part000.isLikelyAIGenerated r0 = false) /\
  ((likelihood (Part000.aiAnalysis r0) == 71)%Q ->
   Part000.isLikelyAIGenerated r0 = true) /\
  (Part001.isLikelyAIGenerated r1 = true <->
   80 < Part001.verificationPercentage (Part001.commitPatterns r1) \/
   15 < Part001.rapidCommits (Part001.commitPatterns r1)).
Proof.
  cbv zeta.
  unfold Part000.result, Part001.result.
  cbn [Part000.isLikelyAIGenerated Part000.aiAnalysis
       Part001.isLikelyAIGenerated Part001.commitPatterns].
  set (l := likelihood (Part000.analyzeWithGemini _ _ _ _)).
  pose proof (NumberFacts.gtb_spec l (inject_Z 70)) as G.
  change (inject_Z 70) with 70%Q in *.
  split; [exact G|]. split; [|split].
  - intro E. destruct (Number.gtb l 70); [|reflexivity].
    assert (70 < l)%Q by (apply G; reflexivity). lra.
  - intro E. apply G. lra.
  - rewrite orb_true_iff, !Z.gtb_lt. reflexivity.
Qed.

Example isLikelyAIGenerated_at_70_71 :
  let run := fun likelihood =>
    Part000.isLikelyAIGenerated
      (Part000.result 0 (lit "https://github.com/octo/demo")
         (sampleRepo "2025-06-01T09:30:00Z") (fourCommits 1) false
         (Some (sampleReply likelihood "medium"))) in
  run "70"%string = false /\ run "71"%string = true /\
  run "70.5"%string = true.
Proof. vm_compute. auto. Qed.

(** C2 as stated fails in the version without the badge check: for four
    commits of which three are verified and a failed call the likelihood
    is 75 and [isLikelyAIGenerated] is false. *)
Lemma isLikelyAIGenerated_rule_counterexample :
  let r := Part001.result 0 (lit "https://github.com/octo/demo")
             (sampleRepo "2025-06-01T09:30:00Z") (fourCommits 3) None in
  ~ (Part001.isLikelyAIGenerated r = true <->
     (70 < likelihood (Part001.aiAnalysis r))%Q).
Proof.
  cbv zeta. intros [_ H].
  assert (E : Part001.isLikelyAIGenerated
                (Part001.result 0 (lit "https://github.com/octo/demo")
                   (sampleRepo "2025-06-01T09:30:00Z") (fourCommits 3) None)
              = false) by (vm_compute; reflexivity).
  rewrite E in H. apply Bool.diff_false_true, H.
  vm_compute. reflexivity.
Qed.

(** C3, as amended.  In the version with the badge check the reported
    [verificationPercentage] is the likelihood of the opinion.  In the
    other version it is the verification percentage of the commit
    patterns, whatever the opinion says. *)
Theorem verificationPercentage_rule (tz : Z) (repoUrl : jsstring)
  (repoData : GitHubRepo) (commits : list GitHubCommit) (badge : bool)
  (reply : option jsstring) :
  let r0 := Part000.result tz repoUrl repoData commits badge reply in
  let r1 := Part001.result tz repoUrl repoData commits reply in
  Part000.verificationPercentage r0 = likelihood (Part000.aiAnalysis r0) /\
  Part000.aiAnalysis r0 =
    Part000.analyzeWithGemini tz repoData
      (Part000.analyzeCommitPatterns tz commits) reply /\
  Part001.result_verificationPercentage r1 =
    inject_Z (Part001.verificationPercentage
                (Part001.analyzeCommitPatterns tz commits)).
Proof. cbv zeta. repeat split. Qed.

(** C3 as stated fails in the version without the badge check: for four
    commits of which three are verified and a reply with likelihood 10 the
    reported percentage is 75. *)
Lemma verificationPercentage_rule_counterexample :
  let r := Part001.result 0 (lit "https://github.com/octo/demo")
             (sampleRepo "2025-06-01T09:30:00Z") (fourCommits 3)
             (Some (sampleReply "10" "low")) in
  (likelihood (Part001.aiAnalysis r) == 10)%Q /\
  (Part001.result_verificationPercentage r == 75)%Q /\
  ~ (Part001.result_verificationPercentage r == likelihood (Part001.aiAnalysis r))%Q.
Proof. vm_compute. repeat split; discriminate. Qed.

(** C4, as amended.  In the version with the badge check the reported
    confidence is the confidence of the opinion, unchanged.  In the other
    version it is computed from the commit patterns: [high] when the
    verification percentage is above 80 or [rapidCommits] above 20,
    [medium] when they are above 60 or above 10, [low] otherwise. *)
Theorem confidence_rule (tz : Z) (repoUrl : jsstring)
  (repoData : GitHubRepo) (commits : list GitHubCommit) (badge : bool)
  (reply : option jsstring) :
  let r0 := Part000.result tz repoUrl repoData commits badge reply in
  let r1 := Part001.result tz repoUrl repoData commits reply in
  let p1 := Part001.analyzeCommitPatterns tz commits in
  Part000.result_confidence r0 = confidence (Part000.aiAnalysis r0) /\
  Part000.aiAnalysis r0 =
    Part000.analyzeWithGemini tz repoData
      (Part000.analyzeCommitPatterns tz commits) reply /\
  Part001.result_confidence r1 =
    tier ((Part001.verificationPercentage p1 >? 80) ||
          (Part001.rapidCommits p1 >? 20))
         ((Part001.verificationPercentage p1 >? 60) ||
          (Part001.rapidCommits p1 >? 10)).
Proof. cbv zeta. repeat split. Qed.

(** C4 as stated fails in the version without the badge check: without
    commits and with a reply of confidence [high] the reported confidence
    is [low]. *)
Lemma confidence_rule_counterexample :
  let r := Part001.result 0 (lit "https://github.com/octo/demo")
             (sampleRepo "2025-06-01T09:30:00Z") []
             (Some (sampleReply "90" "high")) in
  confidence (Part001.aiAnalysis r) = lit "high" /\
  Part001.result_confidence r = lit "low" /\
  Part001.result_confidence r <> confidence (Part001.aiAnalysis r).
Proof. vm_compute. repeat split. discriminate. Qed.

(** ** Further properties of the two versions *)

(** X1. Without commits every counter of the signal bundle is zero and no
    finding is reported. *)
Theorem analyzeCommitPatterns_empty (tz : Z) :
  Part000.analyzeCommitPatterns tz [] =
    {| Part000.rapidCommits := 0;
       Part000.filePatterns := [];
       Part000.timePatterns := [];
       Part000.verifiedCommits := 0;
       Part000.totalCommits := 0;
       Part000.githubVerifiedPercentage := 0 |} /\
  Part001.analyzeCommitPatterns tz [] =
    {| Part001.rapidCommits := 0;
       Part001.filePatterns := [];
       Part001.timePatterns := [];
       Part001.verifiedCommits := 0;
       Part001.totalCommits := 0;
       Part001.verificationPercentage := 0 |}.
Proof. split; reflexivity. Qed.

(** X2. The details list ends with the eligibility reason; it starts with
    the line on the total number of commits when the repository is
    eligible, and with the ineligibility mark, put before that line,
    when it is not. *)
Theorem details_order (tz : Z) (repoUrl : jsstring)
  (repoData : GitHubRepo) (commits : list GitHubCommit) (badge : bool)
  (reply : option jsstring) :
  let r0 := Part000.result tz repoUrl repoData commits badge reply in
  let r1 := Part001.result tz repoUrl repoData commits reply in
  let first0 :=
    lit "Repository analyzed: " ++
    ofInt (Part000.totalCommits (Part000.commitPatterns r0)) ++
    lit " total commits" in
  let first1 :=
    lit "Repository analyzed: " ++
    ofInt (Part001.totalCommits (Part001.commitPatterns r1)) ++
    lit " total commits" in
  (if Part000.result_isEligible r0
   then List.length (Part000.details r0) = 7%nat /\
        nth_error (Part000.details r0) 0 = Some first0
   else List.length (Part000.details r0) = 8%nat /\
        nth_error (Part000.details r0) 0 = Some notEligibleMark /\
        nth_error (Part000.details r0) 1 = Some first0) /\
  last (Part000.details r0) [] = Part000.eligibilityReason r0 /\
  (if Part001.result_isEligible r1
   then List.length (Part001.details r1) = 5%nat /\
        nth_error (Part001.details r1) 0 = Some first1
   else List.length (Part001.details r1) = 6%nat /\
        nth_error (Part001.details r1) 0 = Some notEligibleMark /\
        nth_error (Part001.details r1) 1 = Some first1) /\
  last (Part001.details r1) [] = Part001.eligibilityReason r1.
Proof.
  cbv zeta. unfold Part000.result, Part001.result.
  cbn [Part000.result_isEligible Part000.details Part000.eligibilityReason
       Part000.commitPatterns Part001.result_isEligible Part001.details
       Part001.eligibilityReason Part001.commitPatterns].
  destruct (isEligible (Part000.checkHackathonEligibility tz repoData));
    destruct (isEligible (Part001.checkHackathonEligibility tz repoData));
    repeat split.
Qed.

Lemma Math_min_mono (a a' c : Q) :
  (a <= a')%Q -> (Number.Math_min a c <= Number.Math_min a' c)%Q.
Proof.
  intro H. unfold Number.Math_min.
  destruct (Qle_bool a c) eqn:E; destruct (Qle_bool a' c) eqn:E'.
  - exact H.
  - apply Qle_bool_iff in E. exact E.
  - apply Qle_bool_iff in E'.
    assert (~ (a <= c)%Q) by (rewrite <- Qle_bool_iff; congruence). lra.
  - apply Qle_refl.
Qed.

Lemma inject_Z_le (a b : Z) : a <= b -> (inject_Z a <= inject_Z b)%Q.
Proof. intro H. rewrite <- Zle_Qle. exact H. Qed.

(** X3. The likelihood of the fallback does not decrease when the
    verification percentage, the number of rapid commits and the total
    number of commits do not decrease, and it never exceeds 100. *)
Theorem fallback_likelihood_monotone (tz : Z) (repoData : GitHubRepo)
  (p p' : Part000.CommitPatterns) (q q' : Part001.CommitPatterns) :
  (0 <= Part000.githubVerifiedPercentage p <= Part000.githubVerifiedPercentage p' ->
   0 <= Part000.rapidCommits p <= Part000.rapidCommits p' ->
   Part000.totalCommits p <= Part000.totalCommits p' ->
   (likelihood (Part000.fallback tz repoData p) <=
    likelihood (Part000.fallback tz repoData p') <= 100)%Q) /\
  (0 <= Part001.verificationPercentage q <= Part001.verificationPercentage q' ->
   Part001.rapidCommits q <= Part001.rapidCommits q' ->
   (likelihood (Part001.fallback tz repoData q) <=
    likelihood (Part001.fallback tz repoData q') <= 100)%Q).
Proof.
  split.
  - intros [Hp0 Hp] [Hr0 Hr] Ht.
    unfold Part000.fallback. cbn [likelihood].
    split; [|apply NumberFacts.Math_min_le_r].
    apply Math_min_mono. unfold Number.add, Number.mul.
    pose proof c0_3_pos as Hc.
    pose proof (inject_Z_nonneg Hp0) as Hp0'.
    pose proof (inject_Z_nonneg Hr0) as Hr0'.
    pose proof (inject_Z_le Hp) as Hp'.
    pose proof (inject_Z_le Hr) as Hr'.
    set (a := inject_Z (Part000.githubVerifiedPercentage p)) in *.
    set (a' := inject_Z (Part000.githubVerifiedPercentage p')) in *.
    set (b := inject_Z (Part000.rapidCommits p)) in *.
    set (b' := inject_Z (Part000.rapidCommits p')) in *.
    assert (Ha0 : (0 <= a * c0_3)%Q)
      by (apply Qmult_le_0_compat; [exact Hp0' | apply Qlt_le_weak, Hc]).
    assert (Ha : (a * c0_3 <= a' * c0_3)%Q)
      by (apply Qmult_le_compat_r; [exact Hp' | apply Qlt_le_weak, Hc]).
    change (inject_Z 2) with 2%Q.
    assert (H1 : (Number.round64 (a * c0_3) <= Number.round64 (a' * c0_3))%Q)
      by (apply NumberFacts.round64_mono; assumption).
    assert (H2 : (Number.round64 (b * 2) <= Number.round64 (b' * 2))%Q)
      by (apply NumberFacts.round64_mono; lra).
    assert (H10 : (0 <= Number.round64 (a * c0_3))%Q)
      by (apply NumberFacts.round64_nonneg; exact Ha0).
    assert (H20 : (0 <= Number.round64 (b * 2))%Q)
      by (apply NumberFacts.round64_nonneg; lra).
    assert (H3 : (Number.round64 (Number.round64 (a * c0_3) + Number.round64 (b * 2))
                  <= Number.round64 (Number.round64 (a' * c0_3) + Number.round64 (b' * 2)))%Q)
      by (apply NumberFacts.round64_mono; lra).
    assert (H30 : (0 <= Number.round64 (Number.round64 (a * c0_3) + Number.round64 (b * 2)))%Q)
      by (apply NumberFacts.round64_nonneg; lra).
    assert (H4 : (0 <= inject_Z (if Part000.totalCommits p >? 50 then 10 else 0)
                  <= inject_Z (if Part000.totalCommits p' >? 50 then 10 else 0))%Q).
    { destruct (Z.gtb_spec (Part000.totalCommits p) 50);
        destruct (Z.gtb_spec (Part000.totalCommits p') 50);
        try lia; split; discriminate. }
    apply NumberFacts.round64_mono; lra.
  - intros [Hp0 Hp] Hr.
    unfold Part001.fallback. cbn [likelihood].
    split; [|apply NumberFacts.Math_min_le_r].
    apply Math_min_mono. unfold Number.add.
    pose proof (inject_Z_nonneg Hp0) as Hp0'.
    pose proof (inject_Z_le Hp) as Hp'.
    assert (H4 : (0 <= inject_Z (if Part001.rapidCommits q >? 10 then 15 else 0)
                  <= inject_Z (if Part001.rapidCommits q' >? 10 then 15 else 0))%Q).
    { destruct (Z.gtb_spec (Part001.rapidCommits q) 10);
        destruct (Z.gtb_spec (Part001.rapidCommits q') 10);
        try lia; split; discriminate. }
    apply NumberFacts.round64_mono; lra.
Qed.



(** A run of the handler: twenty verified commits within one minute in a
    repository created before the cutoff give 19 rapid commits, 100 percent
    verified, not eligible, and details that start with the ineligibility
    mark. *)
Example burst_scenario :
  let r := Part000.result 0 (lit "https://github.com/octo/demo")
             (sampleRepo "2025-05-01T09:00:00Z") burstCommits false None in
  Part000.rapidCommits (Part000.commitPatterns r) = 19 /\
  Part000.githubVerifiedPercentage (Part000.commitPatterns r) = 100 /\
  Part000.result_isEligible r = false /\
  nth_error (Part000.details r) 0 = Some notEligibleMark.
Proof. vm_compute. repeat split. Qed.

(** A run of the handler without commits, in a repository created after
    the cutoff and with a failed call: eligible, every counter zero, the
    fallback opinion with likelihood 0, and [isLikelyAIGenerated] false. *)
Example empty_scenario :
  let r := Part000.result 0 (lit "https://github.com/octo/demo")
             (sampleRepo "2025-06-01T09:30:00Z") [] false None in
  Part000.result_isEligible r = true /\
  Part000.commitPatterns r = Part000.analyzeCommitPatterns 0 [] /\
  (likelihood (Part000.aiAnalysis r) == 0)%Q /\
  Part000.isLikelyAIGenerated r = false.
Proof. vm_compute. repeat split. Qed.

(** The verification percentage is [Math.round] of the binary64 value of
    [(verified / total) * 100], which can lie just below a tie that the
    exact ratio hits: 23 verified commits of 40 give 57, while 57.5
    rounded half up is 58. *)
Example percentage_rounds_the_double :
  percentage 23 40 = 57 /\
  Number.Math_round (inject_Z 23 / inject_Z 40 * inject_Z 100) = 58 /\
  (Number.mul (Number.div (inject_Z 23) (inject_Z 40)) (inject_Z 100)
   < (115 # 2))%Q.
Proof. vm_compute. repeat split. Qed.

(** ** The error of rounding *)

Module RoundingError.

Import Number NumberFacts.
Local Open Scope Q_scope.

Lemma roundEven_error (x : Q) :
  x - (1 # 2) <= inject_Z (roundEven x) <= x + (1 # 2).
Proof.
  pose proof (Qfloor_le x) as Hl. pose proof (Qlt_floor x) as Hu.
  rewrite inject_Z_plus in Hu. change (inject_Z 1) with 1 in Hu.
  unfold roundEven.
  destruct (Qcompare_spec (x - inject_Z (Qfloor x)) (1 # 2));
    try destruct (Z.even (Qfloor x));
    rewrite ?inject_Z_plus; change (inject_Z 1) with 1; lra.
Qed.

(** An argument within one half below an integer rounds to it. *)
Lemma roundEven_near (x : Q) (m : Z) :
  inject_Z m - (1 # 2) < x -> x <= inject_Z m -> roundEven x = m.
Proof.
  intros Hl Hu.
  destruct (Qeq_dec x (inject_Z m)) as [E | NE].
  - apply roundEven_int. exact E.
  - assert (Hlt : x < inject_Z m) by (apply Qle_lteq in Hu; tauto).
    assert (Hf : Qfloor x = (m - 1)%Z).
    { pose proof (Qfloor_le x) as H1. pose proof (Qlt_floor x) as H2.
      assert (A : (Qfloor x < m)%Z) by (rewrite Zlt_Qlt; lra).
      assert (B : (m - 1 < Qfloor x + 1)%Z).
      { rewrite Zlt_Qlt. unfold Z.sub. rewrite inject_Z_plus.
        change (inject_Z (- (1))) with (- (1)). lra. }
      lia. }
    unfold roundEven. rewrite Hf.
    assert (Hm : inject_Z (m - 1) == inject_Z m - 1).
    { unfold Z.sub. rewrite inject_Z_plus. reflexivity. }
    destruct (Qcompare_spec (x - inject_Z (m - 1)) (1 # 2)) as [H | H | H];
      try (rewrite Hm in H; lra).
    lia.
Qed.

(** The rounded value lies within half a unit in the last place, and so
    within the relative error [2 ^ -53]. *)
Lemma round64pos_error (q : Q) :
  0 < q ->
  q - 2 ^ (ilog2 q - 53) <= round64pos q <= q + 2 ^ (ilog2 q - 53).
Proof.
  intro Hq. unfold round64pos. cbv zeta.
  pose proof (pow2_pos (ilog2 q - 52)) as Hu.
  set (u := 2 ^ (ilog2 q - 52)) in *.
  assert (Hh : 2 ^ (ilog2 q - 53) == u * (1 # 2)).
  { subst u. rewrite (pow2_split (ilog2 q - 52) (ilog2 q - 53)).
    replace (ilog2 q - 52 - (ilog2 q - 53))%Z with 1%Z by lia.
    change (2 ^ 1) with 2. field. }
  rewrite Hh.
  pose proof (roundEven_error (q / u)) as [Hl Hr].
  set (r := inject_Z (roundEven (q / u))) in *.
  assert (E1 : (q / u - (1 # 2)) * u == q - u * (1 # 2)) by (field; lra).
  assert (E2 : (q / u + (1 # 2)) * u == q + u * (1 # 2)) by (field; lra).
  split.
  - rewrite <- E1. apply Qmult_le_compat_r; [exact Hl | lra].
  - rewrite <- E2. apply Qmult_le_compat_r; [exact Hr | lra].
Qed.

Lemma round64_relative (q : Q) :
  0 <= q -> q * (1 - eps) <= round64 q <= q * (1 + eps).
Proof.
  intro Hq. unfold round64. rewrite Qred_correct.
  destruct (Qnum q) eqn:E.
  - assert (q == 0) by (unfold Qeq; simpl; rewrite E; reflexivity).
    split; rewrite H; discriminate.
  - assert (Hpos : 0 < q) by (apply Qpos_num; rewrite E; reflexivity).
    destruct (round64pos_error Hpos) as [Hl Hr].
    destruct (ilog2_spec Hpos) as [He _].
    assert (Hh : 2 ^ (ilog2 q - 53) == 2 ^ ilog2 q * eps).
    { change eps with (2 ^ (-53)).
      rewrite <- Qpower_plus by apply two_neq_0.
      replace (ilog2 q + -53)%Z with (ilog2 q - 53)%Z by lia. reflexivity. }
    assert (Heps : 0 < eps) by reflexivity.
    assert (Hb : 2 ^ (ilog2 q - 53) <= q * eps).
    { rewrite Hh. apply Qmult_le_compat_r; [exact He | lra]. }
    split; lra.
  - exfalso. unfold Qle in Hq; simpl in Hq. rewrite E in Hq. lia.
Qed.

End RoundingError.

(** ** The verification percentage and the exact ratio *)

Lemma inject_Z_div_mult (v t : Z) :
  0 < t -> (inject_Z v / inject_Z t * inject_Z t == inject_Z v)%Q.
Proof.
  intro H. field. intro E.
  unfold Qeq in E. simpl in E. lia.
Qed.

Lemma percentage_nearest (v t : Z) :
  0 <= v <= t -> 0 < t < 2 ^ 44 ->
  2 * Z.abs (percentage v t * t - 100 * v) <= t.
Proof.
  intros [Hv Hvt] [Ht Hb]. unfold percentage.
  replace (t >? 0) with true by (symmetry; apply Z.gtb_lt; lia).
  assert (HT : (0 < inject_Z t)%Q) by (unfold Qlt; simpl; lia).
  assert (HTb : (inject_Z t < inject_Z (2 ^ 44))%Q) by (rewrite <- Zlt_Qlt; exact Hb).
  change (inject_Z (2 ^ 44)) with (17592186044416 # 1)%Q in HTb.
  pose proof (inject_Z_div_mult v Ht) as Hat.
  set (T := inject_Z t) in *. set (V := inject_Z v) in *.
  assert (HV : (0 <= V)%Q) by (apply inject_Z_nonneg; exact Hv).
  assert (HVT : (V <= T)%Q) by (subst V T; rewrite <- Zle_Qle; exact Hvt).
  set (a := (V / T)%Q) in *.
  assert (Ha0 : (0 <= a)%Q).
  { subst a. apply Qle_shift_div_l; [exact HT | lra]. }
  assert (Ha1 : (a <= 1)%Q).
  { subst a. apply Qle_shift_div_r; [exact HT | lra]. }
  unfold Number.div, Number.mul. fold a.
  change (inject_Z 100) with 100%Q.
  destruct (RoundingError.round64_relative Ha0) as [Hal Hau].
  set (a' := Number.round64 a) in *.
  assert (Ha'0 : (0 <= a')%Q) by (apply NumberFacts.round64_nonneg; exact Ha0).
  assert (Ha'1 : (a' <= 1)%Q).
  { apply NumberFacts.round64_le; [exact Ha0 | exact Ha1 | reflexivity]. }
  assert (Hp0 : (0 <= a' * 100)%Q) by lra.
  destruct (RoundingError.round64_relative Hp0) as [Hyl Hyu].
  set (y := Number.round64 (a' * 100)) in *.
  unfold eps in *.
  unfold Number.Math_round.
  pose proof (Qfloor_le (y + (1 # 2))) as Hfl.
  pose proof (Qlt_floor (y + (1 # 2))) as Hfu.
  set (N := Qfloor (y + (1 # 2))) in *.
  rewrite inject_Z_plus in Hfu. change (inject_Z 1) with 1%Q in Hfu.
  assert (HN1 : (inject_Z N * T <= (100 * a + (1 # 2) + 200 * (1 # 9007199254740992)) * T)%Q).
  { apply Qmult_le_compat_r; lra. }
  assert (HN2 : ((100 * a - (1 # 2) - 200 * (1 # 9007199254740992)) * T <= inject_Z N * T)%Q).
  { apply Qmult_le_compat_r; lra. }
  assert (E1 : ((100 * a + (1 # 2) + 200 * (1 # 9007199254740992)) * T
               == 100 * (a * T) + ((1 # 2) + 200 * (1 # 9007199254740992)) * T)%Q) by ring.
  assert (E2 : ((100 * a - (1 # 2) - 200 * (1 # 9007199254740992)) * T
               == 100 * (a * T) - ((1 # 2) + 200 * (1 # 9007199254740992)) * T)%Q) by ring.
  rewrite E1 in HN1. rewrite E2 in HN2. rewrite Hat in HN1, HN2.
  assert (U : (inject_Z (2 * (N * t - 100 * v)) < inject_Z (t + 1))%Q).
  { unfold Z.sub. rewrite !inject_Z_mult, !inject_Z_plus, inject_Z_opp, !inject_Z_mult.
    fold T V. change (inject_Z 2) with 2%Q. change (inject_Z 100) with 100%Q.
    change (inject_Z 1) with 1%Q. lra. }
  assert (L : (inject_Z (- (t + 1)) < inject_Z (2 * (N * t - 100 * v)))%Q).
  { unfold Z.sub. rewrite !inject_Z_mult, !inject_Z_plus, !inject_Z_opp,
      !inject_Z_plus, !inject_Z_mult.
    fold T V. change (inject_Z 2) with 2%Q. change (inject_Z 100) with 100%Q.
    change (inject_Z 1) with 1%Q. lra. }
  rewrite <- Zlt_Qlt in U, L. lia.
Qed.

(** ** The threshold of the late-night finding *)

Module Threshold.

Import Number NumberFacts RoundingError.
Local Open Scope Q_scope.

(** Numbers [k * 2 ^ j] with [k] below [2 ^ 53] are exact. *)
Lemma round64_dyadic (k j : Z) :
  (0 <= k < 2 ^ 53)%Z ->
  round64 (inject_Z k * 2 ^ j) == inject_Z k * 2 ^ j.
Proof.
  intros [H0 H1].
  pose proof (pow2_pos j) as Hj.
  assert (Hk : 0 <= inject_Z k) by (unfold Qle; simpl; lia).
  assert (Hkb : inject_Z k < 2 ^ 53).
  { change (2 ^ 53) with (inject_Z (2 ^ 53)). rewrite <- Zlt_Qlt. exact H1. }
  remember (inject_Z k * 2 ^ j) as q eqn:Eq.
  assert (Hq0 : 0 <= q) by (subst q; apply Qmult_le_0_compat; lra).
  unfold round64. rewrite Qred_correct.
  destruct (Qnum q) eqn:E.
  - unfold Qeq. simpl. rewrite E. reflexivity.
  - assert (Hq : 0 < q) by (apply Qpos_num; rewrite E; reflexivity).
    destruct (ilog2_spec Hq) as [Hl Hu].
    set (e := ilog2 q) in *.
    assert (He : (e <= 52 + j)%Z).
    { destruct (Z_le_gt_dec e (52 + j)) as [L | G]; [exact L | exfalso].
      assert (H : 2 ^ (53 + j) <= 2 ^ e) by (apply pow2_le; lia).
      assert (H' : q < 2 ^ (53 + j)).
      { rewrite Eq, Qpower_plus by apply two_neq_0.
        apply Qmult_lt_r; assumption. }
      lra. }
    unfold round64pos. cbv zeta. fold e.
    pose proof (pow2_pos (e - 52)) as Hu0.
    assert (Hz : inject_Z (2 ^ (52 + j - e)) == 2 ^ (52 + j - e)).
    { rewrite Zpower_Qpower by lia. reflexivity. }
    assert (Hinv : 2 ^ (52 + j - e) * 2 ^ (e - 52) == 2 ^ j).
    { rewrite <- Qpower_plus by apply two_neq_0.
      replace (52 + j - e + (e - 52))%Z with j by lia. reflexivity. }
    assert (Hs : q / 2 ^ (e - 52) == inject_Z (k * 2 ^ (52 + j - e))).
    { rewrite inject_Z_mult, Hz.
      apply Qmult_inj_r with (2 ^ (e - 52)); [lra|].
      rewrite <- Qmult_assoc, Hinv, Eq. field. lra. }
    rewrite (roundEven_int Hs).
    rewrite inject_Z_mult, Hz, <- Qmult_assoc, Hinv, Eq. reflexivity.
  - exfalso. unfold Qle in Hq0; simpl in Hq0. rewrite E in Hq0. lia.
Qed.

Lemma c0_3_value : c0_3 = (5404319552844595 # 18014398509481984).
Proof. vm_compute. reflexivity. Qed.

(** A value just below an integer, by at most the relative distance of
    [0.3] to three tenths, rounds to the integer. *)
Lemma round64_just_below (m : Z) (q : Q) :
  (0 < m < 2 ^ 53)%Z ->
  inject_Z m * (1 - (1 # 27021597764222976)) <= q -> q <= inject_Z m ->
  round64 q == inject_Z m.
Proof.
  intros [H0 H1] Hl Hu.
  assert (Hm : 1 <= inject_Z m).
  { change 1 with (inject_Z 1). rewrite <- Zle_Qle. lia. }
  assert (Hmb : inject_Z m < 2 ^ 53).
  { change (2 ^ 53) with (inject_Z (2 ^ 53)). rewrite <- Zlt_Qlt. exact H1. }
  assert (Hq : 0 < q) by lra.
  pose proof (proj1 (Qpos_num q) Hq) as Hn.
  unfold round64. rewrite Qred_correct.
  destruct (Qnum q) eqn:E; try lia.
  destruct (ilog2_spec Hq) as [Hel Heu].
  destruct (scaled_bounds Hq) as [_ Hsb].
  change (inject_Z (2 ^ 53)) with (9007199254740992 # 1) in Hsb.
  set (e := ilog2 q) in *.
  assert (He : (e <= 52)%Z).
  { destruct (Z_le_gt_dec e 52) as [L | G]; [exact L | exfalso].
    assert (H : 2 ^ 53 <= 2 ^ e) by (apply pow2_le; lia). lra. }
  unfold round64pos. cbv zeta. fold e.
  pose proof (pow2_pos (e - 52)) as Hu0.
  set (u := 2 ^ (e - 52)) in *.
  assert (Hz : inject_Z (2 ^ (52 - e)) == 2 ^ (52 - e)).
  { rewrite Zpower_Qpower by lia. reflexivity. }
  assert (Hinv : 2 ^ (52 - e) * u == 1).
  { subst u. rewrite <- Qpower_plus by apply two_neq_0.
    replace (52 - e + (e - 52))%Z with 0%Z by lia. reflexivity. }
  set (M := (m * 2 ^ (52 - e))%Z).
  assert (HM : inject_Z M == inject_Z m / u).
  { subst M. rewrite inject_Z_mult, Hz.
    apply Qmult_inj_r with u; [lra|].
    rewrite <- Qmult_assoc, Hinv. field. lra. }
  assert (Hiu : 0 < / u) by (apply Qinv_lt_0_compat; exact Hu0).
  assert (Hup : q / u <= inject_Z M).
  { rewrite HM. apply Qmult_le_compat_r; [exact Hu | lra]. }
  assert (Hlo : inject_Z M * (1 - (1 # 27021597764222976)) <= q / u).
  { rewrite HM.
    assert (E' : inject_Z m / u * (1 - (1 # 27021597764222976))
                 == inject_Z m * (1 - (1 # 27021597764222976)) / u)
      by (field; lra).
    rewrite E'. apply Qmult_le_compat_r; [exact Hl | lra]. }
  assert (Hr : roundEven (q / u) = M).
  { apply roundEven_near; [lra | exact Hup]. }
  rewrite Hr, HM. field. lra.
Qed.

(** The comparison [night > total * 0.3] decides [10 * night > 3 * total]
    exactly. *)
Lemma night_threshold (night total : Z) :
  (0 <= night <= total)%Z -> (total < 2 ^ 48)%Z ->
  gtb (inject_Z night) (mul (inject_Z total) c0_3) = true <->
  (3 * total < 10 * night)%Z.
Proof.
  intros [Hn Hnt] Hb. rewrite gtb_spec. unfold mul. rewrite c0_3_value.
  assert (HN : 0 <= inject_Z night) by (unfold Qle; simpl; lia).
  assert (HT : 0 <= inject_Z total) by (unfold Qle; simpl; lia).
  assert (HNT : inject_Z night <= inject_Z total) by (rewrite <- Zle_Qle; exact Hnt).
  assert (HTb : inject_Z total < inject_Z (2 ^ 48)) by (rewrite <- Zlt_Qlt; exact Hb).
  change (inject_Z (2 ^ 48)) with (281474976710656 # 1) in HTb.
  set (N := inject_Z night) in *. set (T := inject_Z total) in *.
  set (q := T * (5404319552844595 # 18014398509481984)).
  assert (Hq0 : 0 <= q) by (subst q; lra).
  assert (HrN : round64 N == N) by (apply round64_int; lia).
  split.
  - intro Hlt.
    destruct (Z_lt_ge_dec (3 * total) (10 * night)) as [L | G]; [exact L|].
    exfalso.
    destruct (Z.eq_dec (10 * night) (3 * total)) as [Eq | Ne].
    + destruct (Z.eq_dec night 0) as [-> | Hnz].
      * pose proof (round64_nonneg Hq0). subst N.
        change (inject_Z 0) with 0 in Hlt. lra.
      * assert (Ez : 10 * N == 3 * T).
        { subst N T. change 10 with (inject_Z 10). change 3 with (inject_Z 3).
          rewrite <- !inject_Z_mult. rewrite Eq. reflexivity. }
        assert (Hr : round64 q == N).
        { apply round64_just_below; [lia | subst q N T; lra | subst q N T; lra]. }
        lra.
    + assert (Ez : 10 * N + 1 <= 3 * T).
      { subst N T. change 10 with (inject_Z 10). change 3 with (inject_Z 3).
        change 1 with (inject_Z 1).
        rewrite <- !inject_Z_mult, <- inject_Z_plus, <- Zle_Qle. lia. }
      assert (Hm : round64 N <= round64 q).
      { apply round64_mono; [exact HN | subst q; lra]. }
      lra.
  - intro L.
    assert (Ez : 3 * T + 1 <= 10 * N).
    { subst N T. change 10 with (inject_Z 10). change 3 with (inject_Z 3).
      change 1 with (inject_Z 1).
      rewrite <- !inject_Z_mult, <- inject_Z_plus, <- Zle_Qle. lia. }
    assert (Hr : round64 (inject_Z (16 * night - 1) * 2 ^ (-4))
                 == inject_Z (16 * night - 1) * 2 ^ (-4)).
    { apply round64_dyadic. lia. }
    assert (Er : inject_Z (16 * night - 1) * 2 ^ (-4) == N - (1 # 16)).
    { unfold Z.sub. rewrite inject_Z_plus, inject_Z_mult. fold N.
      change (inject_Z 16) with 16. change (inject_Z (- (1))) with (- (1)).
      change (2 ^ (-4)) with (1 # 16). field. }
    assert (Hle : round64 q <= inject_Z (16 * night - 1) * 2 ^ (-4)).
    { apply round64_le; [exact Hq0 | rewrite Er; subst q; lra | exact Hr]. }
    rewrite Er in Hle. lra.
Qed.

End Threshold.

(** ** The commit pattern analyzer on every commit list *)

Lemma filter_length_le {A : Type} (p : A -> bool) (l : list A) :
  (List.length (filter p l) <= List.length l)%nat.
Proof.
  induction l as [| a l IH]; simpl; [lia|].
  destruct (p a); simpl; lia.
Qed.

(** X5. The verification percentage of a non-empty commit list is an
    integer nearest to the exact ratio [100 * verified / total]: it differs
    from it by at most one half, although the quotient and the product are
    each rounded to binary64 (an array has fewer than [2 ^ 32] elements). *)
Theorem verification_percentage_nearest (tz : Z) (commits : list GitHubCommit) :
  commits <> [] -> Z.of_nat (List.length commits) < 2 ^ 32 ->
  let p0 := Part000.analyzeCommitPatterns tz commits in
  let p1 := Part001.analyzeCommitPatterns tz commits in
  2 * Z.abs (Part000.githubVerifiedPercentage p0 * Part000.totalCommits p0
             - 100 * Part000.verifiedCommits p0) <= Part000.totalCommits p0 /\
  2 * Z.abs (Part001.verificationPercentage p1 * Part001.totalCommits p1
             - 100 * Part001.verifiedCommits p1) <= Part001.totalCommits p1.
Proof.
  intros Hne Hlen. cbv zeta.
  unfold Part000.analyzeCommitPatterns, Part001.analyzeCommitPatterns.
  cbn [Part000.githubVerifiedPercentage Part000.totalCommits
       Part000.verifiedCommits Part001.verificationPercentage
       Part001.totalCommits Part001.verifiedCommits].
  pose proof (countWhere_bounds commit_verification_verified commits) as Hv.
  assert (Hpos : 0 < Z.of_nat (List.length commits)).
  { destruct commits; [congruence | simpl; lia]. }
  assert (H : 2 * Z.abs (percentage (countWhere commit_verification_verified commits)
                                    (Z.of_nat (List.length commits))
                         * Z.of_nat (List.length commits)
                         - 100 * countWhere commit_verification_verified commits)
              <= Z.of_nat (List.length commits)).
  { apply percentage_nearest; [exact Hv | lia]. }
  split; exact H.
Qed.

Lemma verification_percentage_nearest_witness :
  2 * Z.abs (Part000.githubVerifiedPercentage
               (Part000.analyzeCommitPatterns 0 threeCommits) * 3 - 100 * 2) <= 3.
Proof.
  apply (@verification_percentage_nearest 0 threeCommits).
  - discriminate.
  - reflexivity.
Defined.

(** X6. The finding on late-night development is reported exactly
    when more than three tenths of the commits were made at night, that is
    when [10 * night > 3 * total]: the binary64 product [total * 0.3]
    never moves the comparison, not even where three tenths of the total
    is an integer. *)
Theorem late_night_finding_exact (tz : Z) (commits : list GitHubCommit) :
  Z.of_nat (List.length commits) < 2 ^ 32 ->
  let night := countWhere (isNight tz) commits in
  let total := Z.of_nat (List.length commits) in
  (In (lit "Unusual late-night development patterns")
      (Part000.timePatterns (Part000.analyzeCommitPatterns tz commits))
   <-> 3 * total < 10 * night) /\
  (In (lit "Unusual late-night development patterns")
      (Part001.timePatterns (Part001.analyzeCommitPatterns tz commits))
   <-> 3 * total < 10 * night).
Proof.
  intro Hlen. cbv zeta.
  pose proof (countWhere_bounds (isNight tz) commits) as Hn.
  assert (Hb : Z.of_nat (List.length commits) < 2 ^ 48) by lia.
  pose proof (Threshold.night_threshold Hn Hb) as Ht.
  unfold Part000.analyzeCommitPatterns, Part001.analyzeCommitPatterns.
  cbn [Part000.timePatterns Part001.timePatterns].
  destruct (Number.gtb (inject_Z (countWhere (isNight tz) commits))
              (Number.mul (inject_Z (Z.of_nat (List.length commits))) c0_3)) eqn:E;
    destruct (countRapid (sortTimes (commitTimes tz commits)) >? 10);
    split; split; intro H;
    try (apply Ht; reflexivity);
    try (simpl; tauto);
    try (apply Ht in H; discriminate);
    simpl in H; repeat destruct H as [H | H]; try discriminate H; try contradiction.
Qed.

Lemma late_night_finding_exact_witness :
  In (lit "Unusual late-night development patterns")
     (Part000.timePatterns (Part000.analyzeCommitPatterns 0 threeCommits))
  <-> 3 * 3 < 10 * 0.
Proof.
  apply (@late_night_finding_exact 0 threeCommits). reflexivity.
Defined.

(** *** Rapid commits in chronological order *)

Lemma insertTime_last (x : Z) (acc : list Z) :
  Forall (fun y => y <= x) acc ->
  insertTime (Some x) (map Some acc) = map Some (acc ++ [x]).
Proof.
  induction 1 as [| y acc Hy _ IH]; simpl; [reflexivity|].
  destruct (Z.ltb_spec (x - y) 0); [lia|]. now rewrite IH.
Qed.

Lemma StronglySorted_before (acc l : list Z) (x : Z) :
  StronglySorted Z.le (acc ++ x :: l) -> Forall (fun y => y <= x) acc.
Proof.
  induction acc as [| a acc IH]; simpl; intro H; [constructor|].
  apply StronglySorted_inv in H. destruct H as [Hs Hf].
  constructor; [|apply IH; exact Hs].
  rewrite Forall_forall in Hf. apply Hf. apply in_elt.
Qed.

Lemma sortInto_sorted (l acc : list Z) :
  StronglySorted Z.le (acc ++ l) ->
  fold_left (fun sorted x => insertTime x sorted) (map Some l) (map Some acc)
  = map Some (acc ++ l).
Proof.
  revert acc. induction l as [| x l IH]; intros acc H; simpl.
  - now rewrite app_nil_r.
  - rewrite insertTime_last by (eapply StronglySorted_before; exact H).
    rewrite IH; rewrite <- app_assoc; [reflexivity | exact H].
Qed.

Lemma sortTimes_sorted (ts : list Z) :
  Sorted Z.le ts -> sortTimes (map Some ts) = map Some ts.
Proof.
  intro H. unfold sortTimes.
  apply (sortInto_sorted ts []). simpl.
  apply Sorted_StronglySorted; [|exact H].
  intros a b c. apply Z.le_trans.
Qed.

Lemma validTime_Some (ts : list Z) : Forall validTime (map Some ts).
Proof.
  induction ts; simpl; constructor; [discriminate | assumption].
Qed.

(** X7. [rapidCommits] counts the gaps of less than five minutes
    between commits that follow each other in time: whatever the order in
    which the commits are listed, it is the count on the ascending list of
    their author instants. *)
Theorem rapidCommits_chronological (tz : Z) (commits : list GitHubCommit)
  (ts : list Z) :
  Permutation (commitTimes tz commits) (map Some ts) -> Sorted Z.le ts ->
  Part000.rapidCommits (Part000.analyzeCommitPatterns tz commits)
  = countRapid (map Some ts) /\
  Part001.rapidCommits (Part001.analyzeCommitPatterns tz commits)
  = countRapid (map Some ts).
Proof.
  intros Hp Hs.
  assert (Hv : Forall validTime (commitTimes tz commits)).
  { eapply Permutation_Forall; [apply Permutation_sym; exact Hp|].
    apply validTime_Some. }
  assert (E : sortTimes (commitTimes tz commits) = map Some ts).
  { rewrite (sortTimes_Permutation Hp Hv). apply sortTimes_sorted. exact Hs. }
  unfold Part000.analyzeCommitPatterns, Part001.analyzeCommitPatterns.
  cbn [Part000.rapidCommits Part001.rapidCommits].
  rewrite E. split; reflexivity.
Qed.

Lemma rapidCommits_chronological_witness :
  Part000.rapidCommits (Part000.analyzeCommitPatterns 0 threeCommits)
  = countRapid (map Some [1748772000000; 1748772060000; 1748858400000]).
Proof.
  apply (@rapidCommits_chronological 0 threeCommits
           [1748772000000; 1748772060000; 1748858400000]).
  - vm_compute. apply perm_skip. apply perm_swap.
  - repeat constructor; vm_compute; discriminate.
Defined.

Lemma countRapid_all (times : list (option Z)) :
  (forall a b, In a times -> In b times -> isRapid a b = true) ->
  countRapid times = Z.max (Z.of_nat (List.length times) - 1) 0.
Proof.
  induction times as [| prev rest IH]; intro H; [reflexivity|].
  destruct rest as [| cur rest']; [reflexivity|].
  change (countRapid (prev :: cur :: rest'))
    with ((if isRapid prev cur then 1 else 0) + countRapid (cur :: rest')).
  rewrite H by (simpl; auto).
  rewrite IH by (intros a b Ha Hb; apply H; right; assumption).
  simpl List.length. lia.
Qed.

(** X8. When all the commits were made within less than five minutes
    of each other, every commit after the first is a rapid commit. *)
Theorem rapidCommits_burst (tz : Z) (commits : list GitHubCommit) (ts : list Z) :
  commitTimes tz commits = map Some ts ->
  (forall x y, In x ts -> In y ts -> x - y < rapidThreshold) ->
  Part000.rapidCommits (Part000.analyzeCommitPatterns tz commits)
  = Z.max (Z.of_nat (List.length commits) - 1) 0 /\
  Part001.rapidCommits (Part001.analyzeCommitPatterns tz commits)
  = Z.max (Z.of_nat (List.length commits) - 1) 0.
Proof.
  intros E H.
  assert (R : countRapid (sortTimes (commitTimes tz commits))
              = Z.max (Z.of_nat (List.length commits) - 1) 0).
  { rewrite <- (commitTimes_length tz commits), <- (sortTimes_length (commitTimes tz commits)).
    apply countRapid_all. intros a b Ha Hb.
    apply (Permutation_in _ (Permutation_sym (sortTimes_is_Permutation _))) in Ha.
    apply (Permutation_in _ (Permutation_sym (sortTimes_is_Permutation _))) in Hb.
    rewrite E in Ha, Hb. apply in_map_iff in Ha, Hb.
    destruct Ha as [x [<- Hx]]. destruct Hb as [y [<- Hy]].
    simpl. apply Z.ltb_lt. apply H; assumption. }
  unfold Part000.analyzeCommitPatterns, Part001.analyzeCommitPatterns.
  cbn [Part000.rapidCommits Part001.rapidCommits]. split; exact R.
Qed.

Lemma rapidCommits_burst_witness :
  Part000.rapidCommits (Part000.analyzeCommitPatterns 0 burstCommits) = 19.
Proof.
  apply (@rapidCommits_burst 0 burstCommits
           (repeat 1746093600000 10 ++ repeat 1746093645000 10)).
  - vm_compute. reflexivity.
  - intros x y Hx Hy.
    assert (B : forall z, In z (repeat 1746093600000 10 ++ repeat 1746093645000 10) ->
                          1746093600000 <= z <= 1746093645000).
    { intros z Hz. apply in_app_or in Hz.
      destruct Hz as [Hz | Hz]; apply repeat_spec in Hz; subst z; lia. }
    apply B in Hx. apply B in Hy. unfold rapidThreshold. lia.
Defined.

Lemma farApart_Permutation (l l' : list (option Z)) :
  Permutation l l' ->
  ForallOrdPairs (fun a b => rapidThreshold <= Z.abs (compareTimes a b)) l ->
  ForallOrdPairs (fun a b => rapidThreshold <= Z.abs (compareTimes a b)) l'.
Proof.
  induction 1 as [| x l l' Hp IH | x y l | l l' l'' _ IH1 _ IH2]; intro H.
  - constructor.
  - inversion H as [| ? ? Hx Hl]; subst. constructor.
    + eapply Permutation_Forall; eassumption.
    + apply IH. exact Hl.
  - inversion H as [| ? ? Hy Hl]; subst.
    inversion Hl as [| ? ? Hx Hl']; subst.
    inversion Hy as [| ? ? Hyx Hyl]; subst.
    constructor; [constructor; [|exact Hx] | constructor; assumption].
    destruct x as [x|], y as [y|]; simpl in *; lia.
  - auto.
Qed.

Lemma countRapid_sparse (times : list (option Z)) :
  ascending times ->
  ForallOrdPairs (fun a b => rapidThreshold <= Z.abs (compareTimes a b)) times ->
  countRapid times = 0.
Proof.
  induction times as [| prev rest IH]; intros Ha Hf; [reflexivity|].
  destruct rest as [| cur rest']; [reflexivity|].
  change (countRapid (prev :: cur :: rest'))
    with ((if isRapid prev cur then 1 else 0) + countRapid (cur :: rest')).
  destruct Ha as [Hle Ha].
  inversion Hf as [| ? ? Hp Hl]; subst.
  rewrite (IH Ha Hl).
  inversion Hp as [| ? ? Hpc _]; subst.
  destruct prev as [a|], cur as [b|]; simpl in *; try reflexivity.
  destruct (Z.ltb_spec (b - a) rapidThreshold); [lia | reflexivity].
Qed.

(** X9. When any two commits are at least five minutes apart, there
    is no rapid commit. *)
Theorem rapidCommits_sparse (tz : Z) (commits : list GitHubCommit) (ts : list Z) :
  commitTimes tz commits = map Some ts ->
  ForallOrdPairs (fun x y => rapidThreshold <= Z.abs (x - y)) ts ->
  Part000.rapidCommits (Part000.analyzeCommitPatterns tz commits) = 0 /\
  Part001.rapidCommits (Part001.analyzeCommitPatterns tz commits) = 0.
Proof.
  intros E H.
  assert (R : countRapid (sortTimes (commitTimes tz commits)) = 0).
  { apply countRapid_sparse.
    - apply sortTimes_ascending. rewrite E. apply validTime_Some.
    - apply (farApart_Permutation (sortTimes_is_Permutation _)).
      rewrite E. clear E.
      induction H as [| x l Hx Hl IH]; simpl; constructor; [|exact IH].
      clear - Hx. induction Hx; simpl; constructor; assumption. }
  unfold Part000.analyzeCommitPatterns, Part001.analyzeCommitPatterns.
  cbn [Part000.rapidCommits Part001.rapidCommits]. split; exact R.
Qed.

Lemma rapidCommits_sparse_witness :
  Part000.rapidCommits (Part000.analyzeCommitPatterns 0 (fourCommits 2)) = 0.
Proof.
  apply (@rapidCommits_sparse 0 (fourCommits 2)
           [1748772000000; 1748858400000; 1748944800000; 1749031200000]).
  - vm_compute. reflexivity.
  - repeat constructor; vm_compute; discriminate.
Defined.

(** *** Thresholds in terms of the commits *)

(** [percentage v t > k] holds when [v / t] is above [k + 1/2] percent, and
    only when it is at least that. *)
Lemma percentage_gt (v t k : Z) :
  0 <= v <= t -> 0 < t < 2 ^ 44 ->
  (((2 * k + 1) * t < 200 * v -> (percentage v t >? k) = true) /\
   ((percentage v t >? k) = true -> (2 * k + 1) * t <= 200 * v)).
Proof.
  intros Hv Ht. pose proof (percentage_nearest Hv Ht) as H.
  split; intro G.
  - apply Z.gtb_lt. nia.
  - apply Z.gtb_lt in G. nia.
Qed.

Lemma In_singleton_if (b : bool) (x y : jsstring) :
  In x (if b then [y] else []) <-> b = true /\ y = x.
Proof.
  destruct b; simpl.
  - split; [intros [H | []]; auto | intros [_ H]; auto].
  - split; [intros [] | intros [H _]; discriminate].
Qed.

(** X10. The finding on a high verification rate is reported when more
    than 70.5 percent of the commits are verified, and only when at least
    70.5 percent are. *)
Theorem high_verification_finding_threshold (tz : Z)
  (commits : list GitHubCommit) :
  commits <> [] -> Z.of_nat (List.length commits) < 2 ^ 32 ->
  let verified := countWhere commit_verification_verified commits in
  let total := Z.of_nat (List.length commits) in
  let f0 := Part000.filePatterns (Part000.analyzeCommitPatterns tz commits) in
  let f1 := Part001.filePatterns (Part001.analyzeCommitPatterns tz commits) in
  (141 * total < 200 * verified ->
   In (lit "High GitHub verification rate pattern") f0 /\
   In (lit "High verification rate pattern") f1) /\
  (In (lit "High GitHub verification rate pattern") f0 \/
   In (lit "High verification rate pattern") f1 ->
   141 * total <= 200 * verified).
Proof.
  intros Hne Hlen. cbv zeta.
  pose proof (countWhere_bounds commit_verification_verified commits) as Hv.
  assert (Ht : 0 < Z.of_nat (List.length commits) < 2 ^ 44).
  { destruct commits; [congruence | simpl List.length in *; lia]. }
  destruct (percentage_gt 70 Hv Ht) as [Hup Hdown].
  unfold Part000.analyzeCommitPatterns, Part001.analyzeCommitPatterns.
  cbn [Part000.filePatterns Part001.filePatterns].
  split.
  - intro G. change (2 * 70 + 1) with 141 in Hup. rewrite (Hup G).
    split; apply in_or_app; right; apply in_or_app; right; left; reflexivity.
  - change (2 * 70 + 1) with 141 in Hdown.
    intros [G | G]; apply Hdown;
      apply in_app_or in G; destruct G as [G | G];
      try (apply In_singleton_if in G; destruct G as [_ G]; discriminate G);
      apply in_app_or in G; destruct G as [G | G];
      try (apply In_singleton_if in G; destruct G as [_ G]; discriminate G);
      apply In_singleton_if in G; destruct G as [G _]; exact G.
Qed.

Lemma high_verification_finding_threshold_witness :
  In (lit "High GitHub verification rate pattern")
     (Part000.filePatterns (Part000.analyzeCommitPatterns 0 (fourCommits 3))) /\
  In (lit "High verification rate pattern")
     (Part001.filePatterns (Part001.analyzeCommitPatterns 0 (fourCommits 3))).
Proof.
  assert (Hne : fourCommits 3 <> []) by discriminate.
  assert (Hlen : Z.of_nat (List.length (fourCommits 3)) < 2 ^ 32) by reflexivity.
  apply (proj1 (@high_verification_finding_threshold 0 (fourCommits 3) Hne Hlen)).
  reflexivity.
Defined.

Lemma countWhere_pos {A : Type} (p : A -> bool) (l : list A) :
  (countWhere p l >? 0) = true <-> exists a, In a l /\ p a = true.
Proof.
  unfold countWhere. rewrite Z.gtb_lt. split.
  - intro H. destruct (filter p l) as [| a f] eqn:E; [simpl in H; lia|].
    exists a. apply filter_In. rewrite E. left. reflexivity.
  - intros [a Ha]. apply filter_In in Ha.
    destruct (filter p l); [destruct Ha | simpl; lia].
Qed.

(** X11. The findings of the analyzer are coherent: the finding on
    package files is reported exactly when the message of some commit
    mentions [package.json] or [dependencies] in any letter case; whenever
    frequent rapid commits are reported, multiple rapid file changes are
    reported as well; and no finding is listed twice. *)
Theorem findings_coherent (tz : Z) (commits : list GitHubCommit) :
  let p0 := Part000.analyzeCommitPatterns tz commits in
  let p1 := Part001.analyzeCommitPatterns tz commits in
  (In (lit "Package.json modifications detected") (Part000.filePatterns p0)
   <-> exists commit, In commit commits /\ mentionsPackages commit = true) /\
  (In (lit "Frequent rapid commits detected") (Part000.timePatterns p0) ->
   In (lit "Multiple rapid file changes") (Part000.filePatterns p0)) /\
  NoDup (Part000.filePatterns p0) /\ NoDup (Part000.timePatterns p0) /\
  (In (lit "Package.json modifications detected") (Part001.filePatterns p1)
   <-> exists commit, In commit commits /\ mentionsPackages commit = true) /\
  (In (lit "Frequent rapid commits detected") (Part001.timePatterns p1) ->
   In (lit "Multiple rapid file changes") (Part001.filePatterns p1)) /\
  NoDup (Part001.filePatterns p1) /\ NoDup (Part001.timePatterns p1).
Proof.
  cbv zeta.
  unfold Part000.analyzeCommitPatterns, Part001.analyzeCommitPatterns.
  cbn [Part000.filePatterns Part000.timePatterns
       Part001.filePatterns Part001.timePatterns].
  rewrite <- (countWhere_pos mentionsPackages commits).
  set (r := countRapid (sortTimes (commitTimes tz commits))).
  assert (Hr : (r >? 10) = true -> (r >? 5) = true).
  { rewrite !Z.gtb_lt. lia. }
  destruct (r >? 10); [rewrite (Hr eq_refl) | destruct (r >? 5)];
    destruct (countWhere mentionsPackages commits >? 0);
    destruct (percentage _ _ >? 70);
    destruct (Number.gtb _ _);
    repeat match goal with |- _ /\ _ => split end;
    first [ solve [repeat constructor; simpl; intuition discriminate]
          | solve [split; intro H; simpl in *; intuition discriminate]
          | solve [intro H; simpl in *; intuition discriminate] ].
Qed.

(** *** The verdict without the model *)

Lemma Math_min_le_l (a b : Q) : (Number.Math_min a b <= a)%Q.
Proof.
  unfold Number.Math_min. destruct (Qle_bool a b) eqn:E; [apply Qle_refl|].
  assert (~ (a <= b)%Q) by (rewrite <- Qle_bool_iff; congruence). lra.
Qed.

Lemma Math_min_ge (a b c : Q) :
  (c <= a)%Q -> (c <= b)%Q -> (c <= Number.Math_min a b)%Q.
Proof. intros Ha Hb. unfold Number.Math_min. destruct (Qle_bool a b); assumption. Qed.

Lemma fallback_000_upper (tz : Z) (repoData : GitHubRepo)
  (p : Part000.CommitPatterns) (bound : Z) :
  0 <= Part000.githubVerifiedPercentage p <= 100 ->
  0 <= Part000.rapidCommits p ->
  2 * Part000.rapidCommits p
  + (if Part000.totalCommits p >? 50 then 10 else 0) <= bound - 30 ->
  bound < 2 ^ 53 ->
  (likelihood (Part000.fallback tz repoData p) <= inject_Z bound)%Q.
Proof.
  intros Hp Hr Hb Hbig. unfold Part000.fallback. cbn [likelihood].
  eapply Qle_trans; [apply Math_min_le_l|].
  unfold Number.add, Number.mul. rewrite Threshold.c0_3_value.
  pose proof (inject_Z_nonneg (proj1 Hp)) as Hp0.
  pose proof (inject_Z_le (proj2 Hp)) as Hp1.
  pose proof (inject_Z_nonneg Hr) as Hr0.
  change (inject_Z 100) with 100%Q in Hp1.
  set (P := inject_Z (Part000.githubVerifiedPercentage p)) in *.
  set (r := Part000.rapidCommits p) in *.
  set (bonus := if Part000.totalCommits p >? 50 then 10 else 0) in *.
  assert (Hbonus : 0 <= bonus) by (subst bonus; destruct (_ >? 50); lia).
  assert (HA : (0 <= Number.round64 (P * (5404319552844595 # 18014398509481984))
                <= 30)%Q).
  { split; [apply NumberFacts.round64_nonneg; lra|].
    apply NumberFacts.round64_le; [lra | lra | reflexivity]. }
  assert (HB : (Number.round64 (inject_Z r * inject_Z 2) == inject_Z (r * 2))%Q).
  { rewrite <- inject_Z_mult. apply NumberFacts.round64_int. lia. }
  pose proof (inject_Z_nonneg (n := r * 2) ltac:(lia)) as H2.
  set (A := Number.round64 (P * (5404319552844595 # 18014398509481984))) in *.
  set (B := Number.round64 (inject_Z r * inject_Z 2)) in *.
  assert (HC : (0 <= Number.round64 (A + B) <= inject_Z (30 + r * 2))%Q).
  { split; [apply NumberFacts.round64_nonneg; lra|].
    apply NumberFacts.round64_le.
    - lra.
    - rewrite inject_Z_plus. change (inject_Z 30) with 30%Q. lra.
    - apply NumberFacts.round64_int. lia. }
  pose proof (inject_Z_nonneg Hbonus) as Hb0.
  eapply Qle_trans.
  - apply NumberFacts.round64_le with (c := inject_Z (30 + r * 2 + bonus)).
    + lra.
    + rewrite (inject_Z_plus (30 + r * 2)). lra.
    + apply NumberFacts.round64_int. lia.
  - apply inject_Z_le. lia.
Qed.

Lemma fallback_000_lower (tz : Z) (repoData : GitHubRepo)
  (p : Part000.CommitPatterns) :
  0 <= Part000.githubVerifiedPercentage p ->
  36 <= Part000.rapidCommits p ->
  (72 <= likelihood (Part000.fallback tz repoData p))%Q.
Proof.
  intros Hp Hr. unfold Part000.fallback. cbn [likelihood].
  apply Math_min_ge; [|discriminate].
  unfold Number.add, Number.mul.
  pose proof (inject_Z_nonneg Hp) as Hp0.
  pose proof c0_3_pos as Hc.
  set (P := inject_Z (Part000.githubVerifiedPercentage p)) in *.
  set (bonus := if Part000.totalCommits p >? 50 then 10 else 0).
  assert (Hbonus : 0 <= bonus) by (subst bonus; destruct (_ >? 50); lia).
  pose proof (inject_Z_nonneg Hbonus) as Hb0.
  assert (H72 : (Number.round64 72 == 72)%Q) by reflexivity.
  assert (HA : (0 <= Number.round64 (P * c0_3))%Q).
  { apply NumberFacts.round64_nonneg. apply Qmult_le_0_compat; lra. }
  assert (HB : (72 <= Number.round64 (inject_Z (Part000.rapidCommits p) * inject_Z 2))%Q).
  { rewrite <- H72. apply NumberFacts.round64_mono; [discriminate|].
    rewrite <- inject_Z_mult. change 72%Q with (inject_Z 72).
    apply inject_Z_le. lia. }
  assert (HC : (72 <= Number.round64
                        (Number.round64 (P * c0_3)
                         + Number.round64 (inject_Z (Part000.rapidCommits p) * inject_Z 2)))%Q).
  { rewrite <- H72 at 1. apply NumberFacts.round64_mono; [discriminate | lra]. }
  rewrite <- H72 at 1. apply NumberFacts.round64_mono; [discriminate | lra].
Qed.

(** X12. When the model gives no usable opinion, the verdict of the
    version with the badge check rests on the rapid commits: a repository
    with at most 15 rapid commits is never flagged as AI generated, whatever
    its verification rate; one with at most 50 commits is not flagged up to
    20 rapid commits; and one with 36 rapid commits or more is always
    flagged. *)
Theorem fallback_verdict_thresholds (tz : Z) (url : jsstring)
  (repoData : GitHubRepo) (commits : list GitHubCommit) (badge : bool)
  (reply : option jsstring) :
  Part000.attempt (Part000.analyzeCommitPatterns tz commits) reply = None ->
  let r := Part000.result tz url repoData commits badge reply in
  let rapid := Part000.rapidCommits (Part000.commitPatterns r) in
  (rapid <= 15 -> Part000.isLikelyAIGenerated r = false) /\
  (Z.of_nat (List.length commits) <= 50 -> rapid <= 20 ->
   Part000.isLikelyAIGenerated r = false) /\
  (36 <= rapid -> Part000.isLikelyAIGenerated r = true).
Proof.
  intro Hf. cbv zeta. unfold Part000.result.
  cbn [Part000.isLikelyAIGenerated Part000.commitPatterns].
  unfold Part000.analyzeWithGemini. rewrite Hf.
  destruct (patterns_000_nonneg tz commits) as [Hp Hr].
  set (p := Part000.analyzeCommitPatterns tz commits) in *.
  assert (Hnot : forall l : Q, (l <= inject_Z 70)%Q ->
                               Number.gtb l (inject_Z 70) = false).
  { intros l Hl. destruct (Number.gtb l (inject_Z 70)) eqn:E; [|reflexivity].
    apply NumberFacts.gtb_spec in E. lra. }
  split; [|split].
  - intro H. apply Hnot. apply fallback_000_upper; try assumption; try lia.
    destruct (Part000.totalCommits p >? 50); lia.
  - intros Ht H. apply Hnot. apply fallback_000_upper; try assumption; try lia.
    destruct (Z.gtb_spec (Part000.totalCommits p) 50) as [G | G]; [|lia].
    subst p. cbn [Part000.analyzeCommitPatterns Part000.totalCommits] in G. lia.
  - intro H. apply NumberFacts.gtb_spec.
    pose proof (@fallback_000_lower tz repoData p (proj1 Hp) H) as Hl.
    change (inject_Z 70) with 70%Q. lra.
Qed.

Lemma fallback_verdict_thresholds_witness :
  Part000.isLikelyAIGenerated
    (Part000.result 0 (lit "https://github.com/octo/demo")
       (sampleRepo "2025-06-01T09:30:00Z") threeCommits false None) = false.
Proof.
  apply (proj1 (@fallback_verdict_thresholds 0 (lit "https://github.com/octo/demo")
                  (sampleRepo "2025-06-01T09:30:00Z") threeCommits false None
                  eq_refl)).
  vm_compute. discriminate.
Defined.

(** X13. In the version without the badge check the verdict follows the
    commits alone: a repository with more than 80.5 percent verified commits
    is flagged, a flagged one has at least 80.5 percent verified commits or
    more than 15 rapid commits, a flagged repository never carries the
    confidence low, and the confidence high is only given to flagged
    repositories. *)
Theorem heuristic_verdict_thresholds (tz : Z) (url : jsstring)
  (repoData : GitHubRepo) (commits : list GitHubCommit)
  (reply : option jsstring) :
  commits <> [] -> Z.of_nat (List.length commits) < 2 ^ 32 ->
  let r := Part001.result tz url repoData commits reply in
  let verified := countWhere commit_verification_verified commits in
  let total := Z.of_nat (List.length commits) in
  (161 * total < 200 * verified -> Part001.isLikelyAIGenerated r = true) /\
  (Part001.isLikelyAIGenerated r = true ->
   161 * total <= 200 * verified \/
   15 < Part001.rapidCommits (Part001.commitPatterns r)) /\
  (Part001.isLikelyAIGenerated r = true ->
   Part001.result_confidence r <> lit "low") /\
  (Part001.result_confidence r = lit "high" ->
   Part001.isLikelyAIGenerated r = true).
Proof.
  intros Hne Hlen. cbv zeta.
  pose proof (countWhere_bounds commit_verification_verified commits) as Hv.
  assert (Ht : 0 < Z.of_nat (List.length commits) < 2 ^ 44).
  { destruct commits; [congruence | simpl List.length in *; lia]. }
  destruct (percentage_gt 80 Hv Ht) as [Hup Hdown].
  change (2 * 80 + 1) with 161 in Hup, Hdown.
  unfold Part001.result.
  cbn [Part001.isLikelyAIGenerated Part001.result_confidence
       Part001.commitPatterns].
  unfold Part001.analyzeCommitPatterns.
  cbn [Part001.verificationPercentage Part001.rapidCommits].
  set (pct := percentage _ _) in *.
  set (rapid := countRapid _).
  split; [|split; [|split]].
  - intro G. rewrite (Hup G). reflexivity.
  - intro G. apply orb_true_iff in G. destruct G as [G | G].
    + left. apply Hdown. exact G.
    + right. apply Z.gtb_lt in G. lia.
  - intro G. unfold tier.
    assert (G' : (pct >? 60) || (rapid >? 10) = true).
    { apply orb_true_iff in G. apply orb_true_iff.
      rewrite !Z.gtb_lt in *. lia. }
    rewrite G'. destruct ((pct >? 80) || (rapid >? 20)); discriminate.
  - unfold tier. intro G.
    destruct ((pct >? 80) || (rapid >? 20)) eqn:E.
    + apply orb_true_iff in E. apply orb_true_iff.
      rewrite !Z.gtb_lt in *. lia.
    + destruct ((pct >? 60) || (rapid >? 10)); discriminate G.
Qed.

Lemma heuristic_verdict_thresholds_witness :
  Part001.isLikelyAIGenerated
    (Part001.result 0 (lit "https://github.com/octo/demo")
       (sampleRepo "2025-06-01T09:30:00Z") (fourCommits 4) None) = true.
Proof.
  assert (Hne : fourCommits 4 <> []) by discriminate.
  assert (Hlen : Z.of_nat (List.length (fourCommits 4)) < 2 ^ 32) by reflexivity.
  apply (proj1 (@heuristic_verdict_thresholds 0 (lit "https://github.com/octo/demo")
                  (sampleRepo "2025-06-01T09:30:00Z") (fourCommits 4) None
                  Hne Hlen)).
  reflexivity.
Defined.

(** ** Cleaning the reply of the model *)

Lemma dropWhile_stop (p : N -> bool) (pre : jsstring) (c : N) (rest : jsstring) :
  p c = false ->
  exists pre', dropWhile p (pre ++ c :: rest) = pre' ++ c :: rest /\ incl pre' pre.
Proof.
  intro Hc. induction pre as [| a pre IH]; simpl.
  - exists []. rewrite Hc. split; [reflexivity | apply incl_refl].
  - destruct (p a).
    + destruct IH as [pre' [E I]]. exists pre'. split; [exact E|].
      apply incl_tl. exact I.
    + exists (a :: pre). split; [reflexivity | apply incl_refl].
Qed.

Lemma trimEnd_stop (x : jsstring) (c : N) (post : jsstring) :
  isWhiteSpace c = false ->
  exists post', trimEnd (x ++ c :: post) = x ++ c :: post' /\ incl post' post.
Proof.
  intro Hc. unfold trimEnd.
  replace (rev (x ++ c :: post)) with (rev post ++ c :: rev x)
    by (rewrite rev_app_distr; simpl; now rewrite <- app_assoc).
  destruct (@dropWhile_stop isWhiteSpace (rev post) c (rev x) Hc) as [q [E I]].
  rewrite E. exists (rev q). split.
  - rewrite rev_app_distr. simpl. rewrite rev_involutive, <- app_assoc. reflexivity.
  - intros a Ha. apply in_rev in Ha. apply I in Ha. apply in_rev. exact Ha.
Qed.

Lemma spanLength_stop (p : N -> bool) (pre : jsstring) (c : N) (rest : jsstring) :
  p c = false -> (spanLength p (pre ++ c :: rest) <= List.length pre)%nat.
Proof.
  intro Hc. induction pre as [| a pre IH]; simpl.
  - rewrite Hc. lia.
  - destruct (p a); lia.
Qed.

Lemma startsWith_length (p s : jsstring) :
  startsWith p s = true -> (List.length p <= List.length s)%nat.
Proof.
  revert s. induction p as [| a p IH]; intros s H; simpl; [lia|].
  destruct s as [| b s]; [discriminate|]. simpl in H.
  apply andb_true_iff in H. destruct H as [_ H]. apply IH in H. simpl. lia.
Qed.

(** A prefix of a string that starts with the first units of a fence
    lies before a unit that no fence contains. *)
Lemma startsWith_stop (p pre : jsstring) (c : N) (rest : jsstring) :
  ~ In c p -> startsWith p (pre ++ c :: rest) = true ->
  (List.length p <= List.length pre)%nat.
Proof.
  revert pre. induction p as [| a p IH]; intros pre Hc H; simpl; [lia|].
  destruct pre as [| b pre]; simpl in H.
  - apply andb_true_iff in H. destruct H as [H _].
    apply N.eqb_eq in H. subst. exfalso. apply Hc. left. reflexivity.
  - apply andb_true_iff in H. destruct H as [_ H].
    apply IH in H; [simpl; lia|]. intro G. apply Hc. right. exact G.
Qed.

Lemma skipn_app_le {A : Type} (n : nat) (l l' : list A) :
  (n <= List.length l)%nat -> skipn n (l ++ l') = skipn n l ++ l'.
Proof.
  intro H. rewrite skipn_app.
  replace (n - List.length l)%nat with O by lia. reflexivity.
Qed.

Lemma fenceMatch_before (pre : jsstring) (c : N) (rest : jsstring) :
  isWhiteSpace c = false -> ~ In c fenceJson ->
  (fenceMatch (pre ++ c :: rest) <= List.length pre)%nat.
Proof.
  intros Hw Hc. unfold fenceMatch.
  destruct (startsWith fenceJson (pre ++ c :: rest)) eqn:E.
  - pose proof (@startsWith_stop _ _ _ _ Hc E) as Hl.
    change (List.length fenceJson) with 7%nat in Hl.
    rewrite skipn_app_le by exact Hl.
    pose proof (@spanLength_stop isWhiteSpace (skipn 7 pre) c rest Hw) as Hs.
    rewrite length_skipn in Hs. lia.
  - pose proof (@spanLength_stop isWhiteSpace pre c rest Hw) as Hs.
    set (w := spanLength isWhiteSpace (pre ++ c :: rest)) in *.
    rewrite skipn_app_le by exact Hs.
    destruct (startsWith fence (skipn w pre ++ c :: rest)) eqn:F; [|lia].
    apply startsWith_stop in F.
    + rewrite length_skipn in F. change (List.length fence) with 3%nat in F. lia.
    + intro G. apply Hc. simpl in G |- *. tauto.
Qed.

Lemma stripFencesFrom_before (pre : jsstring) (c : N) (rest : jsstring) (k : nat) :
  isWhiteSpace c = false -> ~ In c fenceJson -> (k <= List.length pre)%nat ->
  exists pre', stripFencesFrom k (pre ++ c :: rest)
               = pre' ++ stripFencesFrom O (c :: rest) /\ incl pre' pre.
Proof.
  intros Hw Hc. revert k. induction pre as [| a pre IH]; intros k Hk.
  - simpl in Hk. replace k with O by lia. exists []. split; [reflexivity | apply incl_refl].
  - change ((a :: pre) ++ c :: rest) with (a :: (pre ++ c :: rest)).
    destruct k as [| k].
    + pose proof (@fenceMatch_before (a :: pre) c rest Hw Hc) as Hm.
      change ((a :: pre) ++ c :: rest) with (a :: (pre ++ c :: rest)) in Hm.
      cbn [stripFencesFrom].
      destruct (fenceMatch (a :: pre ++ c :: rest)) as [| m].
      * destruct (IH O ltac:(lia)) as [q [E I]]. rewrite E.
        exists (a :: q). split; [reflexivity|].
        intros x [-> | Hx]; [left; reflexivity | right; apply I; exact Hx].
      * simpl in Hm. destruct (IH m ltac:(lia)) as [q [E I]]. rewrite E.
        exists q. split; [reflexivity | apply incl_tl; exact I].
    + cbn [stripFencesFrom]. simpl in Hk.
      destruct (IH k ltac:(lia)) as [q [E I]]. rewrite E.
      exists q. split; [reflexivity | apply incl_tl; exact I].
Qed.

Lemma fenceMatch_none (m : jsstring) (c : N) (post : jsstring) :
  isWhiteSpace c = false -> c <> 96%N -> ~ In 96%N m ->
  fenceMatch (m ++ c :: post) = O.
Proof.
  intros Hw Hc Hm. unfold fenceMatch.
  assert (H1 : forall q, ~ In 96%N q -> forall f,
               startsWith (96%N :: f) (q ++ c :: post) = false).
  { intros q Hq f. destruct q as [| b q]; cbn [startsWith app]; unfold unit_eqb.
    - destruct (N.eqb_spec 96 c); [congruence | reflexivity].
    - destruct (N.eqb_spec 96 b) as [<- |]; [|reflexivity].
      exfalso. apply Hq. left. reflexivity. }
  unfold fenceJson, fence. rewrite (H1 m Hm).
  pose proof (@spanLength_stop isWhiteSpace m c post Hw) as Hs.
  set (w := spanLength isWhiteSpace (m ++ c :: post)) in *.
  rewrite skipn_app_le by exact Hs.
  rewrite H1; [reflexivity|].
  intro G. apply Hm. rewrite <- (firstn_skipn w m).
  apply in_or_app. right. exact G.
Qed.

Lemma stripFencesFrom_inside (m : jsstring) (c : N) (post : jsstring) :
  isWhiteSpace c = false -> c <> 96%N -> ~ In 96%N m ->
  stripFencesFrom O (m ++ c :: post) = m ++ c :: stripFencesFrom O post.
Proof.
  intros Hw Hc. induction m as [| a m IH]; intro Hm.
  - change ([] ++ c :: post) with (c :: post). cbn [stripFencesFrom].
    pose proof (@fenceMatch_none [] c post Hw Hc Hm) as E.
    change ([] ++ c :: post) with (c :: post) in E. rewrite E. reflexivity.
  - change ((a :: m) ++ c :: post) with (a :: (m ++ c :: post)).
    cbn [stripFencesFrom].
    pose proof (@fenceMatch_none (a :: m) c post Hw Hc Hm) as E.
    change ((a :: m) ++ c :: post) with (a :: (m ++ c :: post)) in E.
    rewrite E, IH; [reflexivity|].
    intro G. apply Hm. right. exact G.
Qed.

Lemma stripFencesFrom_incl (k : nat) (s : jsstring) :
  incl (stripFencesFrom k s) s.
Proof.
  revert k. induction s as [| a s IH]; intro k; [apply incl_refl|].
  cbn [stripFencesFrom]. destruct k as [| k].
  - destruct (fenceMatch (a :: s)).
    + intros x [-> | Hx]; [left; reflexivity | right; apply (IH O); exact Hx].
    + apply incl_tl. apply IH.
  - apply incl_tl. apply IH.
Qed.

Lemma indexOf_first (c : N) (pre rest : jsstring) :
  ~ In c pre -> indexOf c (pre ++ c :: rest) = Some (List.length pre).
Proof.
  induction pre as [| a pre IH]; intro H; simpl.
  - unfold unit_eqb. rewrite N.eqb_refl. reflexivity.
  - unfold unit_eqb. destruct (N.eqb_spec a c) as [-> |].
    + exfalso. apply H. left. reflexivity.
    + rewrite IH; [reflexivity|]. intro G. apply H. right. exact G.
Qed.

Lemma lastIndexOf_none (c : N) (s : jsstring) :
  ~ In c s -> lastIndexOf c s = None.
Proof.
  induction s as [| a s IH]; intro H; simpl; [reflexivity|].
  rewrite IH by (intro G; apply H; right; exact G).
  unfold unit_eqb. destruct (N.eqb_spec a c) as [-> |]; [|reflexivity].
  exfalso. apply H. left. reflexivity.
Qed.

Lemma lastIndexOf_last (c : N) (pre post : jsstring) :
  ~ In c post -> lastIndexOf c (pre ++ c :: post) = Some (List.length pre).
Proof.
  intro H. induction pre as [| a pre IH]; simpl.
  - rewrite (@lastIndexOf_none c post H). unfold unit_eqb. rewrite N.eqb_refl. reflexivity.
  - rewrite IH. reflexivity.
Qed.

Lemma cleanedText_span (pre mid post : jsstring) :
  ~ In 123%N pre -> ~ In 125%N post -> ~ In 96%N mid ->
  cleanedText (pre ++ 123%N :: mid ++ 125%N :: post) = 123%N :: mid ++ [125%N].
Proof.
  intros Hpre Hpost Hmid. unfold cleanedText, trim, trimStart.
  destruct (@dropWhile_stop isWhiteSpace pre 123%N (mid ++ 125%N :: post)
              eq_refl) as [pre1 [E1 I1]].
  rewrite E1.
  replace (pre1 ++ 123%N :: mid ++ 125%N :: post)
    with ((pre1 ++ 123%N :: mid) ++ 125%N :: post)
    by (rewrite <- app_assoc; reflexivity).
  destruct (@trimEnd_stop (pre1 ++ 123%N :: mid) 125%N post eq_refl)
    as [post1 [E2 I2]].
  rewrite E2. rewrite <- app_assoc. cbn [app].
  unfold stripFences.
  assert (Hc : ~ In 123%N fenceJson) by (vm_compute; intuition discriminate).
  destruct (@stripFencesFrom_before pre1 123%N (mid ++ 125%N :: post1) O
              eq_refl Hc ltac:(lia)) as [pre2 [E3 I3]].
  rewrite E3.
  assert (Hm' : ~ In 96%N (123%N :: mid)).
  { intros [G | G]; [discriminate | contradiction]. }
  pose proof (@stripFencesFrom_inside (123%N :: mid) 125%N post1 eq_refl
                ltac:(discriminate) Hm') as E4.
  change ((123%N :: mid) ++ 125%N :: post1) with (123%N :: mid ++ 125%N :: post1) in E4.
  rewrite E4. cbn [app].
  set (post2 := stripFencesFrom O post1).
  assert (Hpre2 : ~ In 123%N pre2) by (intro G; apply Hpre, I1, I3, G).
  assert (Hpost2 : ~ In 125%N post2).
  { intro G. apply Hpost, I2. apply (stripFencesFrom_incl O post1). exact G. }
  rewrite (@indexOf_first 123%N pre2 _ Hpre2).
  replace (pre2 ++ 123%N :: mid ++ 125%N :: post2)
    with ((pre2 ++ 123%N :: mid) ++ 125%N :: post2)
    by (rewrite <- app_assoc; reflexivity).
  rewrite (@lastIndexOf_last 125%N _ post2 Hpost2).
  rewrite length_app. cbn [List.length].
  destruct (Nat.ltb_spec (List.length pre2) (List.length pre2 + S (List.length mid)));
    [|lia].
  unfold substring. rewrite <- app_assoc. cbn [app].
  rewrite skipn_app_le by lia.
  rewrite skipn_all. cbn [app].
  replace (List.length pre2 + S (List.length mid) + 1 - List.length pre2)%nat
    with (List.length (123%N :: mid ++ [125%N]))
    by (cbn [List.length]; rewrite length_app; simpl; lia).
  replace (123%N :: mid ++ 125%N :: post2)
    with ((123%N :: mid ++ [125%N]) ++ post2)
    by (cbn [app]; rewrite <- app_assoc; reflexivity).
  rewrite firstn_app, Nat.sub_diag, firstn_all. simpl firstn.
  apply app_nil_r.
Qed.

(** X14. Whatever chatter and code fences surround the object in the
    reply of the model, cleaning yields the object alone, and the opinion
    is the one obtained from the bare object: for every text before it
    without an opening brace, every text after it without a closing brace,
    and every object text without a backtick. *)
Theorem cleanedText_extracts_object (tz : Z) (repoData : GitHubRepo)
  (p0 : Part000.CommitPatterns) (p1 : Part001.CommitPatterns)
  (pre mid post : jsstring) :
  ~ In 123%N pre -> ~ In 125%N post -> ~ In 96%N mid ->
  let object := 123%N :: mid ++ [125%N] in
  cleanedText (pre ++ object ++ post) = object /\
  Part000.analyzeWithGemini tz repoData p0 (Some (pre ++ object ++ post))
  = Part000.analyzeWithGemini tz repoData p0 (Some object) /\
  Part001.analyzeWithGemini tz repoData p1 (Some (pre ++ object ++ post))
  = Part001.analyzeWithGemini tz repoData p1 (Some object).
Proof.
  intros Hpre Hpost Hmid. cbv zeta.
  assert (E : cleanedText (pre ++ (123%N :: mid ++ [125%N]) ++ post)
              = 123%N :: mid ++ [125%N]).
  { cbn [app]. rewrite <- app_assoc. cbn [app].
    apply cleanedText_span; assumption. }
  assert (E0 : cleanedText (123%N :: mid ++ [125%N]) = 123%N :: mid ++ [125%N]).
  { apply (@cleanedText_span [] mid []); auto. }
  split; [exact E|].
  unfold Part000.analyzeWithGemini, Part001.analyzeWithGemini,
    Part000.attempt, Part001.attempt.
  rewrite E, E0.
  destruct (pre ++ (123%N :: mid ++ [125%N]) ++ post) eqn:D.
  - destruct pre; discriminate D.
  - split; reflexivity.
Qed.

Lemma cleanedText_extracts_object_witness :
  cleanedText (dq "Here is the analysis: ```json " ++
               (123%N :: dq "'likelihood': 40" ++ [125%N]) ++
               dq " ``` I hope this helps.")
  = 123%N :: dq "'likelihood': 40" ++ [125%N].
Proof.
  apply (@cleanedText_extracts_object 0 (sampleRepo "2025-06-01T09:30:00Z")
           (Part000.analyzeCommitPatterns 0 [])
           (Part001.analyzeCommitPatterns 0 [])
           (dq "Here is the analysis: ```json ") (dq "'likelihood': 40")
           (dq " ``` I hope this helps."));
    vm_compute; intuition discriminate.
Defined.

(** ** The repository URL *)

Lemma unit_eqb_eq (a b : N) : unit_eqb a b = true <-> a = b.
Proof. unfold unit_eqb. apply N.eqb_eq. Qed.

Lemma startsWith_split (p s : jsstring) :
  startsWith p s = true -> s = p ++ skipn (List.length p) s.
Proof.
  revert s. induction p as [| a p IH]; intros s H; [reflexivity|].
  destruct s as [| b s]; [discriminate|]. cbn [startsWith] in H.
  apply andb_true_iff in H. destruct H as [E H].
  apply unit_eqb_eq in E. subst b. cbn [List.length skipn app].
  f_equal. apply IH. exact H.
Qed.

(** The longest run of a string: what it consists of and where it stops. *)
Lemma spanLength_spec (p : N -> bool) (s : jsstring) :
  forallb p (firstn (spanLength p s) s) = true /\
  (skipn (spanLength p s) s = [] \/
   exists c r, skipn (spanLength p s) s = c :: r /\ p c = false).
Proof.
  induction s as [| c s IH]; cbn [spanLength].
  - split; [reflexivity | left; reflexivity].
  - destruct (p c) eqn:E.
    + cbn [firstn skipn forallb]. rewrite E. exact IH.
    + cbn [firstn skipn forallb]. split; [reflexivity|].
      right. exists c, s. split; [reflexivity | exact E].
Qed.

Lemma spanLength_run (p : N -> bool) (run rest : jsstring) :
  forallb p run = true ->
  (rest = [] \/ exists c r, rest = c :: r /\ p c = false) ->
  spanLength p (run ++ rest) = List.length run.
Proof.
  intros Hrun Hrest. induction run as [| a run IH]; cbn [app].
  - destruct Hrest as [-> | (c & r & -> & Hc)]; cbn [spanLength];
      [reflexivity | rewrite Hc; reflexivity].
  - cbn [forallb] in Hrun. apply andb_true_iff in Hrun.
    destruct Hrun as [Ha Hrun]. cbn [spanLength List.length].
    rewrite Ha, (IH Hrun). reflexivity.
Qed.

Lemma notSlash_false (c : N) : notSlash c = false -> c = 47%N.
Proof.
  unfold notSlash. rewrite negb_false_iff. apply unit_eqb_eq.
Qed.

Lemma matchHere_sound (s owner repo : jsstring) :
  matchHere s = Some (owner, repo) ->
  exists rest,
    s = lit "github.com/" ++ owner ++ 47%N :: repo ++ rest /\
    owner <> [] /\ repo <> [] /\
    forallb notSlash owner = true /\ forallb notSlash repo = true /\
    (rest = [] \/ exists r, rest = 47%N :: r).
Proof.
  unfold matchHere. intro H.
  destruct (startsWith (lit "github.com/") s) eqn:E; [|discriminate].
  apply startsWith_split in E.
  change (List.length (lit "github.com/")) with 11%nat in E.
  set (rest := skipn 11 s) in *.
  destruct (spanLength_spec notSlash rest) as [Ho Hs].
  set (n := spanLength notSlash rest) in *.
  destruct n as [| n'] eqn:En; [discriminate|].
  destruct (skipn (S n') rest) as [| c rest'] eqn:Er; [discriminate|].
  destruct (spanLength_spec notSlash rest') as [Hr Ht].
  set (m := spanLength notSlash rest') in *.
  destruct m as [| m'] eqn:Em; [discriminate|].
  injection H as <- <-.
  destruct Hs as [Hs | (c' & r' & Hs & Hc)]; [discriminate|].
  injection Hs as <- <-. apply notSlash_false in Hc. subst c.
  exists (skipn (S m') rest').
  split; [|split; [|split; [|split; [exact Ho | split; [exact Hr|]]]]].
  - rewrite E at 1. f_equal.
    rewrite <- (firstn_skipn (S n') rest) at 1. f_equal.
    rewrite Er. f_equal. exact (eq_sym (firstn_skipn (S m') rest')).
  - intro G. destruct rest; [discriminate Er | discriminate G].
  - intro G. destruct rest'; [discriminate Em | discriminate G].
  - destruct Ht as [Ht | (c & r & Ht & Hc)]; [left; exact Ht|].
    right. exists r. rewrite Ht. apply notSlash_false in Hc. now subst c.
Qed.

(** X15. A URL is accepted only when it contains [github.com/]
    followed by an owner and a repository name, both non-empty and without a
    slash, separated by one slash; the name ends at the next slash or at the
    end of the URL. *)
Theorem matchGitHubUrl_sound (url owner repo : jsstring) :
  matchGitHubUrl url = Some (owner, repo) ->
  exists before rest,
    url = before ++ lit "github.com/" ++ owner ++ 47%N :: repo ++ rest /\
    owner <> [] /\ repo <> [] /\
    forallb notSlash owner = true /\ forallb notSlash repo = true /\
    (rest = [] \/ exists r, rest = 47%N :: r).
Proof.
  induction url as [| c url IH]; cbn [matchGitHubUrl]; intro H.
  - destruct (matchHere []) as [g |] eqn:E; [|discriminate].
    injection H as ->. apply matchHere_sound in E.
    destruct E as (rest & E). exists [], rest. exact E.
  - destruct (matchHere (c :: url)) as [g |] eqn:E.
    + injection H as ->. apply matchHere_sound in E.
      destruct E as (rest & E). exists [], rest. exact E.
    + destruct (IH H) as (before & rest & -> & G).
      exists (c :: before), rest. split; [reflexivity | exact G].
Qed.

Lemma matchGitHubUrl_sound_witness :
  exists before rest,
    lit "https://github.com/octo/demo/tree/main"
    = before ++ lit "github.com/" ++ lit "octo" ++ 47%N :: lit "demo" ++ rest /\
    lit "octo" <> [] /\ lit "demo" <> [] /\
    forallb notSlash (lit "octo") = true /\ forallb notSlash (lit "demo") = true /\
    (rest = [] \/ exists r, rest = 47%N :: r).
Proof.
  apply (@matchGitHubUrl_sound (lit "https://github.com/octo/demo/tree/main")).
  reflexivity.
Defined.

Lemma matchHere_complete (owner repo rest : jsstring) :
  owner <> [] -> repo <> [] ->
  forallb notSlash owner = true -> forallb notSlash repo = true ->
  (rest = [] \/ exists r, rest = 47%N :: r) ->
  matchHere (lit "github.com/" ++ owner ++ 47%N :: repo ++ rest)
  = Some (owner, repo).
Proof.
  intros Ho Hr Fo Fr Hrest. unfold matchHere.
  rewrite startsWith_app. cbv zeta.
  change (skipn 11 (lit "github.com/" ++ owner ++ 47%N :: repo ++ rest))
    with (owner ++ 47%N :: repo ++ rest).
  rewrite (@spanLength_run notSlash owner (47%N :: repo ++ rest) Fo)
    by (right; exists 47%N, (repo ++ rest); split; reflexivity).
  assert (Hrest' : rest = [] \/ exists c r, rest = c :: r /\ notSlash c = false).
  { destruct Hrest as [-> | [r ->]]; [left; reflexivity|].
    right. exists 47%N, r. split; reflexivity. }
  assert (Es : skipn (List.length owner) (owner ++ 47%N :: repo ++ rest)
               = 47%N :: repo ++ rest).
  { rewrite skipn_app, skipn_all, Nat.sub_diag. reflexivity. }
  assert (Ef : firstn (List.length owner) (owner ++ 47%N :: repo ++ rest) = owner).
  { rewrite firstn_app, Nat.sub_diag, firstn_all. apply app_nil_r. }
  assert (Eg : firstn (List.length repo) (repo ++ rest) = repo).
  { rewrite firstn_app, Nat.sub_diag, firstn_all. apply app_nil_r. }
  rewrite Ef.
  destruct (List.length owner) as [| n] eqn:En;
    [destruct owner; [congruence | discriminate En]|].
  rewrite Es, (@spanLength_run notSlash repo rest Fr Hrest'), Eg.
  destruct (List.length repo) as [| m] eqn:Em;
    [destruct repo; [congruence | discriminate Em]|].
  reflexivity.
Qed.

Lemma matchHere_other (c : N) (s : jsstring) :
  c <> 103%N -> matchHere (c :: s) = None.
Proof.
  intro H. unfold matchHere.
  change (lit "github.com/") with (103%N :: lit "ithub.com/").
  cbn [startsWith]. unfold unit_eqb.
  destruct (N.eqb_spec 103 c); [congruence | reflexivity].
Qed.

Lemma matchGitHubUrl_complete (before owner repo rest : jsstring) :
  ~ In 103%N before -> owner <> [] -> repo <> [] ->
  forallb notSlash owner = true -> forallb notSlash repo = true ->
  (rest = [] \/ exists r, rest = 47%N :: r) ->
  matchGitHubUrl (before ++ lit "github.com/" ++ owner ++ 47%N :: repo ++ rest)
  = Some (owner, repo).
Proof.
  intros Hb Ho Hr Fo Fr Hrest.
  induction before as [| c before IH].
  - cbn [app].
    pose proof (matchHere_complete Ho Hr Fo Fr Hrest) as E.
    destruct (lit "github.com/" ++ owner ++ 47%N :: repo ++ rest) eqn:D;
      cbn [matchGitHubUrl]; rewrite E; reflexivity.
  - cbn [app matchGitHubUrl].
    rewrite matchHere_other by (intro G; apply Hb; left; exact G).
    apply IH. intro G. apply Hb. right. exact G.
Qed.


Lemma eqb_refl (s : jsstring) : JSString.eqb s s = true.
Proof.
  induction s as [| a s IH]; [reflexivity|]. cbn [JSString.eqb].
  rewrite IH. unfold unit_eqb. rewrite N.eqb_refl. reflexivity.
Qed.

Lemma cleanRepo_git (name : jsstring) : cleanRepo (name ++ lit ".git") = name.
Proof.
  unfold cleanRepo. rewrite length_app.
  change (List.length (lit ".git")) with 4%nat.
  replace (List.length name + 4 - 4)%nat with (List.length name) by lia.
  rewrite skipn_app, skipn_all, Nat.sub_diag. cbn [skipn app].
  rewrite eqb_refl.
  destruct (Nat.leb_spec 4 (List.length name + 4)); [|lia].
  cbn [andb]. rewrite firstn_app, Nat.sub_diag, firstn_all. cbn [firstn].
  apply app_nil_r.
Qed.

(** X16. From a URL of the usual form, with nothing before
    [github.com/] that contains the letter g, the handler takes the owner
    and the repository name as they are written and ignores what follows
    the name after a further slash; a name written with the ending [.git]
    is analysed as the name without it. *)
Theorem matchGitHubUrl_canonical (before owner name rest : jsstring) :
  ~ In 103%N before -> owner <> [] -> name <> [] ->
  forallb notSlash owner = true -> forallb notSlash name = true ->
  (rest = [] \/ exists r, rest = 47%N :: r) ->
  let named (url : jsstring) :=
    option_map (fun groups => (fst groups, cleanRepo (snd groups)))
               (matchGitHubUrl url) in
  matchGitHubUrl (before ++ lit "github.com/" ++ owner ++ 47%N :: name ++ rest)
  = Some (owner, name) /\
  named (before ++ lit "github.com/" ++ owner ++ 47%N ::
         (name ++ lit ".git") ++ rest)
  = Some (owner, name).
Proof.
  intros Hb Ho Hn Fo Fn Hrest. cbv zeta. split.
  - apply matchGitHubUrl_complete; assumption.
  - rewrite matchGitHubUrl_complete; try assumption.
    + cbn [option_map fst snd]. rewrite cleanRepo_git. reflexivity.
    + destruct name; [congruence | discriminate].
    + rewrite forallb_app, Fn. reflexivity.
Qed.

Lemma matchGitHubUrl_canonical_witness :
  matchGitHubUrl (lit "https://www." ++ lit "github.com/" ++ lit "octo" ++
                  47%N :: lit "demo" ++ lit "/issues/5")
  = Some (lit "octo", lit "demo").
Proof.
  apply (@matchGitHubUrl_canonical (lit "https://www.") (lit "octo")
           (lit "demo") (lit "/issues/5")).
  - vm_compute. intuition discriminate.
  - discriminate.
  - discriminate.
  - reflexivity.
  - reflexivity.
  - right. exists (lit "issues/5"). reflexivity.
Defined.

(** ** The badge check *)

Lemma list_ind3 (P : list N -> Prop) :
  P [] -> (forall a, P [a]) -> (forall a b, P [a; b]) ->
  (forall a b c rest, P rest -> P (a :: b :: c :: rest)) ->
  forall l, P l.
Proof.
  intros H0 H1 H2 H3. fix IH 1.
  intros [| a [| b [| c rest]]];
    [apply H0 | apply H1 | apply H2 | apply H3; apply IH].
Qed.

Ltac divmod := zify; Z.to_euclidean_division_equations; lia.

Lemma sextet_base64Unit (v : N) : (v < 64)%N -> sextet (base64Unit v) = Some v.
Proof.
  intro H. unfold base64Unit.
  destruct (N.ltb_spec v 26).
  { unfold sextet.
    destruct (N.leb_spec 65 (v + 65)); [|lia].
    destruct (N.leb_spec (v + 65) 90); [|lia].
    cbn [andb]. f_equal. lia. }
  destruct (N.ltb_spec v 52).
  { unfold sextet.
    destruct (N.leb_spec 65 (v + 71)); [|lia].
    destruct (N.leb_spec (v + 71) 90); [lia|].
    destruct (N.leb_spec 97 (v + 71)); [|lia].
    destruct (N.leb_spec (v + 71) 122); [|lia].
    cbn [andb]. f_equal. lia. }
  destruct (N.ltb_spec v 62).
  { unfold sextet.
    destruct (N.leb_spec 65 (v - 4)); [lia|].
    destruct (N.leb_spec 97 (v - 4)); [lia|].
    destruct (N.leb_spec 48 (v - 4)); [|lia].
    destruct (N.leb_spec (v - 4) 57); [|lia].
    cbn [andb]. f_equal. lia. }
  destruct (N.eqb_spec v 62) as [-> |]; [reflexivity|].
  assert (v = 63%N) by lia. subst v. reflexivity.
Qed.

Lemma base64Unit_not_equals (v : N) : (v < 64)%N -> base64Unit v <> 61%N.
Proof.
  intros H E. pose proof (sextet_base64Unit H) as S.
  rewrite E in S. discriminate S.
Qed.

Lemma base64Values_bound (bytes : list N) :
  Forall (fun b => (b < 256)%N) bytes ->
  Forall (fun v => (v < 64)%N) (base64Values bytes).
Proof.
  induction bytes as [| a | a b | a b c rest IH] using list_ind3; intro H.
  - constructor.
  - inversion H as [| ? ? Ha _]; subst. cbn [base64Values].
    repeat constructor; divmod.
  - inversion H as [| ? ? Ha H']; subst. inversion H' as [| ? ? Hb _]; subst.
    cbn [base64Values]. repeat constructor; divmod.
  - inversion H as [| ? ? Ha H']; subst. inversion H' as [| ? ? Hb H'']; subst.
    inversion H'' as [| ? ? Hc Hr]; subst.
    cbn [base64Values]. repeat (constructor; [divmod|]). apply IH. exact Hr.
Qed.

Lemma bytesOf_base64Values (bytes : list N) :
  Forall (fun b => (b < 256)%N) bytes -> bytesOf (base64Values bytes) = bytes.
Proof.
  induction bytes as [| a | a b | a b c rest IH] using list_ind3; intro H.
  - reflexivity.
  - inversion H as [| ? ? Ha _]; subst. cbn [base64Values bytesOf].
    f_equal. divmod.
  - inversion H as [| ? ? Ha H']; subst. inversion H' as [| ? ? Hb _]; subst.
    cbn [base64Values bytesOf]. f_equal; [|f_equal]; divmod.
  - inversion H as [| ? ? Ha H']; subst. inversion H' as [| ? ? Hb H'']; subst.
    inversion H'' as [| ? ? Hc Hr]; subst.
    cbn [base64Values bytesOf]. rewrite (IH Hr).
    f_equal; [|f_equal; [|f_equal]]; divmod.
Qed.

Lemma sextets_map (values : list N) :
  Forall (fun v => (v < 64)%N) values ->
  sextets (map base64Unit values) = Some values.
Proof.
  induction 1 as [| v values Hv _ IH]; [reflexivity|].
  cbn [map sextets]. rewrite (sextet_base64Unit Hv), IH. reflexivity.
Qed.

(** The number of values and the padding, by the number of bytes. *)
Lemma base64_lengths (bytes : list N) :
  exists k : nat,
    ((List.length bytes = 3 * k /\ List.length (base64Values bytes) = 4 * k /\
      base64Padding bytes = []) \/
     (List.length bytes = 3 * k + 1 /\ List.length (base64Values bytes) = 4 * k + 2 /\
      base64Padding bytes = [61%N; 61%N]) \/
     (List.length bytes = 3 * k + 2 /\ List.length (base64Values bytes) = 4 * k + 3 /\
      base64Padding bytes = [61%N]))%nat.
Proof.
  induction bytes as [| a | a b | a b c rest IH] using list_ind3.
  - exists O. left. repeat split.
  - exists O. right. left. repeat split.
  - exists O. right. right. repeat split.
  - destruct IH as [k IH]. exists (S k).
    assert (P : base64Padding (a :: b :: c :: rest) = base64Padding rest).
    { unfold base64Padding. cbn [List.length].
      replace (S (S (S (List.length rest)))) with (List.length rest + 1 * 3)%nat by lia.
      rewrite Nat.Div0.mod_add. reflexivity. }
    rewrite P. cbn [base64Values List.length].
    destruct IH as [(L & V & Q) | [(L & V & Q) | (L & V & Q)]];
      rewrite L, V, Q; [left | right; left | right; right]; repeat split; lia.
Qed.

Lemma withoutPadding_body (body pad : jsstring) :
  Forall (fun c => c <> 61%N) body ->
  pad = [] \/ pad = [61%N] \/ pad = [61%N; 61%N] ->
  withoutPadding (body ++ pad) = body.
Proof.
  intros Hb Hp. unfold withoutPadding.
  assert (Hr : Forall (fun c => c <> 61%N) (rev body)).
  { apply Forall_forall. intros c Hc. apply in_rev in Hc.
    rewrite Forall_forall in Hb. apply Hb. exact Hc. }
  destruct Hp as [-> | [-> | ->]]; rewrite rev_app_distr; cbn [rev app].
  - rewrite app_nil_r.
    destruct (rev body) as [| c r] eqn:E; [reflexivity|].
    inversion Hr as [| ? ? Hc _]; subst.
    destruct (N.eq_dec c 61) as [-> |]; [congruence|].
    destruct c as [| p]; [reflexivity|].
    do 6 (destruct p as [p | p |]; try reflexivity). congruence.
  - destruct (rev body) as [| c r] eqn:E.
    + rewrite <- (rev_involutive body), E. reflexivity.
    + inversion Hr as [| ? ? Hc _]; subst.
      rewrite <- (rev_involutive body), E.
      destruct c as [| p]; [reflexivity|].
      do 6 (destruct p as [p | p |]; try reflexivity). congruence.
  - rewrite <- (rev_involutive body) at 2. reflexivity.
Qed.

(** [atob] gives back the bytes of every base64 text, whatever line breaks
    the text carries. *)
Lemma atob_base64 (bytes : list N) (text : jsstring) :
  Forall (fun b => (b < 256)%N) bytes ->
  withoutWhitespace text = base64 bytes ->
  atob text = Some bytes.
Proof.
  intros Hb E. unfold atob. fold (withoutWhitespace text). rewrite E.
  pose proof (base64Values_bound Hb) as Hv.
  assert (Hne : Forall (fun c => c <> 61%N) (map base64Unit (base64Values bytes))).
  { apply Forall_forall. intros c Hc. apply in_map_iff in Hc.
    destruct Hc as [v [<- Hin]]. apply base64Unit_not_equals.
    rewrite Forall_forall in Hv. apply Hv. exact Hin. }
  destruct (base64_lengths bytes) as [k H].
  assert (Hpad : base64Padding bytes = [] \/ base64Padding bytes = [61%N] \/
                 base64Padding bytes = [61%N; 61%N]).
  { destruct H as [(_ & _ & Q) | [(_ & _ & Q) | (_ & _ & Q)]]; rewrite Q; auto. }
  assert (Hlen : (List.length (base64 bytes) mod 4 = 0)%nat).
  { unfold base64. rewrite length_app, length_map.
    destruct H as [(_ & V & Q) | [(_ & V & Q) | (_ & V & Q)]];
      rewrite V, Q; cbn [List.length].
    - rewrite Nat.add_0_r, Nat.mul_comm. apply Nat.Div0.mod_mul.
    - replace (4 * k + 2 + 2)%nat with ((k + 1) * 4)%nat by lia.
      apply Nat.Div0.mod_mul.
    - replace (4 * k + 3 + 1)%nat with ((k + 1) * 4)%nat by lia.
      apply Nat.Div0.mod_mul. }
  rewrite Hlen. cbn [Nat.eqb]. unfold base64.
  rewrite (withoutPadding_body Hne Hpad).
  assert (Hm : (List.length (map base64Unit (base64Values bytes)) mod 4 =? 1)%nat
               = false).
  { rewrite length_map. apply Nat.eqb_neq.
    destruct H as [(_ & V & _) | [(_ & V & _) | (_ & V & _)]]; rewrite V.
    - rewrite Nat.mul_comm, Nat.Div0.mod_mul. discriminate.
    - rewrite Nat.add_comm, Nat.mul_comm, Nat.Div0.mod_add. discriminate.
    - rewrite Nat.add_comm, Nat.mul_comm, Nat.Div0.mod_add. discriminate. }
  rewrite Hm, (sextets_map Hv). cbn [option_map].
  f_equal. apply bytesOf_base64Values. exact Hb.
Qed.

Lemma base64_nonempty (bytes : list N) : bytes <> [] -> base64 bytes <> [].
Proof.
  intro H. destruct bytes as [| a [| b [| c rest]]]; [congruence | | |];
    unfold base64; cbn [base64Values map app]; discriminate.
Qed.

Lemma badgeIn_content (m : list (jsstring * json)) (text : jsstring)
  (bytes : list N) :
  get (lit "content") m = Some (JStr text) ->
  withoutWhitespace text = base64 bytes ->
  bytes <> [] -> Forall (fun b => (b < 256)%N) bytes ->
  Part000.badgeIn (inr (JObj m))
  = Some (Some (includes (lit "bolt.new") (toLowerCase bytes))).
Proof.
  intros Hg He Hn Hb. unfold Part000.badgeIn, member. rewrite Hg.
  assert (Ht : text <> []).
  { intros ->. apply (base64_nonempty Hn). rewrite <- He. reflexivity. }
  destruct text as [| c text]; [congruence|].
  cbn [truthy JSON.toString]. rewrite (@atob_base64 bytes (c :: text) Hb He).
  reflexivity.
Qed.

Lemma tryAlternatives_first (file : jsstring -> Fetched json)
  (before : list jsstring) (f : jsstring) (after : list jsstring)
  (status : Z) (body : jsstring) (parsed : jsstring + json) (found : bool) :
  (forall g, In g before ->
             exists st t p, file g = Responded st t p /\ ok st = false) ->
  file f = Responded status body parsed -> ok status = true ->
  Part000.badgeIn parsed = Some (Some found) ->
  Part000.tryAlternatives file (before ++ f :: after) = found.
Proof.
  intros Hb Hf Hs Hp. induction before as [| g before IH]; cbn [app Part000.tryAlternatives].
  - rewrite Hf, Hs, Hp. reflexivity.
  - destruct (Hb g (or_introl eq_refl)) as (st & t & q & -> & ->).
    apply IH. intros h Hh. apply Hb. right. exact Hh.
Qed.

(** X19. The badge check is decided by the first of the files
    [src/App.tsx], [src/App.js], [src/app.tsx], [src/app.js], [App.tsx],
    [App.js] that the repository has: when the files before it are answered
    with an error status and it is served with its content in base64,
    with any line breaks, the badge is found exactly when the bytes of the
    file contain [bolt.new] in any letter case.  The files after it are not
    looked at. *)
Theorem checkBoltNewBadge_first_file (w : World) (owner repo : jsstring)
  (before : list jsstring) (file : jsstring) (after : list jsstring)
  (status : Z) (body : jsstring) (m : list (jsstring * json))
  (text : jsstring) (bytes : list N) :
  lit "src/App.tsx" :: Part000.alternativeFiles = before ++ file :: after ->
  (forall g, In g before ->
             exists st t p, contents w owner repo g = Responded st t p /\
                            ok st = false) ->
  contents w owner repo file = Responded status body (inr (JObj m)) ->
  ok status = true ->
  get (lit "content") m = Some (JStr text) ->
  withoutWhitespace text = base64 bytes ->
  bytes <> [] -> Forall (fun b => (b < 256)%N) bytes ->
  Part000.checkBoltNewBadge w owner repo
  = includes (lit "bolt.new") (toLowerCase bytes).
Proof.
  intros Hfiles Hbefore Hfile Hok Hget Henc Hne Hbytes.
  pose proof (@badgeIn_content m text bytes Hget Henc Hne Hbytes) as Hbadge.
  unfold Part000.checkBoltNewBadge.
  destruct before as [| g before].
  - cbn [app] in Hfiles. injection Hfiles as <- _.
    rewrite Hfile, Hok, Hbadge. reflexivity.
  - cbn [app] in Hfiles. injection Hfiles as <- Halt.
    destruct (Hbefore (lit "src/App.tsx") (or_introl eq_refl))
      as (st & t & q & -> & ->).
    rewrite Halt.
    apply (@tryAlternatives_first (contents w owner repo) before file after
             status body (inr (JObj m)) _
             (fun h Hh => Hbefore h (or_intror Hh)) Hfile Hok Hbadge).
Qed.

Lemma checkBoltNewBadge_first_file_witness :
  Part000.checkBoltNewBadge sampleWorld (lit "octo") (lit "demo") = true.
Proof.
  apply (@checkBoltNewBadge_first_file sampleWorld (lit "octo") (lit "demo")
           [lit "src/App.tsx"] (lit "src/App.js")
           [lit "src/app.tsx"; lit "src/app.js"; lit "App.tsx"; lit "App.js"]
           200 [] [(lit "content",
                    JStr (lit "TWFkZSB3aXRo" ++ nl ++ lit "IEJvbHQuTmV3" ++ nl))]
           (lit "TWFkZSB3aXRo" ++ nl ++ lit "IEJvbHQuTmV3" ++ nl)
           (lit "Made with Bolt.New")).
  - reflexivity.
  - intros g [<- | []].
    exists 404, (lit "Not Found"), (inr (JObj [])). split; reflexivity.
  - reflexivity.
  - reflexivity.
  - reflexivity.
  - vm_compute. reflexivity.
  - discriminate.
  - vm_compute. repeat constructor.
Defined.

(** ** The request handler *)



(** ** The page *)


(** X21. A click on the button with a blank URL changes nothing.
    Otherwise the page ends up not analysing, with the same URL, and never
    with both the error box and the result card: a result is kept only when
    the call reported no error and its data carry no [error] that counts as
    true, and then the error is cleared. *)
Theorem analyzeRepository_outcome (invoke : jsstring -> App.Invoked)
  (typeError : jsstring) (st : App.State) :
  let st' := App.analyzeRepository invoke typeError st in
  (trim (App.repoUrl st) = [] -> st' = st) /\
  (trim (App.repoUrl st) <> [] ->
   App.isAnalyzing st' = false /\ App.repoUrl st' = App.repoUrl st /\
   App.showsError st' && App.showsResult st' = false /\
   (App.result st' <> None ->
    App.result st' = Some (App.data (invoke (App.repoUrl st))) /\
    App.functionError (invoke (App.repoUrl st)) = None /\
    (exists err, member (lit "error") (App.data (invoke (App.repoUrl st)))
                 = Some err /\ truthy err = false) /\
    App.error st' = None)).
Proof.
  cbv zeta. unfold App.analyzeRepository.
  destruct (trim (App.repoUrl st)) as [| c t] eqn:E.
  - split; [reflexivity | congruence].
  - split; [discriminate|]. intros _.
    destruct (App.functionError (invoke (App.repoUrl st))) as [[| c' msg] |].
    + cbn. repeat split; congruence.
    + cbn. repeat split; congruence.
    + destruct (member (lit "error") (App.data (invoke (App.repoUrl st))))
        as [err |] eqn:Em.
      * destruct (truthy err) eqn:Et.
        -- destruct (match member (lit "details") (App.data (invoke (App.repoUrl st))) with
                     | Some details => if truthy details then details else err
                     | None => err
                     end) as [cause |];
             [destruct (JSON.toString cause) |];
             cbn [App.isAnalyzing App.repoUrl App.result App.error
                  App.showsError App.showsResult truthy];
             (split; [reflexivity | split; [reflexivity | split;
                [apply andb_false_r | intro H; congruence]]]).
        -- cbn [App.isAnalyzing App.repoUrl App.result App.error
                App.showsError App.showsResult].
           split; [reflexivity | split; [reflexivity | split; [reflexivity|]]].
           intros _. split; [reflexivity | split; [reflexivity | split;
             [exists err; split; [reflexivity | exact Et] | reflexivity]]].
      * cbn [App.isAnalyzing App.repoUrl App.result App.error
             App.showsError App.showsResult truthy].
        split; [reflexivity | split; [reflexivity | split;
          [apply andb_false_r | intro H; congruence]]].
Qed.

Lemma analyzeRepository_outcome_witness :
  App.analyzeRepository
    (fun _ => {| App.data := JNull; App.functionError := Some [] |})
    (lit "data is null")
    {| App.repoUrl := lit "   "; App.isAnalyzing := false;
       App.result := None; App.error := None |}
  = {| App.repoUrl := lit "   "; App.isAnalyzing := false;
       App.result := None; App.error := None |}.
Proof.
  apply (@analyzeRepository_outcome
           (fun _ => {| App.data := JNull; App.functionError := Some [] |})
           (lit "data is null")
           {| App.repoUrl := lit "   "; App.isAnalyzing := false;
              App.result := None; App.error := None |}).
  reflexivity.
Defined.

Lemma fetchGitHubData_same (w w' : World) (owner repo : jsstring) :
  sameRepositoryData w w' ->
  fetchGitHubData w owner repo = fetchGitHubData w' owner repo.
Proof.
  intros (_ & _ & _ & _ & _ & Hr & Hc). unfold fetchGitHubData.
  rewrite Hr, Hc. reflexivity.
Qed.

(** X18. Neither the files of the repository nor the model decide
    whether a request succeeds: two runs that differ only in the answers for
    the files and in the answers of the model give the same error, or both
    succeed with the same eligibility, the same commit patterns and the same
    echoed URL.  In the version without the badge check the whole verdict
    (flag, percentage, confidence and details) is the same as well. *)
Theorem serve_independent_of_model (w w' : World) (req : Request) :
  sameRepositoryData w w' ->
  match Part000.serve w req, Part000.serve w' req with
  | Preflight, Preflight => True
  | Failure status error details, Failure status' error' details' =>
      status = status' /\ error = error' /\ details = details'
  | Success r, Success r' =>
      Part000.repoUrl r = Part000.repoUrl r' /\
      Part000.result_isEligible r = Part000.result_isEligible r' /\
      Part000.eligibilityReason r = Part000.eligibilityReason r' /\
      Part000.commitPatterns r = Part000.commitPatterns r'
  | _, _ => False
  end /\
  match Part001.serve w req, Part001.serve w' req with
  | Preflight, Preflight => True
  | Failure status error details, Failure status' error' details' =>
      status = status' /\ error = error' /\ details = details'
  | Success r, Success r' =>
      Part001.repoUrl r = Part001.repoUrl r' /\
      Part001.result_isEligible r = Part001.result_isEligible r' /\
      Part001.eligibilityReason r = Part001.eligibilityReason r' /\
      Part001.commitPatterns r = Part001.commitPatterns r' /\
      Part001.isLikelyAIGenerated r = Part001.isLikelyAIGenerated r' /\
      Part001.result_verificationPercentage r
      = Part001.result_verificationPercentage r' /\
      Part001.result_confidence r = Part001.result_confidence r' /\
      Part001.details r = Part001.details r'
  | _, _ => False
  end.
Proof.
  intro H. pose proof (fun owner repo => fetchGitHubData_same owner repo H) as Hf.
  destruct H as (Htz & Ht & Hk & Hs & Hy & _ & _).
  unfold Part000.serve, Part001.serve.
  rewrite <- Htz, <- Ht, <- Hk, <- Hs, <- Hy.
  destruct (JSString.eqb (method req) (lit "OPTIONS")); [split; exact I|].
  destruct (JSON.parse (body req)) as [parsed |]; [|repeat split].
  destruct (member (lit "repoUrl") parsed) as [repoUrl |]; [|repeat split].
  destruct (negb (truthy repoUrl)); [repeat split|].
  destruct repoUrl as [[| b | q | url | l | o] |]; try solve [repeat split].
  destruct (matchGitHubUrl url) as [[owner repo] |]; [|repeat split].
  destruct (GITHUB_TOKEN w) as [[| t oken] |]; try solve [repeat split].
  destruct (GEMINI_API_KEY w) as [[| k ey] |]; try solve [repeat split].
  rewrite <- (Hf owner (cleanRepo repo)).
  destruct (fetchGitHubData w owner (cleanRepo repo)) as [message | [repoData commits]];
    repeat split.
Qed.

Lemma serve_independent_of_model_witness :
  sameRepositoryData sampleWorld answeringWorld /\
  match Part000.serve sampleWorld (sampleRequest "https://github.com/octo/demo"),
        Part000.serve answeringWorld (sampleRequest "https://github.com/octo/demo")
  with
  | Preflight, Preflight => True
  | Failure status error details, Failure status' error' details' =>
      status = status' /\ error = error' /\ details = details'
  | Success r, Success r' =>
      Part000.repoUrl r = Part000.repoUrl r' /\
      Part000.result_isEligible r = Part000.result_isEligible r' /\
      Part000.eligibilityReason r = Part000.eligibilityReason r' /\
      Part000.commitPatterns r = Part000.commitPatterns r'
  | _, _ => False
  end.
Proof.
  assert (H : sameRepositoryData sampleWorld answeringWorld)
    by (repeat split).
  split; [exact H|].
  exact (proj1 (@serve_independent_of_model sampleWorld answeringWorld
                  (sampleRequest "https://github.com/octo/demo") H)).
Defined.

(** ** The prompt *)

Lemma join_split (sep m : jsstring) (l : list jsstring) :
  In m l -> exists a b, join sep l = a ++ m ++ b.
Proof.
  induction l as [| x l IH]; intro H; [contradiction|].
  destruct H as [-> | H].
  - destruct l as [| y l].
    + exists [], []. cbn [join app]. now rewrite app_nil_r.
    + exists [], (sep ++ join sep (y :: l)). reflexivity.
  - destruct (IH H) as (a & b & E). destruct l as [| y l]; [contradiction|].
    exists (x ++ sep ++ a), b.
    change (join sep (x :: y :: l)) with (x ++ sep ++ join sep (y :: l)).
    rewrite E, <- !app_assoc. reflexivity.
Qed.

Lemma concat_split (x : jsstring) (l : list jsstring) :
  In x l -> exists a b, List.concat l = a ++ x ++ b.
Proof.
  intro H. apply in_split in H. destruct H as (l1 & l2 & ->).
  exists (List.concat l1), (List.concat l2).
  rewrite concat_app. reflexivity.
Qed.

Lemma includes_inside (m a b c d : jsstring) :
  includes m (a ++ (c ++ m ++ d) ++ b) = true.
Proof.
  replace (a ++ (c ++ m ++ d) ++ b) with ((a ++ c) ++ m ++ (d ++ b))
    by (rewrite <- !app_assoc; reflexivity).
  apply includes_app.
Qed.

(** X22. The prompt for the model carries the messages of the first
    fifteen commits of the list, each of them in full, and nothing of the
    later commits: it is the same for two commit lists with the same first
    fifteen commits (the counts come from the commit patterns). *)
Theorem prompt_commit_messages (repoData : GitHubRepo)
  (commits commits' : list GitHubCommit)
  (p0 : Part000.CommitPatterns) (p1 : Part001.CommitPatterns) :
  (forall commit, In commit (firstn 15 commits) ->
     includes (commit_message commit) (Part000.prompt repoData commits p0) = true /\
     includes (commit_message commit) (Part001.prompt repoData commits p1) = true) /\
  (firstn 15 commits = firstn 15 commits' ->
   Part000.prompt repoData commits p0 = Part000.prompt repoData commits' p0 /\
   Part001.prompt repoData commits p1 = Part001.prompt repoData commits' p1).
Proof.
  split.
  - intros commit H.
    assert (Hm : exists c d, commitMessages commits
                             = c ++ commit_message commit ++ d).
    { apply join_split. apply in_map. exact H. }
    destruct Hm as (c & d & Hm).
    split.
    + assert (Hp : exists a b, Part000.prompt repoData commits p0
                               = a ++ commitMessages commits ++ b).
      { apply concat_split.
        repeat first [left; reflexivity | right]. }
      destruct Hp as (a & b & ->). rewrite Hm. apply includes_inside.
    + assert (Hp : exists a b, Part001.prompt repoData commits p1
                               = a ++ commitMessages commits ++ b).
      { apply concat_split.
        repeat first [left; reflexivity | right]. }
      destruct Hp as (a & b & ->). rewrite Hm. apply includes_inside.
  - intro H. unfold Part000.prompt, Part001.prompt, commitMessages.
    rewrite H. split; reflexivity.
Qed.

(** ** The statuses of the responses *)

